(** * Order-management backend (users, products, orders over SQLite)

    A shallow embedding of the order workflow of the repository:
    [db.js] (the connection wrapper and the schema with its CHECK constraints
    and the [update_stock_on_order] trigger), [utils/validation.js]
    ([businessValidators], [sanitize], the schemas of the two POST routes),
    [models/productModel.js], [models/orderModel.js], and the routes
    [POST /orders] and [POST /products] of [routes/].

    Conventions of the embedding:
    - SQLite INTEGER columns and integral JavaScript numbers are [Z]; where
      the code adds or subtracts them in JavaScript, the sum is that of
      doubles;
    - prices are IEEE-754 binary64 numbers, as JavaScript has them ([float]);
    - TEXT columns restricted by a CHECK(... IN (...)) constraint are
      enumerations, with the text the code compares against and prints;
    - nullable values are [option];
    - an [async] method is a computation in a state-and-exception monad over
      the database connection; [await] is sequencing, [try]/[catch] is
      [try_catch];
    - every call of [DatabaseManager.run]/[get] can be rejected by the driver
      (a lost connection, a busy or failing disk); which call sites are
      rejected is given by a [faults] schedule;
    - calls run one after the other on the single connection;
    - timestamps ([order_date], [created_at], [updated_at]) and logging are
      left out: no decision of the code depends on them. *)

From Stdlib Require Import ZArith Lia QArith Strings.Ascii.
From Stdlib Require Import Floats.PrimFloat Floats.SpecFloat Floats.FloatOps.
From Stdlib Require Import Floats.FloatAxioms.
From stdpp Require Import gmap strings pretty sorting.

Open Scope Z_scope.

(* ===================================================================== *)
(** * JavaScript built-ins used by the models *)
(* ===================================================================== *)

Module Js.

(** The double nearest to an integer (an integral JavaScript number used in
    floating-point arithmetic). *)
Definition Z2float (z : Z) : float :=
  SF2Prim (binary_normalize prec emax z 0 false).

(** The integer that a number holds: an integral double is bound to a
    parameter of a statement, and stored in an INTEGER column, as that
    integer. [None] for NaN, the infinities and a number with a fraction. *)
Definition integer_of (x : float) : option Z :=
  match Prim2SF x with
  | S754_zero _ => Some 0
  | S754_finite s m e =>
      if 0 <=? e then
        Some ((if s then -1 else 1) * (Z.pos m * 2 ^ e))
      else if Z.pos m mod 2 ^ (- e) =? 0 then
        Some ((if s then -1 else 1) * (Z.pos m / 2 ^ (- e)))
      else None
  | S754_infinity _ => None
  | S754_nan => None
  end.

(** [a + b] and [a - b] for two integral numbers, each read as the double
    nearest to it: the sum and the difference of doubles, rounded to nearest.
    Up to 2^53 they are the exact ones; [5 + 2^53] is [2^53 + 4]. *)
Definition add (a b : Z) : float := PrimFloat.add (Z2float a) (Z2float b).

Definition sub (a b : Z) : float := PrimFloat.sub (Z2float a) (Z2float b).


(** [parseFloat(x)] for a number [x]: the number is printed and read back,
    which gives the same number, except that [-0] prints as [0]. *)
Definition parseFloat (x : float) : float :=
  if PrimFloat.eqb x PrimFloat.zero then PrimFloat.zero else x.

(** A finite JavaScript number in the decimal form in which
    [Number.prototype.toString] prints it: [dec_mant * 10^(-dec_scale)].
    [2.5] is [{| dec_mant := 25; dec_scale := 1 |}], [3] is
    [{| dec_mant := 3; dec_scale := 0 |}]. *)
Record jsnum := { dec_mant : Z; dec_scale : nat }.

Definition jsint (z : Z) : jsnum := {| dec_mant := z; dec_scale := 0 |}.

Definition pow10 (n : nat) : Z := 10 ^ Z.of_nat n.

(** [!x] for a number: only zero is falsy (NaN is not a [jsnum]). *)
Definition num_falsy (x : jsnum) : bool := dec_mant x =? 0.

(** [Number.isInteger]. *)
Definition is_integer (x : jsnum) : bool :=
  dec_mant x mod pow10 (dec_scale x) =? 0.

(** First decimal digit of a positive integer. *)
Fixpoint leading_digit (fuel : nat) (a : Z) : Z :=
  match fuel with
  | O => a
  | S fuel' => if a <? 10 then a else leading_digit fuel' (a / 10)
  end.

(** [parseInt(x)] for a finite number [x]: the argument is first printed.
    For [1e-6 <= |x| < 1e21] the text is plain decimal notation and the
    digits before the point are read: the value truncated towards zero.
    Outside that range the text is in exponent notation ([1.5e-7],
    [1e+21]) and only its first digit is read. The result is never NaN for
    a finite number. *)
Definition parseInt (x : jsnum) : Z :=
  let m := dec_mant x in
  let a := Z.abs m in
  if m =? 0 then 0
  else if (pow10 (dec_scale x) <=? a * 10 ^ 6)
          && (a <? 10 ^ 21 * pow10 (dec_scale x))
  then Z.quot m (pow10 (dec_scale x))
  else Z.sgn m * leading_digit (S (Z.to_nat (Z.log2 a))) a.

(** ** Strings *)

Definition is_space (c : ascii) : bool :=
  let n := nat_of_ascii c in
  ((9 <=? n)%nat && (n <=? 13)%nat) || (n =? 32)%nat.

Fixpoint trim_start (s : string) : string :=
  match s with
  | String c s' => if is_space c then trim_start s' else s
  | EmptyString => EmptyString
  end.

(** [String.prototype.trim] (on ASCII text). *)
Definition trim (s : string) : string :=
  String.rev (trim_start (String.rev (trim_start s))).

Definition upper_char (c : ascii) : ascii :=
  let n := nat_of_ascii c in
  if ((97 <=? n)%nat && (n <=? 122)%nat) then ascii_of_nat (n - 32) else c.

(** [String.prototype.toUpperCase] (on ASCII text). *)
Fixpoint toUpperCase (s : string) : string :=
  match s with
  | String c s' => String (upper_char c) (toUpperCase s')
  | EmptyString => EmptyString
  end.

Fixpoint remove_chars (bad : ascii -> bool) (s : string) : string :=
  match s with
  | String c s' =>
      if bad c then remove_chars bad s' else String c (remove_chars bad s')
  | EmptyString => EmptyString
  end.

(** [!s] for a string: only the empty string is falsy. *)
Definition str_falsy (s : string) : bool :=
  match s with EmptyString => true | _ => false end.

(** [String.prototype.startsWith], with [Ascii.eqb] on the characters. *)
Fixpoint starts_with (s pat : string) : bool :=
  match pat, s with
  | EmptyString, _ => true
  | String _ _, EmptyString => false
  | String a pat', String b s' => Ascii.eqb a b && starts_with s' pat'
  end.

(** [String.prototype.includes]: [pat] occurs somewhere in [s]. *)
Fixpoint includes_text (s pat : string) : bool :=
  starts_with s pat
  || match s with
     | EmptyString => false
     | String _ s' => includes_text s' pat
     end.

Definition is_digit (c : ascii) : bool :=
  let n := nat_of_ascii c in
  (48 <=? n)%nat && (n <=? 57)%nat.



Definition lower_char (c : ascii) : ascii :=
  let n := nat_of_ascii c in
  if ((65 <=? n)%nat && (n <=? 90)%nat) then ascii_of_nat (n + 32) else c.

(** [String.prototype.toLowerCase] (on ASCII text). *)
Fixpoint toLowerCase (s : string) : string :=
  match s with
  | String c s' => String (lower_char c) (toLowerCase s')
  | EmptyString => EmptyString
  end.

End Js.

(* ===================================================================== *)
(** * The data model (schema of [initDatabase]) *)
(* ===================================================================== *)

Inductive user_status := active | inactive | suspended.
Inductive product_status := available | out_of_stock | discontinued.
Inductive order_status := pending | confirmed | shipped | delivered | cancelled.

Definition product_status_text (s : product_status) : string :=
  match s with
  | available => "available"
  | out_of_stock => "out_of_stock"
  | discontinued => "discontinued"
  end.

Definition order_status_text (s : order_status) : string :=
  match s with
  | pending => "pending"
  | confirmed => "confirmed"
  | shipped => "shipped"
  | delivered => "delivered"
  | cancelled => "cancelled"
  end.

(** The CHECK constraint on [orders.status], read as a parser. *)
Definition order_status_of_text (s : string) : option order_status :=
  if String.eqb s "pending" then Some pending
  else if String.eqb s "confirmed" then Some confirmed
  else if String.eqb s "shipped" then Some shipped
  else if String.eqb s "delivered" then Some delivered
  else if String.eqb s "cancelled" then Some cancelled
  else None.

(** The CHECK constraint on [products.status]. *)
Definition product_status_of_text (s : string) : option product_status :=
  if String.eqb s "available" then Some available
  else if String.eqb s "out_of_stock" then Some out_of_stock
  else if String.eqb s "discontinued" then Some discontinued
  else None.

#[global] Instance user_status_eq_dec : EqDecision user_status.
Proof. solve_decision. Defined.
#[global] Instance product_status_eq_dec : EqDecision product_status.
Proof. solve_decision. Defined.
#[global] Instance order_status_eq_dec : EqDecision order_status.
Proof. solve_decision. Defined.

(** Rows are keyed by their [id] (the rowid) in the tables below. *)
Record user := {
  u_name : string;
  u_email : string;
  u_phone : option string;
  u_address : option string;
  u_status : user_status
}.

Record product := {
  p_name : string;
  p_description : option string;
  p_price : float;
  p_category : string;
  p_stockQuantity : Z;
  p_sku : option string;
  p_status : product_status
}.

Record order := {
  o_user_id : Z;
  o_product_id : Z;
  o_quantity : Z;
  o_unit_price : float;
  o_total_price : float;
  o_status : order_status;
  o_notes : option string
}.

Record tables := {
  users : gmap Z user;
  products : gmap Z product;
  orders : gmap Z order;
  (** the AUTOINCREMENT counter of [orders] (table [sqlite_sequence]) *)
  orders_seq : Z
}.

(** The connection: the tables as this connection sees them, and, while a
    transaction is open, the tables as they were at BEGIN. *)
Record db := {
  cur : tables;
  txn : option tables
}.

(* ===================================================================== *)
(** * The connection wrapper ([DatabaseManager]) and the SQL it is sent *)
(* ===================================================================== *)

Module Store.

(** A promise settles with a value or rejects with an [Error]; the
    connection state it leaves behind is kept in both cases. *)
Inductive outcome (A : Type) : Type :=
| Return (a : A)
| Throw (msg : string).
Arguments Return {A} a.
Arguments Throw {A} msg.

Definition M (A : Type) : Type := db -> outcome A * db.

Definition ret {A} (a : A) : M A := fun d => (Return a, d).

Definition throw {A} (msg : string) : M A := fun d => (Throw msg, d).

Definition bind {A B} (m : M A) (k : A -> M B) : M B :=
  fun d =>
    match m d with
    | (Return a, d') => k a d'
    | (Throw e, d') => (Throw e, d')
    end.

(** [try { m } catch (error) { h error }] *)
Definition try_catch {A} (m : M A) (h : string -> M A) : M A :=
  fun d =>
    match m d with
    | (Return a, d') => (Return a, d')
    | (Throw e, d') => h e d'
    end.

Notation "'let*' x ':=' m 'in' k" := (bind m (fun x => k))
  (at level 10, x name, m at level 100, k at level 200, only parsing).
Notation "'do' m 'then' k" := (bind m (fun _ => k))
  (at level 10, m at level 100, k at level 200, only parsing).

Definition get_cur : M tables := fun d => (Return (cur d), d).

Definition set_cur (t : tables) : M unit :=
  fun d => (Return tt, {| cur := t; txn := txn d |}).

(** ** Rejected calls *)

(** The call sites of [run] and [get] inside one model method. *)
Inductive site :=
| AtValidateUser      (* businessValidators.userExists *)
| AtValidateProduct   (* businessValidators.productAvailable *)
| AtSkuCheck          (* businessValidators.isSkuUnique *)
| AtLookup            (* the findById that opens the method *)
| AtBegin             (* BEGIN TRANSACTION *)
| AtWrite             (* the INSERT or UPDATE of the method *)
| AtWriteStock        (* the UPDATE products of cancel *)
| AtCommit            (* COMMIT *)
| AtReadBack          (* the findById/findByIdWithDetails that is returned *)
| AtRollback.         (* ROLLBACK *)

#[global] Instance site_eq_dec : EqDecision site.
Proof. solve_decision. Defined.

(** For each call site, the error with which the driver rejects the call
    there, if it does. *)
Definition faults : Type := site -> option string.

Definition reliable : faults := fun _ => None.

Definition fail_at (s : site) (msg : string) : faults :=
  fun s' => if decide (s' = s) then Some msg else None.

(** [run]/[get]: reject with the driver's error, or execute the statement. *)
Definition driver {A} (f : option string) (stmt : M A) : M A :=
  match f with
  | Some e => throw e
  | None => stmt
  end.

(** ** Transactions *)

Definition beginTransaction (f : option string) : M unit :=
  driver f (fun d =>
    match txn d with
    | Some _ =>
        (Throw "SQLITE_ERROR: cannot start a transaction within a transaction", d)
    | None => (Return tt, {| cur := cur d; txn := Some (cur d) |})
    end).

Definition commitTransaction (f : option string) : M unit :=
  driver f (fun d =>
    match txn d with
    | Some _ => (Return tt, {| cur := cur d; txn := None |})
    | None => (Throw "SQLITE_ERROR: cannot commit - no transaction is active", d)
    end).

Definition rollbackTransaction (f : option string) : M unit :=
  driver f (fun d =>
    match txn d with
    | Some t => (Return tt, {| cur := t; txn := None |})
    | None => (Throw "SQLITE_ERROR: cannot rollback - no transaction is active", d)
    end).

(** ** Writes. A statement that violates a constraint is undone as a whole
    (the trigger's update included) and leaves the transaction open. *)

Definition max_rowid {A} (m : gmap Z A) : Z :=
  map_fold (fun k _ acc => Z.max k acc) 0 m.

Definition with_stock (p : product) (stock : Z) (st : product_status) : product :=
  {| p_name := p_name p; p_description := p_description p;
     p_price := p_price p; p_category := p_category p;
     p_stockQuantity := stock; p_sku := p_sku p; p_status := st |}.

(** The trigger [update_stock_on_order], on the row of [NEW.product_id]. *)
Definition update_stock_on_order (p : product) (new_quantity : Z) : product :=
  with_stock p (p_stockQuantity p - new_quantity)
    (if p_stockQuantity p - new_quantity <=? 0 then out_of_stock
     else p_status p).

(** [INSERT INTO orders (user_id, product_id, quantity, unit_price,
    total_price, notes) VALUES (?, ?, ?, ?, ?, ?)], with its trigger.
    Resolves with [lastID]. A NaN is bound as NULL. *)
Definition insert_order (f : option string)
    (user_id product_id quantity : Z) (unit_price total_price : float)
    (notes : option string) : M Z :=
  driver f (
    let* t := get_cur in
    if is_nan unit_price || is_nan total_price then
      throw "SQLITE_CONSTRAINT: NOT NULL constraint failed"
    else if negb (0 <? quantity) then
      throw "SQLITE_CONSTRAINT: CHECK constraint failed: quantity > 0"
    else
      match users t !! user_id, products t !! product_id with
      | Some _, Some p =>
          let p' := update_stock_on_order p quantity in
          if p_stockQuantity p' <? 0 then
            throw "SQLITE_CONSTRAINT: CHECK constraint failed: stockQuantity >= 0"
          else
            let new_id := Z.max (orders_seq t) (max_rowid (orders t)) + 1 in
            let row := {| o_user_id := user_id; o_product_id := product_id;
                          o_quantity := quantity; o_unit_price := unit_price;
                          o_total_price := total_price; o_status := pending;
                          o_notes := notes |} in
            do set_cur {| users := users t;
                          products := <[product_id := p']> (products t);
                          orders := <[new_id := row]> (orders t);
                          orders_seq := new_id |}
            then ret new_id
      | _, _ => throw "SQLITE_CONSTRAINT: FOREIGN KEY constraint failed"
      end).

Definition with_status (o : order) (s : order_status) (notes : option string)
    : order :=
  {| o_user_id := o_user_id o; o_product_id := o_product_id o;
     o_quantity := o_quantity o; o_unit_price := o_unit_price o;
     o_total_price := o_total_price o; o_status := s; o_notes := notes |}.

Definition set_order (t : tables) (id : Z) (o : order) : tables :=
  {| users := users t; products := products t;
     orders := <[id := o]> (orders t); orders_seq := orders_seq t |}.

(** [UPDATE orders SET status = ?, notes = ? WHERE id = ?]; resolves with
    [changes]. *)
Definition update_order_status (f : option string)
    (status : string) (notes : option string) (id : Z) : M Z :=
  driver f (
    let* t := get_cur in
    match orders t !! id with
    | None => ret 0
    | Some o =>
        match order_status_of_text status with
        | None => throw "SQLITE_CONSTRAINT: CHECK constraint failed: status"
        | Some s =>
            do set_cur (set_order t id (with_status o s notes)) then ret 1
        end
    end).

Definition set_product (t : tables) (id : Z) (p : product) : tables :=
  {| users := users t; products := <[id := p]> (products t);
     orders := orders t; orders_seq := orders_seq t |}.

(** The assignments [stockQuantity = stockQuantity + ?, status = CASE WHEN
    status = 'out_of_stock' AND stockQuantity + ? > 0 THEN 'available' ELSE
    status END], with the two parameters in order. *)
Definition restock (p : product) (quantity1 quantity2 : Z) : product :=
  with_stock p (p_stockQuantity p + quantity1)
    (if bool_decide (p_status p = out_of_stock)
        && (0 <? p_stockQuantity p + quantity2)
     then available else p_status p).

(** [UPDATE products SET stockQuantity = stockQuantity + ?, status = CASE ...
    END WHERE id = ?] *)
Definition restore_stock (f : option string)
    (quantity1 quantity2 product_id : Z) : M Z :=
  driver f (
    let* t := get_cur in
    match products t !! product_id with
    | None => ret 0
    | Some p =>
        if p_stockQuantity (restock p quantity1 quantity2) <? 0 then
          throw "SQLITE_CONSTRAINT: CHECK constraint failed: stockQuantity >= 0"
        else
          do set_cur (set_product t product_id (restock p quantity1 quantity2))
          then ret 1
    end).

(** The message for a stock that the tables of this development cannot
    hold. *)
Definition stock_not_finite : string :=
  "stockQuantity: NaN or Infinity".

(** [UPDATE products SET stockQuantity = ?, status = ? WHERE id = ?], the
    first parameter being a JavaScript number. An integral number is stored
    as that integer; a negative one, [-Infinity] included, fails the CHECK.
    The [stockQuantity] of the tables is an integer: [+Infinity], which SQLite
    would store, and NaN, which is bound as NULL, have no place in them, and
    the statement is rejected with [stock_not_finite]. Either needs a sum
    beyond 1.7e308. *)
Definition set_stock (f : option string)
    (newQuantity : float) (newStatus : product_status) (id : Z) : M Z :=
  driver f (
    let* t := get_cur in
    match products t !! id with
    | None => ret 0
    | Some p =>
        match Js.integer_of newQuantity with
        | Some n =>
            if n <? 0 then
              throw "SQLITE_CONSTRAINT: CHECK constraint failed: stockQuantity >= 0"
            else do set_cur (set_product t id (with_stock p n newStatus))
                 then ret 1
        | None =>
            if PrimFloat.ltb newQuantity 0 then
              throw "SQLITE_CONSTRAINT: CHECK constraint failed: stockQuantity >= 0"
            else throw stock_not_finite
        end
    end).

(** The columns [ProductModel.update] may assign; [None] leaves the column
    out of the SET clause. *)
Record product_patch := {
  set_name : option string;
  set_description : option (option string);
  set_price : option float;
  set_category : option string;
  set_stockQuantity : option Z;
  set_status : option string;
  set_sku : option (option string)
}.

Definition patch_is_empty (u : product_patch) : bool :=
  match set_name u, set_description u, set_price u, set_category u,
        set_stockQuantity u, set_status u, set_sku u with
  | None, None, None, None, None, None, None => true
  | _, _, _, _, _, _, _ => false
  end.

(** The id of a product carrying [sku], other than [exclude]. *)
Definition sku_owner (t : tables) (sku : string) (exclude : option Z)
    : option Z :=
  fst <$> head (filter
    (fun kp : Z * product =>
       bool_decide (p_sku kp.2 = Some sku) && negb (bool_decide (Some kp.1 = exclude)) = true)
    (map_to_list (products t))).

(** [UPDATE products SET <the columns of the patch> WHERE id = ?], under the
    constraints of the table: name NOT NULL and non-empty, price NOT NULL and
    at least 0.01, stockQuantity >= 0, status one of the three, sku UNIQUE. *)
Definition update_product (f : option string) (u : product_patch) (id : Z)
    : M Z :=
  driver f (
    let* t := get_cur in
    match products t !! id with
    | None => ret 0
    | Some p =>
        let name := default (p_name p) (set_name u) in
        let price := default (p_price p) (set_price u) in
        let stock := default (p_stockQuantity p) (set_stockQuantity u) in
        let sku := default (p_sku p) (set_sku u) in
        let status :=
          match set_status u with
          | None => Some (p_status p)
          | Some s => product_status_of_text s
          end in
        if Js.str_falsy name then
          throw "SQLITE_CONSTRAINT: CHECK constraint failed: length(name) > 0"
        else if is_nan price then
          throw "SQLITE_CONSTRAINT: NOT NULL constraint failed: products.price"
        else if negb (PrimFloat.leb 0x1.47ae147ae147bp-7%float price) then
          throw "SQLITE_CONSTRAINT: CHECK constraint failed: price >= 0.01"
        else if stock <? 0 then
          throw "SQLITE_CONSTRAINT: CHECK constraint failed: stockQuantity >= 0"
        else
          match status with
          | None => throw "SQLITE_CONSTRAINT: CHECK constraint failed: status"
          | Some st =>
              if match sku with
                 | Some k => bool_decide (is_Some (sku_owner t k (Some id)))
                 | None => false
                 end
              then throw "SQLITE_CONSTRAINT: UNIQUE constraint failed: products.sku"
              else
                do set_cur (set_product t id
                     {| p_name := name;
                        p_description := default (p_description p) (set_description u);
                        p_price := price;
                        p_category := default (p_category p) (set_category u);
                        p_stockQuantity := stock;
                        p_sku := sku;
                        p_status := st |})
                then ret 1
          end
    end).

(** ** Reads *)

Definition query {A} (f : option string) (q : tables -> A) : M A :=
  driver f (let* t := get_cur in ret (q t)).

(** [SELECT * FROM orders WHERE id = ?] *)
Definition select_order (f : option string) (id : Z) : M (option order) :=
  query f (fun t => orders t !! id).

(** [SELECT * FROM products WHERE id = ?] *)
Definition select_product (f : option string) (id : Z) : M (option product) :=
  query f (fun t => products t !! id).

(** [SELECT id, status FROM users WHERE id = ?] *)
Definition select_user_status (f : option string) (id : Z)
    : M (option (Z * user_status)) :=
  query f (fun t => (fun u => (id, u_status u)) <$> users t !! id).

(** The row of [SELECT id, name, price, stockQuantity, status FROM products
    WHERE id = ?] *)
Record product_snapshot := {
  snap_id : Z;
  snap_name : string;
  snap_price : float;
  snap_stockQuantity : Z;
  snap_status : product_status
}.

Definition select_product_snapshot (f : option string) (id : Z)
    : M (option product_snapshot) :=
  query f (fun t =>
    (fun p => {| snap_id := id; snap_name := p_name p; snap_price := p_price p;
                 snap_stockQuantity := p_stockQuantity p;
                 snap_status := p_status p |}) <$> products t !! id).

(** [SELECT id FROM products WHERE sku = ?], with [AND id != ?] when an id to
    exclude is given. *)
Definition select_sku_owner (f : option string) (sku : string)
    (exclude : option Z) : M (option Z) :=
  query f (fun t => sku_owner t sku exclude).

(** The row of the three-way join of [findByIdWithDetails]. *)
Record order_details := {
  det_id : Z;
  det_order : order;
  det_user_name : string;
  det_user_email : string;
  det_user_phone : option string;
  det_product_name : string;
  det_product_description : option string;
  det_product_category : string;
  det_product_sku : option string
}.

(** [SELECT o.*, u.name, u.email, u.phone, p.name, p.description, p.category,
    p.sku FROM orders o JOIN users u ON o.user_id = u.id JOIN products p ON
    o.product_id = p.id WHERE o.id = ?] *)
Definition select_order_details (f : option string) (id : Z)
    : M (option order_details) :=
  query f (fun t =>
    match orders t !! id with
    | None => None
    | Some o =>
        match users t !! o_user_id o, products t !! o_product_id o with
        | Some u, Some p =>
            Some {| det_id := id; det_order := o;
                    det_user_name := u_name u; det_user_email := u_email u;
                    det_user_phone := u_phone u;
                    det_product_name := p_name p;
                    det_product_description := p_description p;
                    det_product_category := p_category p;
                    det_product_sku := p_sku p |}
        | _, _ => None
        end
    end).

(** ** Statements of the methods outside the order workflow *)

(** [INSERT INTO products (name, description, price, category, stockQuantity,
    sku) VALUES (?, ?, ?, ?, ?, ?)]; the status takes its default,
    ['available']. Resolves with [lastID]. No statement of the code deletes
    a product, so the AUTOINCREMENT counter of [products] is always the
    largest id in the table and is not kept apart. *)
Definition insert_product (f : option string) (name : string)
    (description : option string) (price : float) (category : string)
    (stockQuantity : Z) (sku : option string) : M Z :=
  driver f (
    let* t := get_cur in
    if Js.str_falsy name then
      throw "SQLITE_CONSTRAINT: CHECK constraint failed: length(name) > 0"
    else if is_nan price then
      throw "SQLITE_CONSTRAINT: NOT NULL constraint failed: products.price"
    else if negb (PrimFloat.leb 0x1.47ae147ae147bp-7%float price) then
      throw "SQLITE_CONSTRAINT: CHECK constraint failed: price >= 0.01"
    else if stockQuantity <? 0 then
      throw "SQLITE_CONSTRAINT: CHECK constraint failed: stockQuantity >= 0"
    else if match sku with
            | Some k => bool_decide (is_Some (sku_owner t k None))
            | None => false
            end
    then throw "SQLITE_CONSTRAINT: UNIQUE constraint failed: products.sku"
    else
      let new_id := max_rowid (products t) + 1 in
      do set_cur (set_product t new_id
           {| p_name := name; p_description := description; p_price := price;
              p_category := category; p_stockQuantity := stockQuantity;
              p_sku := sku; p_status := available |})
      then ret new_id).

(** [UPDATE products SET status = ? WHERE id = ?]; resolves with [changes]. *)
Definition update_product_status (f : option string)
    (status : product_status) (id : Z) : M Z :=
  driver f (
    let* t := get_cur in
    match products t !! id with
    | None => ret 0
    | Some p =>
        do set_cur (set_product t id (with_stock p (p_stockQuantity p) status))
        then ret 1
    end).

(** [SELECT * FROM products WHERE sku = ?] *)
Definition select_product_by_sku (f : option string) (sku : string)
    : M (option (Z * product)) :=
  query f (fun t =>
    match sku_owner t sku None with
    | Some id => (fun p => (id, p)) <$> products t !! id
    | None => None
    end).

(** [SELECT COUNT( * ) as count FROM orders WHERE product_id = ? AND status
    IN ('pending', 'confirmed')] *)
Definition count_open_orders (f : option string) (product_id : Z) : M Z :=
  query f (fun t =>
    Z.of_nat (length (filter
      (fun ko : Z * order =>
         o_product_id ko.2 = product_id
         /\ (o_status ko.2 = pending \/ o_status ko.2 = confirmed))
      (map_to_list (orders t))))).

(** Rows in ascending order of stock, rows with the same stock in the order
    of their ids. *)
Definition by_stock (a b : Z * product) : Prop :=
  p_stockQuantity a.2 < p_stockQuantity b.2
  \/ (p_stockQuantity a.2 = p_stockQuantity b.2 /\ a.1 <= b.1).

#[global] Instance by_stock_dec a b : Decision (by_stock a b) :=
  or_dec (Z_lt_dec (p_stockQuantity a.2) (p_stockQuantity b.2))
    (and_dec (Z.eq_dec (p_stockQuantity a.2) (p_stockQuantity b.2))
       (Z_le_dec a.1 b.1)).

(** [SELECT * FROM products WHERE stockQuantity <= ? AND status != ? ORDER BY
    stockQuantity ASC], with the second parameter as a status. SQL leaves the
    order of rows with equal stock open; SQLite scans the table by id and
    keeps that order among them. *)
Definition select_low_stock (f : option string) (threshold : Z)
    (excluded : product_status) : M (list (Z * product)) :=
  query f (fun t =>
    merge_sort by_stock (filter
      (fun kp : Z * product =>
         p_stockQuantity kp.2 <= threshold /\ p_status kp.2 <> excluded)
      (map_to_list (products t)))).

End Store.

Import Store.

(* ===================================================================== *)
(** * [utils/validation.js] *)
(* ===================================================================== *)

Module Validation.

(** [customValidation.quantity]: the rules that the route's schema adds to
    [Joi.number()] for a quantity: an integer, positive, at least 1 and at
    most [max] ([MAX_ORDER_QUANTITY], 100 when unset). The limit of
    [Joi.number()] itself, a magnitude of at most 2^53 - 1, is
    [Schemas.safe_number]. *)
Definition quantity_rule (max : Z) (q : Js.jsnum) : bool :=
  Js.is_integer q
  && (0 <? Js.dec_mant q)
  && (Js.pow10 (Js.dec_scale q) <=? Js.dec_mant q)
  && (Js.dec_mant q <=? max * Js.pow10 (Js.dec_scale q)).

(** [businessValidators.userExists] *)
Definition userExists (f : option string) (userId : Z) : M bool :=
  try_catch
    (let* user := select_user_status f userId in
     ret match user with
         | Some (_, st) => bool_decide (st = active)
         | None => false
         end)
    (fun _ => throw "Unable to validate user").

(** [businessValidators.isSkuUnique]; the exclusion is only added for a
    truthy id. *)
Definition isSkuUnique (f : option string) (sku : string)
    (excludeProductId : option Z) : M bool :=
  if Js.str_falsy sku then ret true
  else
    try_catch
      (let* existingProduct :=
         select_sku_owner f sku
           (match excludeProductId with
            | Some 0 => None
            | e => e
            end) in
       ret match existingProduct with Some _ => false | None => true end)
      (fun _ => throw "Unable to validate SKU uniqueness").

(** The object returned by [productAvailable]: [{ available: false, reason }]
    or [{ available: true, product }]. *)
Inductive availability :=
| Unavailable (reason : string)
| Available (product : product_snapshot).

(** [businessValidators.productAvailable] *)
Definition productAvailable (f : option string)
    (productId requestedQuantity : Z) : M availability :=
  try_catch
    (let* product := select_product_snapshot f productId in
     match product with
     | None => ret (Unavailable "Product not found")
     | Some product =>
         if negb (bool_decide (snap_status product = available)) then
           ret (Unavailable
                  ("Product is " +:+ product_status_text (snap_status product)))
         else if snap_stockQuantity product <? requestedQuantity then
           ret (Unavailable
                  ("Insufficient stock. Available: "
                   +:+ pretty (snap_stockQuantity product)
                   +:+ ", Requested: " +:+ pretty requestedQuantity))
         else ret (Available product)
     end)
    (fun _ => throw "Unable to validate product availability").

Definition html_char (c : ascii) : bool :=
  let n := nat_of_ascii c in
  (n =? 60)%nat || (n =? 62)%nat || (n =? 34)%nat || (n =? 39)%nat.

(** [sanitize.cleanString]: trim, then drop the characters [<], [>], the
    double quote and the single quote. *)
Definition cleanString (str : string) : string :=
  Js.remove_chars html_char (Js.trim str).

Definition non_digit (c : ascii) : bool := negb (Js.is_digit c).

(** [sanitize.formatPhone]: a falsy phone is returned as it is, otherwise
    every character that is not a digit is removed. *)
Definition formatPhone (phone : string) : string :=
  if Js.str_falsy phone then phone else Js.remove_chars non_digit phone.

(** [sanitize.normalizeEmail] *)
Definition normalizeEmail (email : string) : string :=
  Js.trim (Js.toLowerCase email).

End Validation.

(* ===================================================================== *)
(** * [models/productModel.js] *)
(* ===================================================================== *)

Module ProductModel.

(** [formatProductResponse]: the columns under their response names, the
    price read with [parseFloat]. *)
Definition formatProductResponse (id : Z) (p : product) : Z * product :=
  (id,
   {| p_name := p_name p; p_description := p_description p;
      p_price := Js.parseFloat (p_price p); p_category := p_category p;
      p_stockQuantity := p_stockQuantity p; p_sku := p_sku p;
      p_status := p_status p |}).

(** [ProductModel.findById] *)
Definition findById (f : option string) (id : Z) : M (option (Z * product)) :=
  let* product := select_product f id in
  ret (formatProductResponse id <$> product).

(** The argument [updateData] of [update]: [None] is an absent field; the
    description and the sku may be present and null. *)
Record updateData := {
  upd_name : option string;
  upd_description : option (option string);
  upd_price : option float;
  upd_category : option string;
  upd_stockQuantity : option Js.jsnum;
  upd_status : option string;
  upd_sku : option (option string)
}.

Definition truthy_string (s : option string) : option string :=
  match s with
  | Some s => if Js.str_falsy s then None else Some s
  | None => None
  end.

(** The [sanitizedData] object that [update] builds. *)
Definition sanitizedData (u : updateData) : product_patch :=
  {| set_name := Validation.cleanString <$> truthy_string (upd_name u);
     set_description :=
       (fun d : option string => Validation.cleanString <$> d)
         <$> upd_description u;
     set_price := upd_price u;
     set_category := Validation.cleanString <$> truthy_string (upd_category u);
     set_stockQuantity := Js.parseInt <$> upd_stockQuantity u;
     set_status := truthy_string (upd_status u);
     set_sku :=
       (fun sku => match truthy_string sku with
                   | Some s => Some (Js.trim (Js.toUpperCase s))
                   | None => None
                   end) <$> upd_sku u |}.

(** [ProductModel.update] *)
Definition update (ft : faults) (id : Z) (u : updateData)
    : M (option (Z * product)) :=
  let* existingProduct := findById (ft AtLookup) id in
  match existingProduct with
  | None => throw ("Product with ID " +:+ pretty id +:+ " not found")
  | Some _ =>
      let sanitized := sanitizedData u in
      let* _ :=
        match set_sku sanitized with
        | Some (Some sku) =>
            let* isSkuUnique := Validation.isSkuUnique (ft AtSkuCheck) sku (Some id) in
            if isSkuUnique then ret tt
            else throw ("SKU " +:+ sku +:+ " is already in use")
        | _ => ret tt
        end in
      if patch_is_empty sanitized then throw "No valid fields to update"
      else
        let* changes := update_product (ft AtWrite) sanitized id in
        if changes =? 0 then
          throw ("Failed to update product with ID " +:+ pretty id)
        else findById (ft AtReadBack) id
  end.

(** The message [Invalid operation. Use "add" or "subtract"]. *)
Definition invalid_operation : string :=
  let quote := String (ascii_of_nat 34) EmptyString in
  "Invalid operation. Use " +:+ quote +:+ "add" +:+ quote +:+ " or "
  +:+ quote +:+ "subtract" +:+ quote.

(** [ProductModel.updateStock]; an omitted [operation] is ['subtract'].
    [product.stockQuantity] and [quantityChange] are numbers, and so are
    their sum and their difference. *)
Definition updateStock (ft : faults) (id quantityChange : Z)
    (operation : option string) : M (option (Z * product)) :=
  let operation := default "subtract" operation in
  try_catch
    (do beginTransaction (ft AtBegin) then
     let* product := findById (ft AtLookup) id in
     match product with
     | None => throw ("Product with ID " +:+ pretty id +:+ " not found")
     | Some (_, product) =>
         let* newQuantity :=
           if String.eqb operation "add" then
             ret (Js.add (p_stockQuantity product) quantityChange)
           else if String.eqb operation "subtract" then
             let newQuantity :=
               Js.sub (p_stockQuantity product) quantityChange in
             if PrimFloat.ltb newQuantity 0 then
               throw ("Insufficient stock. Available: "
                      +:+ pretty (p_stockQuantity product)
                      +:+ ", Requested: " +:+ pretty quantityChange)
             else ret newQuantity
           else throw invalid_operation in
         let newStatus :=
           if PrimFloat.eqb newQuantity 0 then out_of_stock else available in
         let* changes := set_stock (ft AtWrite) newQuantity newStatus id in
         if changes =? 0 then
           throw ("Failed to update stock for product ID " +:+ pretty id)
         else
           do commitTransaction (ft AtCommit) then
           findById (ft AtReadBack) id
     end)
    (fun error =>
       do rollbackTransaction (ft AtRollback) then
       throw error).

(** The argument [productData] of [create]; [None] is an absent field. *)
Record productData := {
  new_name : string;
  new_description : option string;
  new_price : float;
  new_category : option string;
  new_stockQuantity : option Js.jsnum;
  new_sku : option string
}.

(** [sku ? sku.toUpperCase().trim() : null] *)
Definition normalize_sku (sku : option string) : option string :=
  match truthy_string sku with
  | Some s => Some (Js.trim (Js.toUpperCase s))
  | None => None
  end.

(** [parseInt(stockQuantity || 0)] *)
Definition initial_stock (stockQuantity : option Js.jsnum) : Z :=
  match stockQuantity with
  | Some q => if Js.num_falsy q then 0 else Js.parseInt q
  | None => 0
  end.

(** [ProductModel.create]. The [catch] block replaces an error whose message
    contains [UNIQUE constraint failed]. *)
Definition create (ft : faults) (productData : productData)
    : M (option (Z * product)) :=
  try_catch
    (let name := Validation.cleanString (new_name productData) in
     let description := Validation.cleanString <$> new_description productData in
     let price := Js.parseFloat (new_price productData) in
     let category :=
       Validation.cleanString
         (default "general" (truthy_string (new_category productData))) in
     let stockQuantity := initial_stock (new_stockQuantity productData) in
     let sku := normalize_sku (new_sku productData) in
     let* _ :=
       match truthy_string sku with
       | Some sku =>
           let* isSkuUnique := Validation.isSkuUnique (ft AtSkuCheck) sku None in
           if isSkuUnique then ret tt
           else throw ("SKU " +:+ sku +:+ " is already in use")
       | None => ret tt
       end in
     let* result :=
       insert_product (ft AtWrite) name description price category
         stockQuantity sku in
     findById (ft AtReadBack) result)
    (fun error =>
       if Js.includes_text error "UNIQUE constraint failed" then
         throw "Product SKU is already in use"
       else throw error).

(** [ProductModel.findBySku] *)
Definition findBySku (f : option string) (sku : string)
    : M (option (Z * product)) :=
  let normalizedSku := Js.trim (Js.toUpperCase sku) in
  let* found := select_product_by_sku f normalizedSku in
  ret ((fun kp : Z * product => formatProductResponse kp.1 kp.2) <$> found).

(** [ProductModel.getLowStockProducts]; an omitted [threshold] is 10. *)
Definition getLowStockProducts (f : option string) (threshold : option Z)
    : M (list (Z * product)) :=
  let threshold := default 10 threshold in
  let* rows := select_low_stock f threshold discontinued in
  ret ((fun kp : Z * product => formatProductResponse kp.1 kp.2) <$> rows).

(** The object [{ success: true, message }] that [discontinue] returns. *)
Record discontinued_result := { success : bool; message : string }.

(** [ProductModel.discontinue] *)
Definition discontinue (ft : faults) (id : Z) : M discontinued_result :=
  let* changes := update_product_status (ft AtWrite) discontinued id in
  if changes =? 0 then
    throw ("Product with ID " +:+ pretty id +:+ " not found")
  else
    ret {| success := true; message := "Product discontinued successfully" |}.

(** [ProductModel.hasPendingOrders] *)
Definition hasPendingOrders (f : option string) (id : Z) : M bool :=
  let* count := count_open_orders f id in
  ret (0 <? count).

End ProductModel.

(* ===================================================================== *)
(** * [models/orderModel.js] *)
(* ===================================================================== *)

Module OrderModel.

(** The argument [orderData] of [create]; [None] is an absent field. *)
Record orderData := {
  user_id : option Z;
  product_id : option Z;
  quantity : option Js.jsnum;
  notes : option string
}.

(** The order columns of a response: [unitPrice] and [totalPrice] are read
    with [parseFloat]. *)
Definition reread_prices (o : order) : order :=
  {| o_user_id := o_user_id o; o_product_id := o_product_id o;
     o_quantity := o_quantity o;
     o_unit_price := Js.parseFloat (o_unit_price o);
     o_total_price := Js.parseFloat (o_total_price o);
     o_status := o_status o; o_notes := o_notes o |}.

(** [formatOrderResponse] *)
Definition formatOrderResponse (id : Z) (o : order) : Z * order :=
  (id, reread_prices o).

(** [formatOrderDetailsResponse] *)
Definition formatOrderDetailsResponse (o : order_details) : order_details :=
  {| det_id := det_id o; det_order := reread_prices (det_order o);
     det_user_name := det_user_name o; det_user_email := det_user_email o;
     det_user_phone := det_user_phone o;
     det_product_name := det_product_name o;
     det_product_description := det_product_description o;
     det_product_category := det_product_category o;
     det_product_sku := det_product_sku o |}.

(** [OrderModel.findById] *)
Definition findById (f : option string) (id : Z) : M (option (Z * order)) :=
  let* order := select_order f id in
  ret (formatOrderResponse id <$> order).

(** [OrderModel.findByIdWithDetails] *)
Definition findByIdWithDetails (f : option string) (id : Z)
    : M (option order_details) :=
  let* order := select_order_details f id in
  ret (formatOrderDetailsResponse <$> order).

(** [notes || null] *)
Definition notes_or_null (notes : option string) : option string :=
  match notes with
  | Some s => if Js.str_falsy s then None else Some s
  | None => None
  end.

(** Lines 17-43 of [create]: the checks made before the unit of work, and
    BEGIN. An absent field and a zero are both falsy. Resolves with the ids,
    the parsed quantity and the product snapshot that the unit of work
    uses. *)
Definition create_checks (ft : faults) (orderData : orderData)
    : M (Z * Z * Z * product_snapshot) :=
  match user_id orderData, product_id orderData, quantity orderData with
  | Some user_id, Some product_id, Some quantity =>
      if (user_id =? 0) || (product_id =? 0) || Js.num_falsy quantity then
        throw "User ID, Product ID, and quantity are required"
      else
        let numericQuantity := Js.parseInt quantity in
        if numericQuantity <=? 0 then
          throw "Quantity must be a positive integer"
        else
          let* userExists := Validation.userExists (ft AtValidateUser) user_id in
          if negb userExists then throw "User not found or inactive"
          else
            let* productAvailability :=
              Validation.productAvailable (ft AtValidateProduct)
                product_id numericQuantity in
            match productAvailability with
            | Validation.Unavailable reason => throw reason
            | Validation.Available product =>
                do beginTransaction (ft AtBegin) then
                ret (user_id, product_id, numericQuantity, product)
            end
  | _, _, _ => throw "User ID, Product ID, and quantity are required"
  end.

(** Lines 45-82 of [create]: the inner [try]/[catch]. *)
Definition create_unit (ft : faults) (user_id product_id numericQuantity : Z)
    (product : product_snapshot) (notes : option string)
    : M (option order_details) :=
  try_catch
    (let unit_price := Js.parseFloat (snap_price product) in
     let total_price := PrimFloat.mul unit_price (Js.Z2float numericQuantity) in
     let* result :=
       insert_order (ft AtWrite) user_id product_id numericQuantity
         unit_price total_price (notes_or_null notes) in
     do commitTransaction (ft AtCommit) then
     findByIdWithDetails (ft AtReadBack) result)
    (fun error =>
       do rollbackTransaction (ft AtRollback) then
       throw error).

(** [OrderModel.create] (the outer [catch] logs and rethrows). *)
Definition create (ft : faults) (orderData : orderData)
    : M (option order_details) :=
  let* checked := create_checks ft orderData in
  let '(user_id, product_id, numericQuantity, product) := checked in
  create_unit ft user_id product_id numericQuantity product (notes orderData).

(** The object [validTransitions] of [updateStatus]. *)
Definition validTransitions (currentStatus : order_status) : list string :=
  match currentStatus with
  | pending => ["confirmed"; "cancelled"]
  | confirmed => ["shipped"; "cancelled"]
  | shipped => ["delivered"; "cancelled"]
  | delivered => []
  | cancelled => []
  end.

(** [Array.prototype.includes] on strings. *)
Definition includes (l : list string) (s : string) : bool :=
  existsb (String.eqb s) l.

(** A parameter declared [= null]: an omitted argument is null. *)
Definition or_null (arg : option (option string)) : option string :=
  default None arg.

(** [OrderModel.updateStatus]; [notes] is declared [notes = null]. *)
Definition updateStatus (ft : faults) (id : Z) (status : string)
    (notes : option (option string)) : M (option order_details) :=
  let notes := or_null notes in
  let* existingOrder := findById (ft AtLookup) id in
  match existingOrder with
  | None => throw ("Order with ID " +:+ pretty id +:+ " not found")
  | Some (_, existingOrder) =>
      let currentStatus := o_status existingOrder in
      if negb (includes (validTransitions currentStatus) status) then
        throw ("Cannot change status from " +:+ order_status_text currentStatus
               +:+ " to " +:+ status)
      else
        let* changes := update_order_status (ft AtWrite) status notes id in
        if changes =? 0 then
          throw ("Failed to update order status for ID " +:+ pretty id)
        else findByIdWithDetails (ft AtReadBack) id
  end.

(** [OrderModel.cancel]; [reason] is declared [reason = null]. *)
Definition cancel (ft : faults) (id : Z) (reason : option (option string))
    : M (option order_details) :=
  let reason := or_null reason in
  let* order := findById (ft AtLookup) id in
  match order with
  | None => throw ("Order with ID " +:+ pretty id +:+ " not found")
  | Some (_, order) =>
      if bool_decide (o_status order = cancelled) then
        throw "Order is already cancelled"
      else if bool_decide (o_status order = delivered) then
        throw "Cannot cancel delivered order"
      else
        do beginTransaction (ft AtBegin) then
        try_catch
          (do update_order_status (ft AtWrite) "cancelled" reason id then
           do restore_stock (ft AtWriteStock) (o_quantity order)
                (o_quantity order) (o_product_id order) then
           do commitTransaction (ft AtCommit) then
           findByIdWithDetails (ft AtReadBack) id)
          (fun error =>
             do rollbackTransaction (ft AtRollback) then
             throw error)
  end.

End OrderModel.

(* ===================================================================== *)
(** * [utils/validation.js]: the schemas of the two POST routes *)
(* ===================================================================== *)

(** [schema.validate(body, { abortEarly: false, stripUnknown: true, convert:
    true })] on a body whose fields have the types the schema names (a number
    where it asks for a number, a string where it asks for a string; null
    counts as absent): [None] when Joi reports an error, otherwise the
    converted value that [validate] puts in place of [req.body]. *)
Module Schemas.

(** [Joi.number()]: a number beyond the safe integers is an error. *)
Definition safe_number (q : Js.jsnum) : bool :=
  Z.abs (Js.dec_mant q) <=? (2 ^ 53 - 1) * Js.pow10 (Js.dec_scale q).

(** [Joi.number().integer().positive().required()] on an id. *)
Definition id_rule (id : option Z) : option Z :=
  match id with
  | Some id => if (Z.abs id <=? 2 ^ 53 - 1) && (0 <? id) then Some id else None
  | None => None
  end.


(** [Joi.string().max(b).trim().allow('', null)]: an absent field stays
    absent, and the empty text is allowed. *)
Definition optional_text_rule (b : nat) (s : option string)
    : option (option string) :=
  match s with
  | None => Some None
  | Some s =>
      let value := Js.trim s in
      if Js.str_falsy value then Some (Some value)
      else if (String.length value <=? b)%nat then Some (Some value)
      else None
  end.





(** [customValidation.quantity.required()] *)
Definition quantity_required (max : Z) (q : option Js.jsnum)
    : option Js.jsnum :=
  match q with
  | Some q =>
      if safe_number q && Validation.quantity_rule max q then Some q else None
  | None => None
  end.

(** [schemas.createOrder]; [max] is [MAX_ORDER_QUANTITY]. *)
Definition createOrder (max : Z) (body : OrderModel.orderData)
    : option OrderModel.orderData :=
  match id_rule (OrderModel.user_id body),
        id_rule (OrderModel.product_id body),
        quantity_required max (OrderModel.quantity body),
        optional_text_rule 200 (OrderModel.notes body) with
  | Some user_id, Some product_id, Some quantity, Some notes =>
      Some {| OrderModel.user_id := Some user_id;
              OrderModel.product_id := Some product_id;
              OrderModel.quantity := Some quantity;
              OrderModel.notes := notes |}
  | _, _, _, _ => None
  end.


End Schemas.

(* ===================================================================== *)
(** * [routes/orders.js] and [routes/products.js]: the POST routes *)
(* ===================================================================== *)

Module Routes.

(** What a route sends: the HTTP status and the JSON body, without its
    timestamp and without the [details] that [validate] lists. *)
Record response (D : Type) := {
  status : Z;
  success : bool;
  message : option string;
  error : option string;
  data : option D
}.
Arguments status {D} r.
Arguments success {D} r.
Arguments message {D} r.
Arguments error {D} r.
Arguments data {D} r.

Definition failure {D} (code : Z) (msg err : string) : response D :=
  {| status := code; success := false; message := Some msg;
     error := Some err; data := None |}.

(** What the [validate] middleware sends for a body that its schema
    rejects (validation.js, lines 169-188). *)
Definition validation_failed {D} : response D :=
  {| status := 400; success := false; message := None;
     error := Some "Validation failed"; data := None |}.

(** The [catch] block of [POST /orders] (orders.js, lines 43-83). *)
Definition order_error (msg : string) : response order_details :=
  if Js.includes_text msg "not found" then
    failure 404 "Resource not found" msg
  else if Js.includes_text msg "inactive" || Js.includes_text msg "stock"
          || Js.includes_text msg "out_of_stock" then
    failure 400 "Order validation failed" msg
  else if Js.includes_text msg "validation"
          || Js.includes_text msg "required" then
    failure 400 "Validation error" msg
  else failure 500 "Internal server error" "Failed to create order".

(** The message of the TypeError that reading [order.id] throws when [create]
    resolved with null. *)
Definition null_id_error : string :=
  "Cannot read properties of null (reading 'id')".

(** The handler of [POST /orders] (orders.js, lines 19-84), which runs on
    the value of the schema. *)
Definition order_handler (ft : faults) (orderData : OrderModel.orderData)
    (d : db) : response order_details * db :=
  match OrderModel.create ft orderData d with
  | (Return (Some order), d') =>
      ({| status := 201; success := true;
          message := Some "Order created successfully"; error := None;
          data := Some order |}, d')
  | (Return None, d') => (order_error null_id_error, d')
  | (Throw msg, d') => (order_error msg, d')
  end.

(** [router.post('/', validate(schemas.createOrder), handler)] *)
Definition post_order (max : Z) (ft : faults) (body : OrderModel.orderData)
    (d : db) : response order_details * db :=
  match Schemas.createOrder max body with
  | Some orderData => order_handler ft orderData d
  | None => (validation_failed, d)
  end.




End Routes.

(* ===================================================================== *)
(** * Properties of the models: vocabulary *)
(* ===================================================================== *)

(** [m] leaves the connection as it found it. *)
Definition read_only {A} (m : M A) : Prop := forall d, (m d).2 = d.

(** [m] is one SQL statement: it keeps the transaction open or closed as it
    was, and changes nothing when it fails. *)
Definition statement {A} (m : M A) : Prop :=
  forall d, txn (m d).2 = txn d /\ (forall e, (m d).1 = Throw e -> (m d).2 = d).

(** [m] maintains the property [P] of the connection, however it ends. *)
Definition maintains {A} (P : db -> Prop) (m : M A) : Prop :=
  forall d, P d -> P (m d).2.

(** The row that [create] inserts for a product whose price column holds
    [price]. *)
Definition new_order (user_id product_id numericQuantity : Z) (price : float)
    (notes : option string) : order :=
  {| o_user_id := user_id; o_product_id := product_id;
     o_quantity := numericQuantity; o_unit_price := Js.parseFloat price;
     o_total_price :=
       PrimFloat.mul (Js.parseFloat price) (Js.Z2float numericQuantity);
     o_status := pending; o_notes := OrderModel.notes_or_null notes |}.

(** The stock ledger rule: a product is [out_of_stock] exactly when nothing
    is in stock, unless it is discontinued. *)
Definition ledger_ok (p : product) : Prop :=
  p_status p = discontinued
  \/ (p_status p = out_of_stock <-> p_stockQuantity p = 0).

(** The status table of the order state machine, as pairs (from, to). *)
Definition transition_table : list (order_status * order_status) :=
  [ (pending, confirmed); (pending, cancelled);
    (confirmed, shipped); (confirmed, cancelled);
    (shipped, delivered); (shipped, cancelled) ].

(** A requested status (a text) that the table allows from [from]. *)
Definition allowed (from : order_status) (requested : string) : Prop :=
  exists to, order_status_text to = requested /\ In (from, to) transition_table.

Definition terminal (s : order_status) : Prop := s = delivered \/ s = cancelled.

(** The rational number a finite double stands for. *)
Definition float_value (x : float) : option Q :=
  match Prim2SF x with
  | S754_zero _ => Some 0%Q
  | S754_finite s m e =>
      Some ((if s then (-1)%Q else 1%Q) * inject_Z (Z.pos m) * Qpower 2 e)%Q
  | S754_infinity _ => None
  | S754_nan => None
  end.

(** [total_price = unit_price * quantity] without rounding. *)
Definition exact_total (o : order) : Prop :=
  match float_value (o_total_price o), float_value (o_unit_price o) with
  | Some t, Some u => (t == u * inject_Z (o_quantity o))%Q
  | _, _ => False
  end.

(** [total_price] is the double product of [unit_price] and [quantity]
    (rounded to nearest, as [*] does in JavaScript). *)
Definition float_total (o : order) : Prop :=
  o_total_price o = PrimFloat.mul (o_unit_price o) (Js.Z2float (o_quantity o)).

Definition priced (t : tables) : Prop :=
  forall id o, orders t !! id = Some o -> float_total o.

(** Every order the connection can show, now or after a ROLLBACK. *)
Definition db_priced (d : db) : Prop :=
  priced (cur d) /\ forall t, txn d = Some t -> priced t.

(** The calls the models accept, each with the schedule of rejected storage
    calls under which it runs. *)
Inductive call :=
| Create (ft : faults) (orderData : OrderModel.orderData)
| UpdateStatus (ft : faults) (id : Z) (status : string)
    (notes : option (option string))
| Cancel (ft : faults) (id : Z) (reason : option (option string))
| UpdateStock (ft : faults) (id quantityChange : Z) (operation : option string)
| UpdateProduct (ft : faults) (id : Z) (updateData : ProductModel.updateData).

(** The connection after a call, whether it resolved or threw. *)
Definition perform (d : db) (c : call) : db :=
  match c with
  | Create ft orderData => (OrderModel.create ft orderData d).2
  | UpdateStatus ft id status notes =>
      (OrderModel.updateStatus ft id status notes d).2
  | Cancel ft id reason => (OrderModel.cancel ft id reason d).2
  | UpdateStock ft id quantityChange operation =>
      (ProductModel.updateStock ft id quantityChange operation d).2
  | UpdateProduct ft id updateData =>
      (ProductModel.update ft id updateData d).2
  end.

Definition perform_all (d : db) (cs : list call) : db := foldl perform d cs.

(** ** The claims that the code does not meet, as they are stated *)

(** Whatever fails once the unit of work of [create] has begun, no order
    row and no stock change remain. *)
Definition create_all_or_nothing : Prop :=
  forall ft orderData d user_id product_id numericQuantity product d1 msg d2,
    OrderModel.create_checks ft orderData d
      = (Return (user_id, product_id, numericQuantity, product), d1) ->
    OrderModel.create_unit ft user_id product_id numericQuantity product
      (OrderModel.notes orderData) d1 = (Throw msg, d2) ->
    orders (cur d2) = orders (cur d) /\ products (cur d2) = products (cur d).

(** Every created order is stored with an exact total. *)
Definition create_totals_exact : Prop :=
  forall ft orderData d details d' o,
    OrderModel.create ft orderData d = (Return (Some details), d') ->
    orders (cur d') !! det_id details = Some o ->
    exact_total o.

(** ** Scenario data *)

#[local] Set Warnings "-inexact-float".

Definition john : user :=
  {| u_name := "John Doe"; u_email := "john@example.com";
     u_phone := None; u_address := None; u_status := active |}.

Definition item (price : float) (stock : Z) (st : product_status) : product :=
  {| p_name := "MacBook Pro"; p_description := None; p_price := price;
     p_category := "general"; p_stockQuantity := stock; p_sku := None;
     p_status := st |}.

Definition placed (quantity : Z) (unit_price total_price : float)
    (st : order_status) (notes : option string) : order :=
  {| o_user_id := 1; o_product_id := 1; o_quantity := quantity;
     o_unit_price := unit_price; o_total_price := total_price;
     o_status := st; o_notes := notes |}.

(** One user (id 1), one product (id 1), and the given orders. *)
Definition shop (p : product) (os : gmap Z order) : db :=
  {| cur := {| users := {[ 1 := john ]}; products := {[ 1 := p ]};
               orders := os; orders_seq := max_rowid os |};
     txn := None |}.

Definition request (q : Js.jsnum) : OrderModel.orderData :=
  {| OrderModel.user_id := Some 1; OrderModel.product_id := Some 1;
     OrderModel.quantity := Some q; OrderModel.notes := None |}.

Definition two_and_a_half : Js.jsnum := {| Js.dec_mant := 25; Js.dec_scale := 1 |}.

Definition only_stock (q : Js.jsnum) : ProductModel.updateData :=
  {| ProductModel.upd_name := None; ProductModel.upd_description := None;
     ProductModel.upd_price := None; ProductModel.upd_category := None;
     ProductModel.upd_stockQuantity := Some q;
     ProductModel.upd_status := None; ProductModel.upd_sku := None |}.

(** ** Properties of the whole store *)

(** [P] holds of the tables the connection shows and of the tables a
    ROLLBACK would bring back. *)
Definition everywhere (P : tables -> Prop) (d : db) : Prop :=
  P (cur d) /\ forall t, txn d = Some t -> P t.

(** A statement that rewrites the stock and the status of one product. *)
Definition restocks {A} (m : M A) (id : Z) : Prop :=
  forall d,
    txn (m d).2 = txn d
    /\ (cur (m d).2 = cur d
        \/ exists p stock st,
             products (cur d) !! id = Some p /\ 0 <= stock
             /\ cur (m d).2 = set_product (cur d) id (with_stock p stock st)).

(** The CHECK constraints on the columns of one product row. *)
Definition product_checks (p : product) : Prop :=
  Js.str_falsy (p_name p) = false
  /\ PrimFloat.leb 0x1.47ae147ae147bp-7%float (p_price p) = true
  /\ 0 <= p_stockQuantity p.

(** The CHECK and FOREIGN KEY constraints of the schema, on the rows. *)
Definition row_checks (t : tables) : Prop :=
  (forall id p, products t !! id = Some p -> product_checks p)
  /\ (forall id o, orders t !! id = Some o ->
        0 < o_quantity o
        /\ is_Some (users t !! o_user_id o)
        /\ is_Some (products t !! o_product_id o)).

(** The UNIQUE constraint on [products.sku]. *)
Definition sku_unique (t : tables) : Prop :=
  forall id1 id2 p1 p2 k,
    products t !! id1 = Some p1 -> products t !! id2 = Some p2 ->
    p_sku p1 = Some k -> p_sku p2 = Some k -> id1 = id2.

(** What [create] needs in order to resolve: the three fields present and
    not zero, a quantity that [parseInt] reads as positive, an active user,
    an available product with that much in stock, and a unit price and a
    total that are numbers (NaN is bound as NULL). *)
Definition can_order (orderData : OrderModel.orderData) (t : tables) : Prop :=
  exists user_id product_id q u p,
    OrderModel.user_id orderData = Some user_id /\ user_id <> 0
    /\ OrderModel.product_id orderData = Some product_id /\ product_id <> 0
    /\ OrderModel.quantity orderData = Some q /\ 0 < Js.parseInt q
    /\ users t !! user_id = Some u /\ u_status u = active
    /\ products t !! product_id = Some p /\ p_status p = available
    /\ Js.parseInt q <= p_stockQuantity p
    /\ is_nan (Js.parseFloat (p_price p)) = false
    /\ is_nan (PrimFloat.mul (Js.parseFloat (p_price p))
                 (Js.Z2float (Js.parseInt q))) = false.

(** ** What a property of the tables must survive to be an invariant *)

(** A new stock and status for one product. *)
Definition stock_stable (P : tables -> Prop) : Prop :=
  forall t id p stock st,
    P t -> products t !! id = Some p -> 0 <= stock ->
    P (set_product t id (with_stock p stock st)).

(** A new status for one product. *)
Definition relabel_stable (P : tables -> Prop) : Prop :=
  forall t id p st,
    P t -> products t !! id = Some p ->
    P (set_product t id (with_stock p (p_stockQuantity p) st)).

(** A new status and new notes for one order. *)
Definition status_stable (P : tables -> Prop) : Prop :=
  forall t id o s notes,
    P t -> orders t !! id = Some o ->
    P (set_order t id (with_status o s notes)).

(** A new order with the next id, with the trigger's change of its
    product. *)
Definition insert_stable (P : tables -> Prop) : Prop :=
  forall t user_id product_id quantity unit_price total_price notes u p,
    P t -> users t !! user_id = Some u -> products t !! product_id = Some p ->
    0 < quantity -> 0 <= p_stockQuantity p - quantity ->
    P {| users := users t;
         products := <[product_id := update_stock_on_order p quantity]>
                       (products t);
         orders := <[Z.max (orders_seq t) (max_rowid (orders t)) + 1 :=
                       {| o_user_id := user_id; o_product_id := product_id;
                          o_quantity := quantity; o_unit_price := unit_price;
                          o_total_price := total_price; o_status := pending;
                          o_notes := notes |}]> (orders t);
         orders_seq := Z.max (orders_seq t) (max_rowid (orders t)) + 1 |}.

(** A product row, new or rewritten, that meets the CHECK constraints and
    whose sku no other row carries. *)
Definition patch_stable (P : tables -> Prop) : Prop :=
  forall t id p',
    P t -> product_checks p' ->
    (forall k, p_sku p' = Some k ->
       forall id2 p2, products t !! id2 = Some p2 -> p_sku p2 = Some k ->
                      id2 = id) ->
    P (set_product t id p').

(** A text without the characters that [cleanString] removes. *)
Definition clean_text (s : string) : Prop :=
  Forall (fun c => Validation.html_char c = false)
    (String.list_ascii_of_string s).

(** The name, the category and the description of every product are
    clean. *)
Definition clean_catalogue (t : tables) : Prop :=
  forall id p,
    products t !! id = Some p ->
    clean_text (p_name p) /\ clean_text (p_category p)
    /\ (forall s, p_description p = Some s -> clean_text s).

(** The order [id] exists and satisfies [R]. *)
Definition order_holds (R : order -> Prop) (id : Z) (t : tables) : Prop :=
  exists o, orders t !! id = Some o /\ R o.

(** The order [id] while [cancel] works on the row [o] it has read: still
    that row, or that row cancelled. *)
Definition cancelling (id : Z) (o : order) (notes : option string)
    : tables -> Prop :=
  order_holds (fun o' => o' = o \/ o' = with_status o cancelled notes) id.

(** What an order was bought for: everything but its status and notes. *)
Definition same_purchase (o o' : order) : Prop :=
  o_user_id o' = o_user_id o /\ o_product_id o' = o_product_id o
  /\ o_quantity o' = o_quantity o /\ o_unit_price o' = o_unit_price o
  /\ o_total_price o' = o_total_price o.

(** How far an order is in its life. *)
Definition progress (s : order_status) : nat :=
  match s with
  | pending => 0
  | confirmed => 1
  | shipped => 2
  | delivered => 3
  | cancelled => 3
  end.

(** The methods that write, each with its schedule of rejected storage
    calls. *)
Inductive action :=
| Call (c : call)
| CreateProduct (ft : faults) (productData : ProductModel.productData)
| Discontinue (ft : faults) (id : Z).

(** The connection after an action, whether it resolved or threw. *)
Definition act (d : db) (a : action) : db :=
  match a with
  | Call c => perform d c
  | CreateProduct ft productData => (ProductModel.create ft productData d).2
  | Discontinue ft id => (ProductModel.discontinue ft id d).2
  end.

Definition act_all (d : db) (acts : list action) : db := foldl act d acts.

(** The product [id] exists and is discontinued. *)
Definition is_discontinued (id : Z) (t : tables) : Prop :=
  exists p, products t !! id = Some p /\ p_status p = discontinued.

(** The actions that do not edit the catalogue by hand: all but
    [updateStock] and [ProductModel.update]. *)
Definition no_catalogue_edit (a : action) : Prop :=
  match a with
  | Call (UpdateStock _ _ _ _) | Call (UpdateProduct _ _ _) => False
  | _ => True
  end.

(** Status updates of one order, attempted one after the other; the result
    is the number of them that resolved. *)
Fixpoint update_chain (ft : faults) (id : Z)
    (updates : list (string * option (option string))) (d : db) : nat * db :=
  match updates with
  | [] => (O, d)
  | (status, notes) :: rest =>
      match OrderModel.updateStatus ft id status notes d with
      | (Return _, d') =>
          let '(n, d'') := update_chain ft id rest d' in (S n, d'')
      | (Throw _, d') => update_chain ft id rest d'
      end
  end.

Definition product_request (name : string) (stock : Z) (sku : option string)
    : ProductModel.productData :=
  {| ProductModel.new_name := name; ProductModel.new_description := None;
     ProductModel.new_price := 19.5%float;
     ProductModel.new_category := None;
     ProductModel.new_stockQuantity := Some (Js.jsint stock);
     ProductModel.new_sku := sku |}.
(* ===================================================================== *)
(** * The scenarios of the specification, run on the model *)
(* ===================================================================== *)

(** An order of 2 at 2499.99 from a stock of 5: total 4999.98, stock 3, the
    product stays available. *)
Example scenario_order_of_two :
  exists details,
    OrderModel.create reliable (request (Js.jsint 2))
      (shop (item 2499.99 5 available) ∅)
    = (Return (Some details),
       shop (item 2499.99 3 available)
         {[ 1 := placed 2 2499.99 4999.98 pending None ]})
    /\ o_total_price (det_order details) = 4999.98%float.
Proof. eexists. split; vm_compute; reflexivity. Qed.

(** An order for the whole stock empties it and makes the product
    [out_of_stock]; the next order is refused by the validator. *)
Example scenario_last_items :
  (exists details,
     OrderModel.create reliable (request (Js.jsint 2))
       (shop (item 2499.99 2 available) ∅)
     = (Return (Some details),
        shop (item 2499.99 0 out_of_stock)
          {[ 1 := placed 2 2499.99 4999.98 pending None ]}))
  /\ OrderModel.create reliable (request (Js.jsint 1))
       (shop (item 2499.99 0 out_of_stock)
          {[ 1 := placed 2 2499.99 4999.98 pending None ]})
     = (Throw "Product is out_of_stock",
        shop (item 2499.99 0 out_of_stock)
          {[ 1 := placed 2 2499.99 4999.98 pending None ]}).
Proof. split; [eexists|]; vm_compute; reflexivity. Qed.

(** Cancelling that order puts the 2 back and makes the product available
    again. *)
Example scenario_cancel :
  exists details,
    OrderModel.cancel reliable 1 (Some (Some "changed my mind"))
      (shop (item 2499.99 0 out_of_stock)
         {[ 1 := placed 2 2499.99 4999.98 pending None ]})
    = (Return (Some details),
       shop (item 2499.99 2 available)
         {[ 1 := placed 2 2499.99 4999.98 cancelled (Some "changed my mind") ]}).
Proof. eexists. vm_compute. reflexivity. Qed.

(** An order for a user that does not exist. *)
Example scenario_unknown_user :
  OrderModel.create reliable
    {| OrderModel.user_id := Some 7; OrderModel.product_id := Some 1;
       OrderModel.quantity := Some (Js.jsint 1); OrderModel.notes := None |}
    (shop (item 2499.99 5 available) ∅)
  = (Throw "User not found or inactive", shop (item 2499.99 5 available) ∅).
Proof. vm_compute. reflexivity. Qed.

(** What [parseInt] reads in numbers. *)
Example parseInt_examples :
  Js.parseInt (Js.jsint 3) = 3
  /\ Js.parseInt two_and_a_half = 2
  /\ Js.parseInt {| Js.dec_mant := -5; Js.dec_scale := 1 |} = 0
  /\ Js.parseInt {| Js.dec_mant := 15; Js.dec_scale := 8 |} = 1
  /\ Js.parseInt (Js.jsint (10 ^ 21)) = 1.
Proof. repeat split. Qed.

(* ===================================================================== *)
(** * Generic facts about computations on the connection *)
(* ===================================================================== *)

Section Computations.

Context {A : Type}.

Lemma driver_statement f (m : M A) : statement m -> statement (driver f m).
Proof.
  intros H d. destruct f as [e|]; [|apply H].
  split; [reflexivity | intros; reflexivity].
Qed.

Lemma maintains_ret P (a : A) : maintains P (ret a).
Proof. intros d H. exact H. Qed.

Lemma maintains_throw P msg : maintains P (@throw A msg).
Proof. intros d H. exact H. Qed.

Lemma maintains_try_catch P (m : M A) h :
  maintains P m -> (forall e, maintains P (h e)) -> maintains P (try_catch m h).
Proof.
  intros Hm Hh d Hd. unfold try_catch. specialize (Hm d Hd).
  destruct (m d) as [[a|e] d']; [exact Hm | apply Hh, Hm].
Qed.

Lemma read_only_maintains P (m : M A) : read_only m -> maintains P m.
Proof. intros H d Hd. rewrite H. exact Hd. Qed.

End Computations.

Lemma maintains_bind {A B} P (m : M A) (k : A -> M B) :
  maintains P m -> (forall a, maintains P (k a)) -> maintains P (bind m k).
Proof.
  intros Hm Hk d Hd. unfold bind. specialize (Hm d Hd).
  destruct (m d) as [[a|e] d']; [apply Hk, Hm | exact Hm].
Qed.

Lemma query_run {A} f (q : tables -> A) d :
  query f q d = match f with
                | Some e => (Throw e, d)
                | None => (Return (q (cur d)), d)
                end.
Proof. destruct f; reflexivity. Qed.

Lemma query_read_only {A} f (q : tables -> A) : read_only (query f q).
Proof. intros d. rewrite query_run. destruct f; reflexivity. Qed.

Lemma userExists_read_only f userId : read_only (Validation.userExists f userId).
Proof.
  intros d. unfold Validation.userExists, try_catch, bind, select_user_status.
  rewrite query_run. destruct f; reflexivity.
Qed.

Lemma productAvailable_read_only f productId requestedQuantity :
  read_only (Validation.productAvailable f productId requestedQuantity).
Proof.
  intros d.
  unfold Validation.productAvailable, try_catch, bind, select_product_snapshot.
  rewrite query_run. destruct f as [e|]; [reflexivity|]. simpl.
  destruct (products (cur d) !! productId) as [p|]; simpl; [|reflexivity].
  destruct (negb _); [reflexivity|]. destruct (_ <? _); reflexivity.
Qed.

(** ** Transactions *)

Lemma beginTransaction_run f d :
  beginTransaction f d =
    match f, txn d with
    | Some e, _ => (Throw e, d)
    | None, Some _ =>
        (Throw "SQLITE_ERROR: cannot start a transaction within a transaction", d)
    | None, None => (Return tt, {| cur := cur d; txn := Some (cur d) |})
    end.
Proof. destruct f; reflexivity. Qed.

Lemma rollback_open d t :
  txn d = Some t ->
  rollbackTransaction None d = (Return tt, {| cur := t; txn := None |}).
Proof. intros H. unfold rollbackTransaction, driver. rewrite H. reflexivity. Qed.

Lemma commit_open f d t :
  txn d = Some t ->
  commitTransaction f d = match f with
                          | Some e => (Throw e, d)
                          | None => (Return tt, {| cur := cur d; txn := None |})
                          end.
Proof.
  intros H. unfold commitTransaction, driver.
  destruct f; [reflexivity|]. rewrite H. reflexivity.
Qed.

(** ** The statements *)

Lemma insert_order_statement f u p q up tp n :
  statement (insert_order f u p q up tp n).
Proof.
  apply driver_statement. intros d. unfold bind, get_cur, set_cur, throw, ret.
  repeat match goal with
         | |- context [if ?b then _ else _] => destruct b
         | |- context [match ?x with Some _ => _ | None => _ end] => destruct x
         end; simpl; (split; [reflexivity | intros e He; try reflexivity; discriminate He]).
Qed.

(* ===================================================================== *)
(** * Order creation and its unit of work *)
(* ===================================================================== *)

Lemma db_eta d : {| cur := cur d; txn := txn d |} = d.
Proof. destruct d; reflexivity. Qed.

(** The checks of [create] change nothing when they reject; when they pass,
    no transaction was open and one is now, started from the tables as they
    were. *)
Lemma create_checks_outcome ft orderData d r d1 :
  OrderModel.create_checks ft orderData d = (r, d1) ->
  match r with
  | Throw _ => d1 = d
  | Return _ => txn d = None /\ d1 = {| cur := cur d; txn := Some (cur d) |}
  end.
Proof.
  unfold OrderModel.create_checks.
  destruct (OrderModel.user_id orderData) as [uid|];
    [|intros [= <- <-]; reflexivity].
  destruct (OrderModel.product_id orderData) as [pid|];
    [|intros [= <- <-]; reflexivity].
  destruct (OrderModel.quantity orderData) as [q|];
    [|intros [= <- <-]; reflexivity].
  destruct (_ || _); [intros [= <- <-]; reflexivity|].
  destruct (_ <=? _); [intros [= <- <-]; reflexivity|].
  unfold bind.
  pose proof (userExists_read_only (ft AtValidateUser) uid d) as Hu.
  destruct (Validation.userExists _ _ d) as [[b|e] du]; simpl in Hu; subst du;
    [|intros [= <- <-]; reflexivity].
  destruct (negb b); [intros [= <- <-]; reflexivity|].
  pose proof (productAvailable_read_only (ft AtValidateProduct) pid
                (Js.parseInt q) d) as Hp.
  destruct (Validation.productAvailable _ _ _ d) as [[[reason|snap]|e] dp];
    simpl in Hp; subst dp; try (intros [= <- <-]; reflexivity).
  rewrite beginTransaction_run.
  destruct (ft AtBegin); [intros [= <- <-]; reflexivity|].
  destruct (txn d) eqn:Ht; intros [= <- <-]; [reflexivity|].
  split; reflexivity.
Qed.

(** Inside an open transaction, a unit of work that throws before its
    read-back leaves the tables of BEGIN, provided ROLLBACK goes through. *)
Lemma create_unit_rolls_back ft user_id product_id numericQuantity product
    notes d1 t msg d2 :
  txn d1 = Some t ->
  ft AtReadBack = None ->
  ft AtRollback = None ->
  OrderModel.create_unit ft user_id product_id numericQuantity product notes d1
    = (Throw msg, d2) ->
  d2 = {| cur := t; txn := None |}.
Proof.
  intros Ht Hread Hroll. unfold OrderModel.create_unit, try_catch.
  rewrite Hroll. unfold bind at 1.
  destruct (insert_order_statement (ft AtWrite) user_id product_id
              numericQuantity (Js.parseFloat (snap_price product))
              (PrimFloat.mul (Js.parseFloat (snap_price product))
                 (Js.Z2float numericQuantity))
              (OrderModel.notes_or_null notes) d1) as [Htxn Hfail].
  destruct (insert_order _ _ _ _ _ _ _ d1) as [[new_id|e] di];
    simpl in Htxn, Hfail.
  - rewrite Ht in Htxn. unfold bind. rewrite (commit_open _ _ _ Htxn).
    destruct (ft AtCommit) as [e|].
    + rewrite (rollback_open _ _ Htxn). intros [= <- <-]. reflexivity.
    + unfold OrderModel.findByIdWithDetails, bind, select_order_details.
      rewrite query_run, Hread. simpl. discriminate.
  - rewrite (Hfail e eq_refl). unfold bind.
    rewrite (rollback_open _ _ Ht). intros [= <- <-]. reflexivity.
Qed.

(** The failures that [create] undoes: when it throws and neither the
    read-back that follows COMMIT nor the ROLLBACK is the call that was
    rejected (so the failure is a check, BEGIN, the INSERT with its stock
    decrement, or COMMIT), the connection is exactly as before the call: no
    order row was added and no product changed. *)
Lemma create_failure_changes_nothing ft orderData d msg d' :
  ft AtReadBack = None ->
  ft AtRollback = None ->
  OrderModel.create ft orderData d = (Throw msg, d') ->
  d' = d.
Proof.
  intros Hread Hroll. unfold OrderModel.create, bind.
  destruct (OrderModel.create_checks ft orderData d) as [[x|e] d1] eqn:Hc;
    apply create_checks_outcome in Hc.
  - destruct Hc as [Hnone ->]. destruct x as [[[uid pid] q] snap].
    intros Hunit.
    apply create_unit_rolls_back with (t := cur d) in Hunit; auto.
    subst d'. rewrite <- Hnone. apply db_eta.
  - intros [= <- <-]. exact Hc.
Qed.

(** Stated over every failure, the all-or-nothing property does not hold
    of [create]: the read-back after COMMIT is a failure it cannot undo. *)
Lemma create_all_or_nothing_fails : ~ create_all_or_nothing.
Proof.
  intros H.
  destruct (H (fail_at AtReadBack "SQLITE_IOERR: disk I/O error")
              (request (Js.jsint 2)) (shop (item 2499.99 5 available) ∅)
              1 1 2
              {| snap_id := 1; snap_name := "MacBook Pro";
                 snap_price := 2499.99; snap_stockQuantity := 5;
                 snap_status := available |}
              {| cur := cur (shop (item 2499.99 5 available) ∅);
                 txn := Some (cur (shop (item 2499.99 5 available) ∅)) |}
              "SQLITE_ERROR: cannot rollback - no transaction is active"
              (shop (item 2499.99 3 available)
                 {[ 1 := placed 2 2499.99 4999.98 pending None ]}))
    as [Horders _].
  - vm_compute. reflexivity.
  - vm_compute. reflexivity.
  - apply (f_equal (fun m => m !! 1)) in Horders. vm_compute in Horders.
    discriminate Horders.
Qed.

(** C1 at its failing input: an order of 2 from a stock of 5, and the read
    of the new order, which follows COMMIT inside the same [try] block, is
    rejected. The [catch] block issues its ROLLBACK, which fails because no
    transaction is active any more, and [create] throws that error: the
    order row is in the table and the stock has gone from 5 to 3. When it
    is the COMMIT that is rejected on the same request, the same [catch]
    block takes the order and the decrement back. *)
Theorem create_throws_after_commit :
  let before := shop (item 2499.99 5 available) ∅ in
  OrderModel.create (fail_at AtReadBack "SQLITE_IOERR: disk I/O error")
    (request (Js.jsint 2)) before
  = (Throw "SQLITE_ERROR: cannot rollback - no transaction is active",
     shop (item 2499.99 3 available)
       {[ 1 := placed 2 2499.99 4999.98 pending None ]})
  /\ OrderModel.create (fail_at AtCommit "SQLITE_BUSY: database is locked")
       (request (Js.jsint 2)) before
     = (Throw "SQLITE_BUSY: database is locked", before).
Proof.
  split; vm_compute; reflexivity.
Qed.

(* ===================================================================== *)
(** * The availability validator *)
(* ===================================================================== *)



(* ===================================================================== *)
(** * Status updates *)
(* ===================================================================== *)

Lemma order_findById_run f id d :
  OrderModel.findById f id d =
    match f with
    | Some e => (Throw e, d)
    | None => (Return (OrderModel.formatOrderResponse id <$> orders (cur d) !! id), d)
    end.
Proof.
  unfold OrderModel.findById, bind, select_order. rewrite query_run.
  destruct f; reflexivity.
Qed.

Lemma findByIdWithDetails_read_only f id :
  read_only (OrderModel.findByIdWithDetails f id).
Proof.
  intros d. unfold OrderModel.findByIdWithDetails, bind, select_order_details.
  rewrite query_run. destruct f; reflexivity.
Qed.

Lemma update_order_status_run f status notes id d :
  update_order_status f status notes id d =
    match f with
    | Some e => (Throw e, d)
    | None =>
        match orders (cur d) !! id with
        | None => (Return 0, d)
        | Some o =>
            match order_status_of_text status with
            | None =>
                (Throw "SQLITE_CONSTRAINT: CHECK constraint failed: status", d)
            | Some s =>
                (Return 1, {| cur := set_order (cur d) id (with_status o s notes);
                              txn := txn d |})
            end
        end
    end.
Proof.
  unfold update_order_status, driver. destruct f; [reflexivity|].
  unfold bind, get_cur. destruct (orders (cur d) !! id); [|reflexivity].
  destruct (order_status_of_text status); reflexivity.
Qed.

Ltac case_text status :=
  match goal with
  | |- context [String.eqb status ?lit] =>
      destruct (String.eqb_spec status lit) as [->|_]
  end.

Lemma order_status_parse_text status s :
  order_status_of_text status = Some s -> order_status_text s = status.
Proof.
  unfold order_status_of_text.
  repeat (case_text status; [intros [= <-]; reflexivity|]).
  intros H; discriminate H.
Qed.

Lemma includes_parses from status :
  OrderModel.includes (OrderModel.validTransitions from) status = true ->
  exists to, order_status_of_text status = Some to
             /\ In (from, to) transition_table.
Proof.
  destruct from; simpl;
    repeat (case_text status;
            [intros _; eexists; split; [reflexivity | simpl; tauto]|]);
    simpl; intros H; discriminate H.
Qed.

(** The object [validTransitions] is the table of the state machine. *)
Lemma includes_allowed from status :
  OrderModel.includes (OrderModel.validTransitions from) status = true
  <-> allowed from status.
Proof.
  split.
  - intros H. destruct (includes_parses _ _ H) as (to & Hp & Hin).
    exists to. split; [apply order_status_parse_text, Hp | exact Hin].
  - intros (to & <- & Hin). simpl in Hin.
    repeat (destruct Hin as [[= <- <-]|Hin]; [reflexivity|]). destruct Hin.
Qed.

Lemma updateStatus_run ft id status notes d o :
  orders (cur d) !! id = Some o ->
  ft AtLookup = None ->
  OrderModel.updateStatus ft id status notes d =
    if OrderModel.includes (OrderModel.validTransitions (o_status o)) status
    then
      match ft AtWrite with
      | Some e => (Throw e, d)
      | None =>
          match order_status_of_text status with
          | Some s =>
              OrderModel.findByIdWithDetails (ft AtReadBack) id
                {| cur := set_order (cur d) id
                            (with_status o s (OrderModel.or_null notes));
                   txn := txn d |}
          | None =>
              (Throw "SQLITE_CONSTRAINT: CHECK constraint failed: status", d)
          end
      end
    else
      (Throw ("Cannot change status from " +:+ order_status_text (o_status o)
              +:+ " to " +:+ status), d).
Proof.
  intros Ho Hl. unfold OrderModel.updateStatus, bind.
  rewrite order_findById_run, Hl, Ho. simpl.
  destruct (OrderModel.includes _ _); simpl; [|reflexivity].
  rewrite update_order_status_run, Ho.
  destruct (ft AtWrite); [reflexivity|].
  destruct (order_status_of_text status); reflexivity.
Qed.

Lemma set_order_lookup t id o : orders (set_order t id o) !! id = Some o.
Proof. simpl. apply lookup_insert_eq. Qed.

(** After a legal status update whose lookup and UPDATE are not rejected, the
    row carries the requested status and the notes argument. *)
Lemma updateStatus_writes ft id status notes d o :
  orders (cur d) !! id = Some o ->
  ft AtLookup = None ->
  ft AtWrite = None ->
  allowed (o_status o) status ->
  exists s, order_status_of_text status = Some s
    /\ In (o_status o, s) transition_table
    /\ orders (cur (OrderModel.updateStatus ft id status notes d).2) !! id
       = Some (with_status o s (OrderModel.or_null notes)).
Proof.
  intros Ho Hl Hw Hal. apply includes_allowed in Hal.
  destruct (includes_parses _ _ Hal) as (s & Hs & Hin).
  exists s. split; [exact Hs|]. split; [exact Hin|].
  rewrite (updateStatus_run _ _ _ _ _ _ Ho Hl), Hal, Hw, Hs.
  rewrite findByIdWithDetails_read_only. apply set_order_lookup.
Qed.

(** C3: [updateStatus] moves an order only along the table
    pending -> {confirmed, cancelled}, confirmed -> {shipped, cancelled},
    shipped -> {delivered, cancelled}, delivered -> {}, cancelled -> {}:
    whatever the call does, the status afterwards is the old one or a
    successor in the table; a request outside the table is rejected with an
    error naming the current and the requested status, and nothing changes;
    a request inside the table sets the requested status. *)
Theorem updateStatus_follows_table ft id o status notes d :
  orders (cur d) !! id = Some o ->
  (exists o',
     orders (cur (OrderModel.updateStatus ft id status notes d).2) !! id = Some o'
     /\ (o_status o' = o_status o
         \/ In (o_status o, o_status o') transition_table))
  /\ (ft AtLookup = None ->
      ~ allowed (o_status o) status ->
      OrderModel.updateStatus ft id status notes d
      = (Throw ("Cannot change status from "
                +:+ order_status_text (o_status o) +:+ " to " +:+ status), d))
  /\ (ft AtLookup = None ->
      ft AtWrite = None ->
      allowed (o_status o) status ->
      exists o',
        orders (cur (OrderModel.updateStatus ft id status notes d).2) !! id = Some o'
        /\ order_status_text (o_status o') = status).
Proof.
  intros Ho. split; [|split].
  - destruct (ft AtLookup) as [e|] eqn:Hl.
    { exists o. split; [|left; reflexivity].
      unfold OrderModel.updateStatus, bind. rewrite order_findById_run, Hl.
      exact Ho. }
    rewrite (updateStatus_run _ _ _ _ _ _ Ho Hl).
    destruct (OrderModel.includes _ _) eqn:Hinc;
      [|exists o; split; [exact Ho | left; reflexivity]].
    destruct (ft AtWrite);
      [exists o; split; [exact Ho | left; reflexivity]|].
    destruct (includes_parses _ _ Hinc) as (s & Hs & Hin). rewrite Hs.
    rewrite findByIdWithDetails_read_only.
    eexists. split; [apply set_order_lookup | right; exact Hin].
  - intros Hl Hnot. rewrite (updateStatus_run _ _ _ _ _ _ Ho Hl).
    destruct (OrderModel.includes _ _) eqn:Hinc; [|reflexivity].
    exfalso. apply Hnot, includes_allowed, Hinc.
  - intros Hl Hw Hal.
    destruct (updateStatus_writes ft id status notes d o Ho Hl Hw Hal)
      as (s & Hs & _ & Hrow).
    eexists. split; [exact Hrow|]. simpl. apply order_status_parse_text, Hs.
Qed.

(** C3, witness: delivered -> pending is rejected and nothing changes. *)
Lemma updateStatus_follows_table_witness :
  OrderModel.updateStatus reliable 1 "pending" None
    (shop (item 2499.99 3 available)
       {[ 1 := placed 2 2499.99 4999.98 delivered None ]})
  = (Throw "Cannot change status from delivered to pending",
     shop (item 2499.99 3 available)
       {[ 1 := placed 2 2499.99 4999.98 delivered None ]}).
Proof.
  destruct (updateStatus_follows_table reliable 1
              (placed 2 2499.99 4999.98 delivered None) "pending" None
              (shop (item 2499.99 3 available)
                 {[ 1 := placed 2 2499.99 4999.98 delivered None ]}))
    as (_ & Hrejected & _).
  - vm_compute. reflexivity.
  - apply Hrejected.
    + reflexivity.
    + intros (to & _ & Hin). simpl in Hin. intuition discriminate.
Defined.

(** C10: a legal [updateStatus] always stores its [notes] argument; the
    parameter is declared [notes = null], so a call without notes stores
    null, whatever notes the order had. *)
Theorem updateStatus_overwrites_notes ft id o status notes d :
  orders (cur d) !! id = Some o ->
  ft AtLookup = None ->
  ft AtWrite = None ->
  allowed (o_status o) status ->
  exists o',
    orders (cur (OrderModel.updateStatus ft id status notes d).2) !! id = Some o'
    /\ o_notes o' = match notes with
                    | Some given => given
                    | None => None
                    end.
Proof.
  intros Ho Hl Hw Hal.
  destruct (updateStatus_writes ft id status notes d o Ho Hl Hw Hal)
    as (s & _ & _ & Hrow).
  eexists. split; [exact Hrow|]. destruct notes; reflexivity.
Qed.

(** C10, witness: confirming an order without notes erases its notes. *)
Lemma updateStatus_overwrites_notes_witness :
  exists o',
    orders (cur (OrderModel.updateStatus reliable 1 "confirmed" None
                   (shop (item 2499.99 3 available)
                      {[ 1 := placed 2 2499.99 4999.98 pending
                                (Some "leave at the door") ]})).2) !! 1
    = Some o'
    /\ o_notes o' = None.
Proof.
  apply (updateStatus_overwrites_notes reliable 1
           (placed 2 2499.99 4999.98 pending (Some "leave at the door"))
           "confirmed" None).
  - vm_compute. reflexivity.
  - reflexivity.
  - reflexivity.
  - exists confirmed. split; [reflexivity | simpl; tauto].
Defined.

(* ===================================================================== *)
(** * Cancellation *)
(* ===================================================================== *)

Lemma bind_Return {A B} (m : M A) (k : A -> M B) d b d' :
  bind m k d = (Return b, d') ->
  exists a d1, m d = (Return a, d1) /\ k a d1 = (Return b, d').
Proof.
  unfold bind. destruct (m d) as [[a|e] d1]; [|discriminate].
  intros H. exists a, d1. split; [reflexivity | exact H].
Qed.

(** A [catch] block that rolls back and rethrows never turns a failure into
    a result. *)
Lemma try_rollback_Return {A} (m : M A) f d r d' :
  try_catch m (fun error => bind (rollbackTransaction f) (fun _ => throw error)) d
  = (Return r, d') ->
  m d = (Return r, d').
Proof.
  unfold try_catch. destruct (m d) as [[a|e] d1]; [intros H; exact H|].
  unfold bind. destruct (rollbackTransaction f d1) as [[[]|e'] d2]; discriminate.
Qed.

Lemma restore_stock_run f quantity1 quantity2 product_id d :
  restore_stock f quantity1 quantity2 product_id d =
    match f with
    | Some e => (Throw e, d)
    | None =>
        match products (cur d) !! product_id with
        | None => (Return 0, d)
        | Some p =>
            if p_stockQuantity (restock p quantity1 quantity2) <? 0 then
              (Throw "SQLITE_CONSTRAINT: CHECK constraint failed: stockQuantity >= 0",
               d)
            else
              (Return 1,
               {| cur := set_product (cur d) product_id
                           (restock p quantity1 quantity2);
                  txn := txn d |})
        end
    end.
Proof.
  unfold restore_stock, driver. destruct f; [reflexivity|].
  unfold bind, get_cur. destruct (products (cur d) !! product_id); [|reflexivity].
  destruct (_ <? _); reflexivity.
Qed.

(** What [cancel] has done when it resolves: the order was open, it is now
    cancelled with the reason as notes, its product (when the row exists)
    was restocked by the order's quantity, and the transaction is closed. *)
Lemma cancel_resolved ft id reason d o r d' :
  orders (cur d) !! id = Some o ->
  OrderModel.cancel ft id reason d = (Return r, d') ->
  ~ terminal (o_status o)
  /\ txn d' = None
  /\ orders (cur d') !! id
     = Some (with_status o cancelled (OrderModel.or_null reason))
  /\ (forall p, products (cur d) !! o_product_id o = Some p ->
        products (cur d') !! o_product_id o
        = Some (restock p (o_quantity o) (o_quantity o))).
Proof.
  intros Ho H. unfold OrderModel.cancel in H.
  apply bind_Return in H as (found & d0 & Hfind & H).
  rewrite order_findById_run in Hfind.
  destruct (ft AtLookup); [discriminate|]. injection Hfind as <- <-.
  rewrite Ho in H. simpl in H.
  destruct (bool_decide (o_status o = cancelled)) eqn:Hc; [discriminate|].
  destruct (bool_decide (o_status o = delivered)) eqn:Hd; [discriminate|].
  apply bool_decide_eq_false in Hc, Hd.
  apply bind_Return in H as ([] & d1 & Hbegin & H).
  rewrite beginTransaction_run in Hbegin.
  destruct (ft AtBegin); [discriminate|].
  destruct (txn d) eqn:Ht; [discriminate|]. injection Hbegin as <-.
  apply try_rollback_Return in H.
  apply bind_Return in H as (c1 & d2 & Hupdate & H).
  rewrite update_order_status_run in Hupdate.
  destruct (ft AtWrite); [discriminate|].
  simpl in Hupdate. rewrite Ho in Hupdate. injection Hupdate as <- <-.
  apply bind_Return in H as (c2 & d3 & Hstock & H).
  rewrite restore_stock_run in Hstock.
  destruct (ft AtWriteStock); [discriminate|].
  apply bind_Return in H as ([] & d4 & Hcommit & H).
  assert (Hread : d' = d4).
  { pose proof (findByIdWithDetails_read_only (ft AtReadBack) id d4) as Hro.
    rewrite H in Hro. exact Hro. }
  subst d'. clear H.
  split; [intros [Hs|Hs]; congruence|].
  simpl in Hstock.
  destruct (products (cur d) !! o_product_id o) as [p|] eqn:Hp.
  - destruct (_ <? _); [discriminate|]. injection Hstock as <- <-.
    rewrite (commit_open _ _ (cur d)) in Hcommit by reflexivity.
    destruct (ft AtCommit); [discriminate|]. injection Hcommit as <-.
    split; [reflexivity|]. split.
    + simpl. apply lookup_insert_eq.
    + intros p0 [= <-]. simpl. apply lookup_insert_eq.
  - injection Hstock as <- <-.
    rewrite (commit_open _ _ (cur d)) in Hcommit by reflexivity.
    destruct (ft AtCommit); [discriminate|]. injection Hcommit as <-.
    split; [reflexivity|]. split.
    + simpl. apply lookup_insert_eq.
    + intros p0 [=].
Qed.

Lemma cancel_terminal ft id reason d o :
  orders (cur d) !! id = Some o ->
  ft AtLookup = None ->
  terminal (o_status o) ->
  OrderModel.cancel ft id reason d
  = (Throw (if bool_decide (o_status o = cancelled)
            then "Order is already cancelled"
            else "Cannot cancel delivered order"), d).
Proof.
  intros Ho Hl Hterm. unfold OrderModel.cancel, bind at 1.
  rewrite order_findById_run, Hl, Ho. simpl.
  destruct Hterm as [Hs|Hs]; rewrite Hs; reflexivity.
Qed.

(** C9: [cancel] on a cancelled or delivered order is rejected with the
    business-rule error of the source and changes nothing: not the order's
    status, not the product's stock. In particular, once [cancel] has
    resolved, cancelling the same order again is rejected and leaves the
    stock as the first cancellation set it. *)
Theorem cancel_rejects_terminal ft id o reason d :
  orders (cur d) !! id = Some o ->
  ft AtLookup = None ->
  (o_status o = cancelled ->
   OrderModel.cancel ft id reason d = (Throw "Order is already cancelled", d))
  /\ (o_status o = delivered ->
      OrderModel.cancel ft id reason d
      = (Throw "Cannot cancel delivered order", d))
  /\ (forall ft1 reason1 r d1,
        OrderModel.cancel ft1 id reason1 d = (Return r, d1) ->
        OrderModel.cancel ft id reason d1
        = (Throw "Order is already cancelled", d1)).
Proof.
  intros Ho Hl. split; [|split].
  - intros Hs. rewrite (cancel_terminal ft id reason d o Ho Hl) by (right; exact Hs).
    rewrite Hs. reflexivity.
  - intros Hs. rewrite (cancel_terminal ft id reason d o Ho Hl) by (left; exact Hs).
    rewrite Hs. reflexivity.
  - intros ft1 reason1 r d1 H1.
    destruct (cancel_resolved ft1 id reason1 d o r d1 Ho H1) as (_ & _ & Hrow & _).
    rewrite (cancel_terminal ft id reason d1 _ Hrow Hl) by (right; reflexivity).
    reflexivity.
Qed.

(** C9, witness: cancelling a cancelled order. *)
Lemma cancel_rejects_terminal_witness :
  OrderModel.cancel reliable 1 (Some (Some "changed my mind"))
    (shop (item 2499.99 5 available)
       {[ 1 := placed 2 2499.99 4999.98 cancelled None ]})
  = (Throw "Order is already cancelled",
     shop (item 2499.99 5 available)
       {[ 1 := placed 2 2499.99 4999.98 cancelled None ]}).
Proof.
  destruct (cancel_rejects_terminal reliable 1
              (placed 2 2499.99 4999.98 cancelled None)
              (Some (Some "changed my mind"))
              (shop (item 2499.99 5 available)
                 {[ 1 := placed 2 2499.99 4999.98 cancelled None ]}))
    as (Hcancelled & _ & _).
  - vm_compute. reflexivity.
  - reflexivity.
  - apply Hcancelled. reflexivity.
Defined.

(** The half of C2 that the code meets: [cancel], when it resolves, has
    added the order's quantity back to the stock of its product, and has
    made an [out_of_stock] product [available] again. *)
Lemma cancel_restores_stock ft id reason d o p r d' :
  orders (cur d) !! id = Some o ->
  products (cur d) !! o_product_id o = Some p ->
  OrderModel.cancel ft id reason d = (Return r, d') ->
  exists p', products (cur d') !! o_product_id o = Some p'
    /\ p_stockQuantity p' = p_stockQuantity p + o_quantity o
    /\ p_status p' = (if bool_decide (p_status p = out_of_stock)
                         && (0 <? p_stockQuantity p + o_quantity o)
                      then available else p_status p).
Proof.
  intros Ho Hp H.
  destruct (cancel_resolved ft id reason d o r d' Ho H) as (_ & _ & _ & Hprod).
  eexists. split; [apply Hprod, Hp|]. split; reflexivity.
Qed.

(** [updateStatus] never touches the products, whatever status it sets. *)
Lemma updateStatus_keeps_products ft id status notes d :
  products (cur (OrderModel.updateStatus ft id status notes d).2)
  = products (cur d).
Proof.
  unfold OrderModel.updateStatus, bind at 1. rewrite order_findById_run.
  destruct (ft AtLookup); [reflexivity|].
  destruct (orders (cur d) !! id) as [o|]; [|reflexivity]. simpl.
  destruct (negb _); [reflexivity|].
  unfold bind. rewrite update_order_status_run.
  destruct (ft AtWrite); [reflexivity|].
  destruct (orders (cur d) !! id); [|reflexivity].
  destruct (order_status_of_text status); [|reflexivity].
  simpl. rewrite findByIdWithDetails_read_only. reflexivity.
Qed.

(** C2 at its failing input: an order of 2 taken from a stock of 5 is moved
    from pending to cancelled by [updateStatus]; the call resolves, the order
    is cancelled, and the stock is still 3. On the same input [cancel]
    brings the stock back to 5. *)
Theorem updateStatus_cancelled_keeps_stock :
  let before := shop (item 2499.99 3 available)
                  {[ 1 := placed 2 2499.99 4999.98 pending None ]} in
  (exists details after,
     OrderModel.updateStatus reliable 1 "cancelled" None before
     = (Return (Some details), after)
     /\ o_status (det_order details) = cancelled
     /\ p_stockQuantity <$> products (cur after) !! 1 = Some 3)
  /\ (exists details after,
        OrderModel.cancel reliable 1 None before
        = (Return (Some details), after)
        /\ o_status (det_order details) = cancelled
        /\ p_stockQuantity <$> products (cur after) !! 1 = Some 5).
Proof.
  split; eexists; eexists; (split; [vm_compute; reflexivity|]);
    split; vm_compute; reflexivity.
Qed.

(* ===================================================================== *)
(** * Stock adjustment and product update *)
(* ===================================================================== *)

Lemma product_findById_run f id d :
  ProductModel.findById f id d =
    match f with
    | Some e => (Throw e, d)
    | None =>
        (Return (ProductModel.formatProductResponse id <$> products (cur d) !! id), d)
    end.
Proof.
  unfold ProductModel.findById, bind, select_product. rewrite query_run.
  destruct f; reflexivity.
Qed.

Lemma product_findById_read_only f id : read_only (ProductModel.findById f id).
Proof. intros d. rewrite product_findById_run. destruct f; reflexivity. Qed.

Lemma set_stock_run f newQuantity newStatus id d :
  set_stock f newQuantity newStatus id d =
    match f with
    | Some e => (Throw e, d)
    | None =>
        match products (cur d) !! id with
        | None => (Return 0, d)
        | Some p =>
            match Js.integer_of newQuantity with
            | Some n =>
                if n <? 0 then
                  (Throw "SQLITE_CONSTRAINT: CHECK constraint failed: stockQuantity >= 0",
                   d)
                else
                  (Return 1,
                   {| cur := set_product (cur d) id (with_stock p n newStatus);
                      txn := txn d |})
            | None =>
                (Throw (if PrimFloat.ltb newQuantity 0 then
                          "SQLITE_CONSTRAINT: CHECK constraint failed: stockQuantity >= 0"
                        else stock_not_finite), d)
            end
        end
    end.
Proof.
  unfold set_stock, driver. destruct f; [reflexivity|].
  unfold bind, get_cur. destruct (products (cur d) !! id); [|reflexivity].
  destruct (Js.integer_of newQuantity) as [n|].
  - destruct (_ <? _); reflexivity.
  - destruct (PrimFloat.ltb newQuantity 0); reflexivity.
Qed.

(** The comparisons of an integral number with zero are those of the
    integer it holds. *)
Lemma integer_of_sign x n :
  Js.integer_of x = Some n ->
  match Prim2SF x with
  | S754_zero _ => n = 0
  | S754_finite s _ _ => if s then n < 0 else 0 < n
  | _ => False
  end.
Proof.
  unfold Js.integer_of. destruct (Prim2SF x) as [s|s| |s m e]; try discriminate.
  - intros [= <-]. reflexivity.
  - assert (Hm : 0 < Z.pos m) by lia.
    destruct (Z.leb_spec 0 e) as [He|He].
    + intros [= <-]. assert (0 < 2 ^ e) by (apply Z.pow_pos_nonneg; lia).
      destruct s; nia.
    + destruct (Z.eqb_spec (Z.pos m mod 2 ^ (- e)) 0) as [Hmod|];
        [|discriminate].
      intros [= <-].
      assert (Hp : 0 < 2 ^ (- e)) by (apply Z.pow_pos_nonneg; lia).
      assert (Hd : Z.pos m = 2 ^ (- e) * (Z.pos m / 2 ^ (- e)))
        by (apply Z.div_exact; lia).
      destruct s; nia.
Qed.

Lemma integer_of_ltb x n :
  Js.integer_of x = Some n -> PrimFloat.ltb x 0 = (n <? 0).
Proof.
  intros H. apply integer_of_sign in H. rewrite FloatAxioms.ltb_spec.
  change (Prim2SF 0) with (S754_zero false).
  destruct (Prim2SF x) as [s|s| |s m e]; try contradiction.
  - subst n. destruct s; reflexivity.
  - destruct s; simpl; symmetry; [apply Z.ltb_lt|apply Z.ltb_ge]; lia.
Qed.

Lemma integer_of_eqb x n :
  Js.integer_of x = Some n -> PrimFloat.eqb x 0 = (n =? 0).
Proof.
  intros H. apply integer_of_sign in H. rewrite FloatAxioms.eqb_spec.
  change (Prim2SF 0) with (S754_zero false).
  destruct (Prim2SF x) as [s|s| |s m e]; try contradiction.
  - subst n. destruct s; reflexivity.
  - destruct s; simpl; symmetry; apply Z.eqb_neq; lia.
Qed.

(** What [updateStock] has done when it resolves: the new quantity is the
    integer that the sum or the difference of the old one and the change,
    as doubles, holds; it is not negative, and the status written with it is
    [out_of_stock] for zero and [available] otherwise, whatever the status
    was. *)
Lemma updateStock_resolved ft id quantityChange operation d p r d' :
  products (cur d) !! id = Some p ->
  ProductModel.updateStock ft id quantityChange operation d = (Return r, d') ->
  exists newQuantity,
    (default "subtract" operation = "add"
       /\ Js.integer_of (Js.add (p_stockQuantity p) quantityChange)
          = Some newQuantity
     \/ default "subtract" operation = "subtract"
       /\ Js.integer_of (Js.sub (p_stockQuantity p) quantityChange)
          = Some newQuantity)
    /\ 0 <= newQuantity
    /\ products (cur d') !! id
       = Some (with_stock p newQuantity
                 (if newQuantity =? 0 then out_of_stock else available)).
Proof.
  intros Hp H. unfold ProductModel.updateStock in H.
  apply try_rollback_Return in H.
  apply bind_Return in H as ([] & d1 & Hbegin & H).
  rewrite beginTransaction_run in Hbegin.
  destruct (ft AtBegin); [discriminate|].
  destruct (txn d) eqn:Ht; [discriminate|]. injection Hbegin as <-.
  apply bind_Return in H as (found & d2 & Hfind & H).
  rewrite product_findById_run in Hfind.
  destruct (ft AtLookup); [discriminate|]. injection Hfind as <- <-.
  simpl in H. rewrite Hp in H. simpl in H.
  apply bind_Return in H as (x & d3 & Hnew & H).
  assert (Hq : d3 = {| cur := cur d; txn := Some (cur d) |}
               /\ (default "subtract" operation = "add"
                     /\ x = Js.add (p_stockQuantity p) quantityChange
                   \/ default "subtract" operation = "subtract"
                     /\ x = Js.sub (p_stockQuantity p) quantityChange)).
  { destruct (String.eqb_spec (default "subtract" operation) "add") as [Ha|_].
    - injection Hnew as <- <-. split; [reflexivity|]. left.
      split; [exact Ha | reflexivity].
    - destruct (String.eqb_spec (default "subtract" operation) "subtract")
        as [Hs|_]; [|discriminate].
      destruct (PrimFloat.ltb _ 0); [discriminate|].
      injection Hnew as <- <-. split; [reflexivity|]. right.
      split; [exact Hs|reflexivity]. }
  destruct Hq as [-> Hq]. clear Hnew.
  apply bind_Return in H as (changes & d4 & Hset & H).
  rewrite set_stock_run in Hset.
  destruct (ft AtWrite); [discriminate|]. simpl in Hset. rewrite Hp in Hset.
  destruct (Js.integer_of x) as [n|] eqn:Hn; [|discriminate].
  destruct (Z.ltb_spec n 0) as [|Hnonneg]; [discriminate|].
  injection Hset as <- <-. simpl in H.
  apply bind_Return in H as ([] & d5 & Hcommit & H).
  rewrite (commit_open _ _ (cur d)) in Hcommit by reflexivity.
  destruct (ft AtCommit); [discriminate|]. injection Hcommit as <-.
  pose proof (product_findById_read_only (ft AtReadBack) id) as Hro.
  match type of H with ?m ?dd = _ => specialize (Hro dd) end.
  rewrite H in Hro. simpl in Hro. subst d'.
  exists n. split.
  { destruct Hq as [[Ha ->]|[Hs ->]]; [left|right]; split; assumption. }
  split; [exact Hnonneg|].
  simpl. rewrite lookup_insert_eq, (integer_of_eqb x n Hn). reflexivity.
Qed.

(** C5 at its failing input: adding 1 to the stock of a discontinued product
    that has 5 in stock resolves and makes the product [available]. *)
Theorem updateStock_relists_discontinued :
  ProductModel.updateStock reliable 1 1 (Some "add")
    (shop (item 2499.99 5 discontinued) ∅)
  = (Return (Some (1, item 2499.99 6 available)),
     shop (item 2499.99 6 available) ∅).
Proof. vm_compute. reflexivity. Qed.

Lemma ledger_after_updateStock ft id quantityChange operation d p r d' :
  products (cur d) !! id = Some p ->
  ProductModel.updateStock ft id quantityChange operation d = (Return r, d') ->
  exists p', products (cur d') !! id = Some p' /\ ledger_ok p'.
Proof.
  intros Hp H.
  destruct (updateStock_resolved _ _ _ _ _ _ _ _ Hp H) as (n & _ & _ & Hrow).
  eexists. split; [exact Hrow|]. right. simpl.
  destruct (Z.eqb_spec n 0); split; intros; congruence.
Qed.

(** The restore of [cancel] keeps the ledger rule, for rows that meet the
    CHECK constraints of the schema (a stock that is not negative, an order
    quantity that is positive). *)
Lemma ledger_after_cancel ft id reason d o p r d' :
  orders (cur d) !! id = Some o ->
  products (cur d) !! o_product_id o = Some p ->
  0 <= p_stockQuantity p ->
  0 < o_quantity o ->
  OrderModel.cancel ft id reason d = (Return r, d') ->
  exists p', products (cur d') !! o_product_id o = Some p' /\ ledger_ok p'.
Proof.
  intros Ho Hp Hstock Hq H.
  destruct (cancel_restores_stock _ _ _ _ _ _ _ _ Ho Hp H)
    as (p' & Hrow & Hs & Hst).
  exists p'. split; [exact Hrow|].
  destruct (decide (p_status p' = discontinued)) as [|Hnd]; [left; assumption|].
  right. rewrite Hs, Hst.
  destruct (Z.ltb_spec 0 (p_stockQuantity p + o_quantity o)); [|lia].
  rewrite andb_true_r.
  destruct (bool_decide (p_status p = out_of_stock)) eqn:Hb.
  - split; [discriminate | lia].
  - apply bool_decide_eq_false in Hb. split; [contradiction | lia].
Qed.

(** C4 at its failing input: [update] with only [stockQuantity: 0] on an
    available product with 5 in stock resolves and leaves a product with
    nothing in stock that is still [available]. *)
Theorem update_breaks_ledger :
  ProductModel.update reliable 1 (only_stock (Js.jsint 0))
    (shop (item 2499.99 5 available) ∅)
  = (Return (Some (1, item 2499.99 0 available)),
     shop (item 2499.99 0 available) ∅)
  /\ ~ ledger_ok (item 2499.99 0 available).
Proof.
  split; [vm_compute; reflexivity|].
  intros [H|[_ H]]; [discriminate H|].
  specialize (H eq_refl). discriminate H.
Qed.

(* ===================================================================== *)
(** * What a resolved [create] has done *)
(* ===================================================================== *)

Lemma productAvailable_Available f productId requestedQuantity d snap d' :
  Validation.productAvailable f productId requestedQuantity d
  = (Return (Validation.Available snap), d') ->
  exists p, products (cur d) !! productId = Some p
    /\ p_status p = available
    /\ requestedQuantity <= p_stockQuantity p
    /\ snap_price snap = p_price p.
Proof.
  unfold Validation.productAvailable, try_catch, bind, select_product_snapshot.
  rewrite query_run. destruct f; [discriminate|].
  destruct (products (cur d) !! productId) as [p|]; simpl; [|discriminate].
  destruct (bool_decide (p_status p = available)) eqn:Hb; simpl; [|discriminate].
  apply bool_decide_eq_true in Hb.
  destruct (Z.ltb_spec (p_stockQuantity p) requestedQuantity); [discriminate|].
  intros [= <- <-]. exists p. repeat split; assumption.
Qed.

Lemma insert_order_Return f user_id product_id quantity unit_price total_price
    notes d new_id d' :
  insert_order f user_id product_id quantity unit_price total_price notes d
  = (Return new_id, d') ->
  exists u p,
    users (cur d) !! user_id = Some u
    /\ products (cur d) !! product_id = Some p
    /\ d' = {| cur :=
                 {| users := users (cur d);
                    products := <[product_id := update_stock_on_order p quantity]>
                                  (products (cur d));
                    orders := <[new_id :=
                                  {| o_user_id := user_id;
                                     o_product_id := product_id;
                                     o_quantity := quantity;
                                     o_unit_price := unit_price;
                                     o_total_price := total_price;
                                     o_status := pending;
                                     o_notes := notes |}]>
                                (orders (cur d));
                    orders_seq := new_id |};
               txn := txn d |}.
Proof.
  unfold insert_order, driver. destruct f; [discriminate|].
  unfold bind, get_cur. destruct (_ || _); [discriminate|].
  destruct (negb _); [discriminate|].
  destruct (users (cur d) !! user_id) as [u|]; [|discriminate].
  destruct (products (cur d) !! product_id) as [p|]; [|discriminate].
  destruct (_ <? _); [discriminate|].
  intros [= <- <-]. exists u, p. repeat split; reflexivity.
Qed.

Lemma create_resolved ft orderData d r d' :
  OrderModel.create ft orderData d = (Return r, d') ->
  exists user_id product_id q p new_id details,
    OrderModel.user_id orderData = Some user_id
    /\ OrderModel.product_id orderData = Some product_id
    /\ OrderModel.quantity orderData = Some q
    /\ 0 < Js.parseInt q
    /\ products (cur d) !! product_id = Some p
    /\ p_status p = available
    /\ Js.parseInt q <= p_stockQuantity p
    /\ d' = {| cur :=
                 {| users := users (cur d);
                    products := <[product_id :=
                                    update_stock_on_order p (Js.parseInt q)]>
                                  (products (cur d));
                    orders := <[new_id :=
                                  new_order user_id product_id (Js.parseInt q)
                                    (p_price p) (OrderModel.notes orderData)]>
                                (orders (cur d));
                    orders_seq := new_id |};
               txn := None |}
    /\ r = Some details
    /\ det_id details = new_id
    /\ det_order details
       = OrderModel.reread_prices
           (new_order user_id product_id (Js.parseInt q) (p_price p)
              (OrderModel.notes orderData)).
Proof.
  intros H. unfold OrderModel.create in H.
  apply bind_Return in H as ([[[uid pid] qn] snap] & d1 & Hchecks & H).
  pose proof (create_checks_outcome _ _ _ _ _ Hchecks) as [Hnone ->].
  unfold OrderModel.create_checks in Hchecks.
  destruct (OrderModel.user_id orderData) as [uid'|]; [|discriminate].
  destruct (OrderModel.product_id orderData) as [pid'|]; [|discriminate].
  destruct (OrderModel.quantity orderData) as [q|]; [|discriminate].
  destruct (_ || _); [discriminate|].
  cbv zeta in Hchecks.
  destruct (Js.parseInt q <=? 0) eqn:Hpos; [discriminate|].
  apply Z.leb_gt in Hpos.
  apply bind_Return in Hchecks as (b & d2 & Hu & Hchecks).
  pose proof (userExists_read_only (ft AtValidateUser) uid' d) as Hro.
  rewrite Hu in Hro. simpl in Hro. subst d2.
  destruct (negb b); [discriminate|].
  apply bind_Return in Hchecks as (av & d3 & Hav & Hchecks).
  pose proof (productAvailable_read_only (ft AtValidateProduct) pid'
                (Js.parseInt q) d) as Hro.
  rewrite Hav in Hro. simpl in Hro. subst d3.
  destruct av as [reason|snap']; [discriminate|].
  apply productAvailable_Available in Hav as (p & Hp & Hst & Hle & Hprice).
  apply bind_Return in Hchecks as ([] & d4 & _ & Hret).
  injection Hret as Hu1 Hp1 Hq1 Hs1 _. subst uid pid qn snap.
  unfold OrderModel.create_unit in H. apply try_rollback_Return in H.
  apply bind_Return in H as (new_id & d5 & Hins & H).
  apply insert_order_Return in Hins as (u & p0 & Hu0 & Hp0 & ->).
  simpl in Hu0, Hp0. rewrite Hp in Hp0. injection Hp0 as <-.
  apply bind_Return in H as ([] & d6 & Hcommit & H).
  rewrite (commit_open _ _ (cur d)) in Hcommit by reflexivity.
  destruct (ft AtCommit); [discriminate|]. injection Hcommit as <-.
  unfold OrderModel.findByIdWithDetails, bind, select_order_details in H.
  rewrite query_run in H. destruct (ft AtReadBack); [discriminate|].
  unfold ret in H. cbn [cur orders] in H. rewrite lookup_insert_eq in H.
  cbn [cur users products o_user_id o_product_id] in H.
  rewrite Hu0, lookup_insert_eq in H. injection H as <- <-.
  exists uid', pid', q, p, new_id. eexists.
  rewrite Hprice.
  repeat match goal with |- _ /\ _ => split end; try assumption; reflexivity.
Qed.

(** The trigger keeps the ledger rule for the product of a created order. *)
Lemma ledger_after_create ft orderData d r d' :
  OrderModel.create ft orderData d = (Return r, d') ->
  exists product_id p',
    OrderModel.product_id orderData = Some product_id
    /\ products (cur d') !! product_id = Some p'
    /\ ledger_ok p'.
Proof.
  intros H. apply create_resolved in H
    as (uid & pid & q & p & new_id & det & _ & Hpid & _ & Hpos & Hp & Hst
        & Hle & -> & _).
  exists pid, (update_stock_on_order p (Js.parseInt q)).
  split; [exact Hpid|]. split; [simpl; apply lookup_insert_eq|].
  right. simpl.
  destruct (Z.leb_spec (p_stockQuantity p - Js.parseInt q) 0).
  - split; [lia | reflexivity].
  - rewrite Hst. split; [discriminate | lia].
Qed.

(* ===================================================================== *)
(** * The quantity of an order *)
(* ===================================================================== *)

(** [create] rejects, without touching the connection, every quantity whose
    integer prefix (what [parseInt] reads) is not positive: zero, negative
    numbers, fractions below 1. *)
Lemma create_rejects_nonpositive ft orderData d q :
  OrderModel.quantity orderData = Some q ->
  Js.parseInt q <= 0 ->
  exists msg,
    OrderModel.create ft orderData d = (Throw msg, d)
    /\ (msg = "User ID, Product ID, and quantity are required"
        \/ msg = "Quantity must be a positive integer").
Proof.
  intros Hq Hle. unfold OrderModel.create, bind, OrderModel.create_checks.
  rewrite Hq.
  destruct (OrderModel.user_id orderData);
    [|eexists; split; [reflexivity | left; reflexivity]].
  destruct (OrderModel.product_id orderData);
    [|eexists; split; [reflexivity | left; reflexivity]].
  destruct (_ || _); [eexists; split; [reflexivity | left; reflexivity]|].
  cbv zeta. destruct (Z.leb_spec (Js.parseInt q) 0); [|lia].
  eexists; split; [reflexivity | right; reflexivity].
Qed.

Lemma pow10_pos n : 0 < Js.pow10 n.
Proof. unfold Js.pow10. apply Z.pow_pos_nonneg; lia. Qed.

(** The rule of the route's schema accepts exactly the integers from 1 to
    [max]. *)
Lemma quantity_rule_integer max q :
  Validation.quantity_rule max q = true
  <-> exists n, 1 <= n <= max
                /\ Js.dec_mant q = n * Js.pow10 (Js.dec_scale q).
Proof.
  unfold Validation.quantity_rule, Js.is_integer.
  pose proof (pow10_pos (Js.dec_scale q)) as Hpos.
  set (m := Js.dec_mant q) in *. set (s := Js.pow10 (Js.dec_scale q)) in *.
  rewrite !andb_true_iff, Z.eqb_eq, Z.ltb_lt, !Z.leb_le.
  split.
  - intros [[[Hmod Hm] Hlow] Hhigh].
    exists (m / s).
    assert (Hdiv : m = s * (m / s)) by (apply Z.div_exact; lia).
    split; [|lia]. split; nia.
  - intros (n & [Hlow Hhigh] & ->).
    rewrite Z.mod_mul by lia. repeat split; nia.
Qed.

(** C8 at its failing input: [create] with quantity 2.5 resolves; it has
    inserted an order of quantity 2 and taken 2 from the stock. The route's
    schema would not have let 2.5 through. *)
Theorem create_truncates_quantity :
  exists details,
    OrderModel.create reliable (request two_and_a_half)
      (shop (item 2499.99 5 available) ∅)
    = (Return (Some details),
       shop (item 2499.99 3 available)
         {[ 1 := placed 2 2499.99 4999.98 pending None ]})
    /\ o_quantity (det_order details) = 2
    /\ Js.is_integer two_and_a_half = false
    /\ Validation.quantity_rule 100 two_and_a_half = false.
Proof.
  eexists. split; [vm_compute; reflexivity|].
  split; [|split]; vm_compute; reflexivity.
Qed.

(* ===================================================================== *)
(** * Totals *)
(* ===================================================================== *)

Lemma priced_insert t t' id o :
  orders t' = <[id := o]> (orders t) -> float_total o -> priced t -> priced t'.
Proof.
  intros Heq Ho H id' o' Ho'. rewrite Heq in Ho'.
  destruct (decide (id = id')) as [<-|Hne].
  - rewrite lookup_insert_eq in Ho'. injection Ho' as <-. exact Ho.
  - rewrite lookup_insert_ne in Ho' by exact Hne. exact (H id' o' Ho').
Qed.

(** A statement that only rewrites the current tables maintains the pricing
    of every visible order as soon as its new tables are priced. *)
Lemma maintains_priced_statement {A} (m : M A) :
  (forall d, txn (m d).2 = txn d) ->
  (forall d, priced (cur d) -> priced (cur (m d).2)) ->
  maintains db_priced m.
Proof.
  intros Htxn Hcur d [Hc Ht]. split; [apply Hcur, Hc|].
  intros t Hopen. rewrite Htxn in Hopen. exact (Ht t Hopen).
Qed.

Lemma beginTransaction_priced f : maintains db_priced (beginTransaction f).
Proof.
  intros d Hd. rewrite beginTransaction_run.
  destruct f; [exact Hd|].
  destruct (txn d) eqn:Hopen; [exact Hd|].
  destruct Hd as [Hc _]. split; [exact Hc|]. intros t [= <-]. exact Hc.
Qed.

Lemma commitTransaction_priced f : maintains db_priced (commitTransaction f).
Proof.
  intros d Hd. unfold commitTransaction, driver.
  destruct f; [exact Hd|].
  destruct (txn d) eqn:Hopen; [|exact Hd].
  destruct Hd as [Hc _]. split; [exact Hc | discriminate].
Qed.

Lemma rollbackTransaction_priced f : maintains db_priced (rollbackTransaction f).
Proof.
  intros d Hd. unfold rollbackTransaction, driver.
  destruct f; [exact Hd|].
  destruct (txn d) as [t|] eqn:Hopen; [|exact Hd].
  destruct Hd as [_ Ht]. split; [apply Ht, Hopen | discriminate].
Qed.

Lemma insert_order_priced f user_id product_id quantity unit_price notes :
  maintains db_priced
    (insert_order f user_id product_id quantity unit_price
       (PrimFloat.mul unit_price (Js.Z2float quantity)) notes).
Proof.
  apply maintains_priced_statement.
  - intros d. apply insert_order_statement.
  - intros d Hc.
    pose proof (insert_order_statement f user_id product_id quantity unit_price
                  (PrimFloat.mul unit_price (Js.Z2float quantity)) notes d)
      as [_ Hfail].
    destruct (insert_order f user_id product_id quantity unit_price _ notes d)
      as [[new_id|e] d'] eqn:H; simpl in Hfail.
    + apply insert_order_Return in H as (u & p & _ & _ & ->).
      eapply priced_insert; [reflexivity | reflexivity | exact Hc].
    + rewrite (Hfail e eq_refl). exact Hc.
Qed.

Lemma update_order_status_priced f status notes id :
  maintains db_priced (update_order_status f status notes id).
Proof.
  apply maintains_priced_statement; intros d; rewrite update_order_status_run;
    destruct f; try reflexivity; try (intros H; exact H);
    destruct (orders (cur d) !! id) as [o|] eqn:Ho;
    try reflexivity; try (intros H; exact H);
    destruct (order_status_of_text status);
    try reflexivity; try (intros H; exact H).
  intros Hc. eapply priced_insert; [reflexivity | | exact Hc].
  exact (Hc id o Ho).
Qed.

Lemma restore_stock_priced f quantity1 quantity2 product_id :
  maintains db_priced (restore_stock f quantity1 quantity2 product_id).
Proof.
  apply maintains_priced_statement; intros d; rewrite restore_stock_run;
    destruct f; try reflexivity; try (intros H; exact H);
    destruct (products (cur d) !! product_id);
    try reflexivity; try (intros H; exact H);
    destruct (_ <? _); try reflexivity; intros H; exact H.
Qed.

Lemma set_stock_priced f newQuantity newStatus id :
  maintains db_priced (set_stock f newQuantity newStatus id).
Proof.
  apply maintains_priced_statement; intros d; rewrite set_stock_run;
    destruct f; try reflexivity; try (intros H; exact H);
    destruct (products (cur d) !! id);
    try reflexivity; try (intros H; exact H);
    destruct (Js.integer_of newQuantity);
    try reflexivity; try (intros H; exact H);
    destruct (_ <? _); try reflexivity; intros H; exact H.
Qed.

Lemma update_product_priced f u id : maintains db_priced (update_product f u id).
Proof.
  apply maintains_priced_statement; intros d;
    unfold update_product, driver; (destruct f; [try reflexivity; intros H; exact H|]);
    unfold bind, get_cur;
    (destruct (products (cur d) !! id); [|try reflexivity; intros H; exact H]);
    cbv zeta;
    repeat match goal with
           | |- context [if ?b then _ else _] => destruct b
           | |- context [match ?x with Some _ => _ | None => _ end] => destruct x
           end;
    try reflexivity; intros H; exact H.
Qed.

Lemma order_findById_read_only f id : read_only (OrderModel.findById f id).
Proof. intros d. rewrite order_findById_run. destruct f; reflexivity. Qed.

Lemma isSkuUnique_read_only f sku exclude :
  read_only (Validation.isSkuUnique f sku exclude).
Proof.
  intros d. unfold Validation.isSkuUnique.
  destruct (Js.str_falsy sku); [reflexivity|].
  unfold try_catch, bind, select_sku_owner. rewrite query_run.
  destruct f; reflexivity.
Qed.

Create HintDb priced.

#[local] Hint Resolve beginTransaction_priced commitTransaction_priced
  rollbackTransaction_priced insert_order_priced update_order_status_priced
  restore_stock_priced set_stock_priced update_product_priced : priced.

#[local] Hint Extern 1 (maintains _ (query _ _)) =>
  apply read_only_maintains, query_read_only : priced.
#[local] Hint Extern 1 (maintains _ (Validation.userExists _ _)) =>
  apply read_only_maintains, userExists_read_only : priced.
#[local] Hint Extern 1 (maintains _ (Validation.productAvailable _ _ _)) =>
  apply read_only_maintains, productAvailable_read_only : priced.
#[local] Hint Extern 1 (maintains _ (OrderModel.findById _ _)) =>
  apply read_only_maintains, order_findById_read_only : priced.
#[local] Hint Extern 1 (maintains _ (Validation.isSkuUnique _ _ _)) =>
  apply read_only_maintains, isSkuUnique_read_only : priced.
#[local] Hint Extern 1 (maintains _ (OrderModel.findByIdWithDetails _ _)) =>
  apply read_only_maintains, findByIdWithDetails_read_only : priced.
#[local] Hint Extern 1 (maintains _ (ProductModel.findById _ _)) =>
  apply read_only_maintains, product_findById_read_only : priced.

(** Breaks a method into its statements, each of which maintains the
    property. *)
Ltac maintain :=
  repeat first
    [ solve [auto with priced]
    | apply maintains_ret
    | apply maintains_throw
    | apply maintains_bind; [|intros ?]
    | apply maintains_try_catch; [|intros ?]
    | match goal with
      | |- maintains _ (if ?b then _ else _) => destruct b
      | |- maintains _ (match ?x with _ => _ end) => destruct x
      | |- maintains _ (let _ := _ in _) => cbv zeta
      end ].

Lemma create_priced ft orderData : maintains db_priced (OrderModel.create ft orderData).
Proof.
  unfold OrderModel.create, OrderModel.create_checks, OrderModel.create_unit,
    OrderModel.findByIdWithDetails, select_order_details.
  maintain.
Qed.

Lemma updateStatus_priced ft id status notes :
  maintains db_priced (OrderModel.updateStatus ft id status notes).
Proof.
  unfold OrderModel.updateStatus, OrderModel.findById,
    OrderModel.findByIdWithDetails, select_order, select_order_details.
  maintain.
Qed.

Lemma cancel_priced ft id reason :
  maintains db_priced (OrderModel.cancel ft id reason).
Proof.
  unfold OrderModel.cancel, OrderModel.findById,
    OrderModel.findByIdWithDetails, select_order, select_order_details.
  maintain.
Qed.

Lemma updateStock_priced ft id quantityChange operation :
  maintains db_priced (ProductModel.updateStock ft id quantityChange operation).
Proof.
  unfold ProductModel.updateStock, ProductModel.findById, select_product.
  maintain.
Qed.

Lemma update_priced ft id u : maintains db_priced (ProductModel.update ft id u).
Proof.
  unfold ProductModel.update, ProductModel.findById, select_product.
  maintain.
Qed.

Lemma perform_priced c : forall d, db_priced d -> db_priced (perform d c).
Proof.
  destruct c; intros d Hd; simpl.
  - apply create_priced, Hd.
  - apply updateStatus_priced, Hd.
  - apply cancel_priced, Hd.
  - apply updateStock_priced, Hd.
  - apply update_priced, Hd.
Qed.

(** C7 (amended): the total of every order is the double product of its unit
    price and its quantity (the result of [*] on JavaScript numbers, rounded
    to nearest): so it is stored by [create], and so it stays in every order
    the connection can show, whatever calls are made afterwards and however
    they end. *)
Theorem totals_are_float_products :
  (forall ft orderData d details d',
     OrderModel.create ft orderData d = (Return (Some details), d') ->
     exists o, orders (cur d') !! det_id details = Some o /\ float_total o)
  /\ (forall cs d, db_priced d -> db_priced (perform_all d cs)).
Proof.
  split.
  - intros ft orderData d details d' H.
    apply create_resolved in H
      as (uid & pid & q & p & new_id & det & _ & _ & _ & _ & _ & _ & _ & ->
          & [= <-] & -> & _).
    eexists. split; [simpl; apply lookup_insert_eq | reflexivity].
  - induction cs as [|c cs IH]; intros d Hd; [exact Hd|].
    simpl. apply IH, perform_priced, Hd.
Qed.

Lemma shop_priced p : db_priced (shop p ∅).
Proof.
  split; [|discriminate]. intros id o H. simpl in H.
  rewrite lookup_empty in H. discriminate H.
Qed.

(** C7, witness: an order is created, confirmed and cancelled. *)
Lemma totals_are_float_products_witness :
  db_priced
    (perform_all (shop (item 0.1 10 available) ∅)
       [ Create reliable (request (Js.jsint 3));
         UpdateStatus reliable 1 "confirmed" None;
         Cancel reliable 1 (Some (Some "changed my mind")) ]).
Proof.
  apply (proj2 totals_are_float_products). apply shop_priced.
Defined.

(** C7 (as stated) fails: three units at 0.1 are stored with the total
    0.30000000000000004, which is not three times the unit price. *)
Lemma create_totals_exact_fails : ~ create_totals_exact.
Proof.
  intros H.
  specialize (H reliable (request (Js.jsint 3)) (shop (item 0.1 10 available) ∅)
                {| det_id := 1;
                   det_order := placed 3 0.1 0.30000000000000004 pending None;
                   det_user_name := "John Doe";
                   det_user_email := "john@example.com";
                   det_user_phone := None;
                   det_product_name := "MacBook Pro";
                   det_product_description := None;
                   det_product_category := "general";
                   det_product_sku := None |}
                (shop (item 0.1 7 available)
                   {[ 1 := placed 3 0.1 0.30000000000000004 pending None ]})
                (placed 3 0.1 0.30000000000000004 pending None)).
  assert (Hcreate : exact_total (placed 3 0.1 0.30000000000000004 pending None)).
  { apply H; vm_compute; reflexivity. }
  vm_compute in Hcreate. discriminate Hcreate.
Qed.
(* ===================================================================== *)
(** * When the order workflow resolves *)
(* ===================================================================== *)

Lemma bind_run {A B} (m : M A) (k : A -> M B) d a d1 :
  m d = (Return a, d1) -> bind m k d = k a d1.
Proof. intros H. unfold bind. rewrite H. reflexivity. Qed.

Lemma userExists_run userId d :
  Validation.userExists None userId d
  = (Return match users (cur d) !! userId with
            | Some u => bool_decide (u_status u = active)
            | None => false
            end, d).
Proof.
  unfold Validation.userExists, try_catch, bind, select_user_status.
  rewrite query_run. simpl. destruct (users (cur d) !! userId); reflexivity.
Qed.

Lemma productAvailable_run productId requestedQuantity d :
  Validation.productAvailable None productId requestedQuantity d
  = (Return
       match products (cur d) !! productId with
       | None => Validation.Unavailable "Product not found"
       | Some p =>
           if negb (bool_decide (p_status p = available)) then
             Validation.Unavailable
               ("Product is " +:+ product_status_text (p_status p))
           else if p_stockQuantity p <? requestedQuantity then
             Validation.Unavailable
               ("Insufficient stock. Available: "
                +:+ pretty (p_stockQuantity p)
                +:+ ", Requested: " +:+ pretty requestedQuantity)
           else
             Validation.Available
               {| snap_id := productId; snap_name := p_name p;
                  snap_price := p_price p;
                  snap_stockQuantity := p_stockQuantity p;
                  snap_status := p_status p |}
       end, d).
Proof.
  unfold Validation.productAvailable, try_catch, bind, select_product_snapshot.
  rewrite query_run. simpl.
  destruct (products (cur d) !! productId) as [p|]; simpl; [|reflexivity].
  destruct (negb _); [reflexivity|]. destruct (_ <? _); reflexivity.
Qed.

Lemma insert_order_run user_id product_id quantity unit_price total_price
    notes d u p :
  is_nan unit_price = false ->
  is_nan total_price = false ->
  0 < quantity ->
  users (cur d) !! user_id = Some u ->
  products (cur d) !! product_id = Some p ->
  quantity <= p_stockQuantity p ->
  insert_order None user_id product_id quantity unit_price total_price notes d
  = (Return (Z.max (orders_seq (cur d)) (max_rowid (orders (cur d))) + 1),
     {| cur :=
          {| users := users (cur d);
             products := <[product_id := update_stock_on_order p quantity]>
                           (products (cur d));
             orders := <[Z.max (orders_seq (cur d))
                           (max_rowid (orders (cur d))) + 1 :=
                           {| o_user_id := user_id; o_product_id := product_id;
                              o_quantity := quantity;
                              o_unit_price := unit_price;
                              o_total_price := total_price;
                              o_status := pending; o_notes := notes |}]>
                         (orders (cur d));
             orders_seq := Z.max (orders_seq (cur d))
                             (max_rowid (orders (cur d))) + 1 |};
        txn := txn d |}).
Proof.
  intros Hu Ht Hq Huser Hprod Hstock.
  unfold insert_order, driver, bind, get_cur.
  rewrite Hu, Ht. simpl.
  destruct (Z.ltb_spec 0 quantity); [|lia]. simpl.
  rewrite Huser, Hprod.
  simpl.
  destruct (Z.ltb_spec (p_stockQuantity p - quantity) 0); [lia|].
  reflexivity.
Qed.

(** The connection after a resolved [create] of [orderData] for the product
    row [p]. *)
Lemma create_runs orderData d user_id product_id q u p :
  txn d = None ->
  OrderModel.user_id orderData = Some user_id -> user_id <> 0 ->
  OrderModel.product_id orderData = Some product_id -> product_id <> 0 ->
  OrderModel.quantity orderData = Some q -> 0 < Js.parseInt q ->
  users (cur d) !! user_id = Some u -> u_status u = active ->
  products (cur d) !! product_id = Some p -> p_status p = available ->
  Js.parseInt q <= p_stockQuantity p ->
  is_nan (Js.parseFloat (p_price p)) = false ->
  is_nan (PrimFloat.mul (Js.parseFloat (p_price p))
            (Js.Z2float (Js.parseInt q))) = false ->
  exists details,
    OrderModel.create reliable orderData d
    = (Return (Some details),
       {| cur :=
            {| users := users (cur d);
               products := <[product_id :=
                               update_stock_on_order p (Js.parseInt q)]>
                             (products (cur d));
               orders := <[Z.max (orders_seq (cur d))
                             (max_rowid (orders (cur d))) + 1 :=
                             new_order user_id product_id (Js.parseInt q)
                               (p_price p) (OrderModel.notes orderData)]>
                           (orders (cur d));
               orders_seq := Z.max (orders_seq (cur d))
                               (max_rowid (orders (cur d))) + 1 |};
          txn := None |})
    /\ det_id details
       = Z.max (orders_seq (cur d)) (max_rowid (orders (cur d))) + 1.
Proof.
  intros Ht Huid Hu0 Hpid Hp0 Hq Hpos Huser Hact Hprod Hav Hstock Hn1 Hn2.
  assert (Hmant : Js.num_falsy q = false).
  { unfold Js.num_falsy.
    destruct (Z.eqb_spec (Js.dec_mant q) 0) as [H0|]; [|reflexivity].
    unfold Js.parseInt in Hpos. rewrite H0 in Hpos. simpl in Hpos. lia. }
  assert (Hchecks :
    OrderModel.create_checks reliable orderData d
    = (Return (user_id, product_id, Js.parseInt q,
               {| snap_id := product_id; snap_name := p_name p;
                  snap_price := p_price p;
                  snap_stockQuantity := p_stockQuantity p;
                  snap_status := p_status p |}),
       {| cur := cur d; txn := Some (cur d) |})).
  { unfold OrderModel.create_checks, reliable. rewrite Huid, Hpid, Hq.
    rewrite (proj2 (Z.eqb_neq _ _) Hu0), (proj2 (Z.eqb_neq _ _) Hp0), Hmant.
    cbn [orb]. cbv zeta. rewrite (proj2 (Z.leb_gt _ _) Hpos). cbv beta iota.
    erewrite bind_run by apply userExists_run.
    rewrite Huser, bool_decide_eq_true_2 by exact Hact. cbn [negb].
    cbv beta iota.
    erewrite bind_run by apply productAvailable_run.
    rewrite Hprod, bool_decide_eq_true_2 by exact Hav. cbn [negb].
    rewrite (proj2 (Z.ltb_ge _ _) Hstock). cbv beta iota.
    erewrite bind_run by (rewrite beginTransaction_run, Ht; reflexivity).
    reflexivity. }
  unfold OrderModel.create. erewrite bind_run by exact Hchecks.
  cbv beta iota. unfold OrderModel.create_unit, try_catch, reliable.
  cbv zeta. cbn [snap_price].
  erewrite bind_run
    by (apply (insert_order_run _ _ _ _ _ _ _ u p); assumption).
  erewrite bind_run
    by (rewrite (commit_open _ _ (cur d)) by reflexivity; reflexivity).
  unfold OrderModel.findByIdWithDetails, select_order_details.
  erewrite bind_run by (rewrite query_run; reflexivity).
  cbn [cur orders users products]. unfold ret.
  rewrite lookup_insert_eq. cbn [o_user_id o_product_id].
  rewrite Huser, lookup_insert_eq. cbn [fmap option_fmap option_map].
  eexists. split; reflexivity.
Qed.

Lemma userExists_true f userId d d' :
  Validation.userExists f userId d = (Return true, d') ->
  exists u, users (cur d) !! userId = Some u /\ u_status u = active.
Proof.
  unfold Validation.userExists, try_catch, bind, select_user_status.
  rewrite query_run. destruct f; [discriminate|]. simpl.
  destruct (users (cur d) !! userId) as [u|]; simpl; [|discriminate].
  destruct (bool_decide (u_status u = active)) eqn:Hb; [|discriminate].
  apply bool_decide_eq_true in Hb. intros _. exists u. split; [reflexivity | exact Hb].
Qed.

Lemma insert_order_numbers f user_id product_id quantity unit_price
    total_price notes d new_id d' :
  insert_order f user_id product_id quantity unit_price total_price notes d
  = (Return new_id, d') ->
  is_nan unit_price = false /\ is_nan total_price = false.
Proof.
  unfold insert_order, driver. destruct f; [discriminate|].
  unfold bind, get_cur.
  destruct (is_nan unit_price); [discriminate|].
  destruct (is_nan total_price); [discriminate|]. intros _. split; reflexivity.
Qed.

Lemma create_resolved_can_order ft orderData d r d' :
  OrderModel.create ft orderData d = (Return r, d') ->
  txn d = None /\ can_order orderData (cur d).
Proof.
  intros H. unfold OrderModel.create in H.
  apply bind_Return in H as ([[[uid pid] qn] snap] & d1 & Hchecks & H).
  pose proof (create_checks_outcome _ _ _ _ _ Hchecks) as [Hnone ->].
  split; [exact Hnone|].
  unfold OrderModel.create_checks in Hchecks.
  destruct (OrderModel.user_id orderData) as [uid'|] eqn:Huid; [|discriminate].
  destruct (OrderModel.product_id orderData) as [pid'|] eqn:Hpid;
    [|discriminate].
  destruct (OrderModel.quantity orderData) as [q|] eqn:Hq; [|discriminate].
  destruct (Z.eqb_spec uid' 0) as [|Hu0]; [discriminate|].
  destruct (Z.eqb_spec pid' 0) as [|Hp0]; [discriminate|].
  destruct (Js.num_falsy q); [discriminate|].
  cbn [orb] in Hchecks. cbv zeta in Hchecks.
  destruct (Js.parseInt q <=? 0) eqn:Hpos; [discriminate|].
  apply Z.leb_gt in Hpos.
  apply bind_Return in Hchecks as (b & d2 & Hu & Hchecks).
  destruct b; [|discriminate]. cbn [negb] in Hchecks.
  pose proof (userExists_read_only (ft AtValidateUser) uid' d) as Hro.
  rewrite Hu in Hro. simpl in Hro. subst d2.
  apply userExists_true in Hu as (u & Huser & Hact).
  apply bind_Return in Hchecks as (av & d3 & Hav & Hchecks).
  destruct av as [reason|snap']; [discriminate|].
  apply productAvailable_Available in Hav as (p & Hp & Hst & Hle & Hprice).
  apply bind_Return in Hchecks as ([] & d4 & _ & Hret).
  injection Hret as Hu1 Hp1 Hq1 Hs1 _. subst uid pid qn snap.
  unfold OrderModel.create_unit in H. apply try_rollback_Return in H.
  apply bind_Return in H as (new_id & d5 & Hins & _).
  apply insert_order_numbers in Hins as [Hn1 Hn2]. rewrite Hprice in Hn1, Hn2.
  exists uid', pid', q, u, p.
  repeat match goal with |- _ /\ _ => split end; try assumption; reflexivity.
Qed.

(** X1. [create] resolves exactly for the requests that [can_order]
    describes: whatever storage calls are rejected, a resolved call had no
    open transaction and met every condition; and on a connection without an
    open transaction and with no rejected call, a request that meets them
    resolves with the details of the new order. *)
Theorem create_resolves_exactly orderData d :
  (forall ft r d',
     OrderModel.create ft orderData d = (Return r, d') ->
     txn d = None /\ can_order orderData (cur d))
  /\ (txn d = None -> can_order orderData (cur d) ->
      exists details d',
        OrderModel.create reliable orderData d = (Return (Some details), d')
        /\ order_holds (fun o => o_status o = pending) (det_id details) (cur d')).
Proof.
  split; [intros ft r d'; apply create_resolved_can_order|].
  intros Ht (uid & pid & q & u & p & Huid & Hu0 & Hpid & Hp0 & Hq & Hpos
             & Huser & Hact & Hprod & Hav & Hstock & Hn1 & Hn2).
  destruct (create_runs orderData d uid pid q u p) as (details & Hrun & Hid);
    try assumption.
  exists details. eexists. split; [exact Hrun|].
  rewrite Hid. eexists. split; [simpl; apply lookup_insert_eq | reflexivity].
Qed.

(** X1, witness: an order of 2 from a stock of 5. *)
Lemma create_resolves_exactly_witness :
  exists details d',
    OrderModel.create reliable (request (Js.jsint 2))
      (shop (item 2499.99 5 available) ∅)
    = (Return (Some details), d')
    /\ order_holds (fun o => o_status o = pending) (det_id details) (cur d').
Proof.
  apply (proj2 (create_resolves_exactly (request (Js.jsint 2))
                  (shop (item 2499.99 5 available) ∅))).
  - reflexivity.
  - exists 1, 1, (Js.jsint 2), john, (item 2499.99 5 available).
    repeat match goal with |- _ /\ _ => split end;
      try (vm_compute; reflexivity); try discriminate; vm_compute; discriminate.
Defined.





(* ===================================================================== *)
(** * What one statement does to the tables *)
(* ===================================================================== *)

Lemma max_rowid_bound {A} (m : gmap Z A) id x :
  m !! id = Some x -> id <= max_rowid m.
Proof.
  unfold max_rowid. revert id x.
  apply (map_fold_weak_ind
           (fun (r : Z) (m : gmap Z A) => forall id x, m !! id = Some x -> id <= r)).
  - intros id x H. rewrite lookup_empty in H. discriminate H.
  - intros i y m' r _ IH id x H.
    destruct (decide (i = id)) as [->|Hne].
    + lia.
    + rewrite lookup_insert_ne in H by exact Hne. specialize (IH id x H). lia.
Qed.

Lemma sku_owner_None t k exclude :
  sku_owner t k exclude = None
  <-> forall id p, products t !! id = Some p -> p_sku p = Some k ->
                   Some id = exclude.
Proof.
  unfold sku_owner. rewrite fmap_None, head_None. split.
  - intros Hnil id p Hp Hk.
    destruct (decide (Some id = exclude)) as [|Hne]; [assumption|].
    exfalso. eapply (filter_nil_not_elem_of _ _ (id, p) Hnil).
    + simpl. rewrite bool_decide_eq_true_2 by exact Hk.
      rewrite bool_decide_eq_false_2 by exact Hne. reflexivity.
    + apply elem_of_map_to_list, Hp.
  - intros H.
    destruct (filter _ (map_to_list (products t))) as [|[id p] l] eqn:Hf;
      [reflexivity|].
    assert (Hin : (id, p) ∈ filter
              (fun kp : Z * product =>
                 bool_decide (p_sku kp.2 = Some k)
                 && negb (bool_decide (Some kp.1 = exclude)) = true)
              (map_to_list (products t))) by (rewrite Hf; left).
    apply list_elem_of_filter in Hin as [Hp Hin]. simpl in Hp.
    apply andb_true_iff in Hp as [Hk Hex].
    apply bool_decide_eq_true in Hk. apply negb_true_iff in Hex.
    apply bool_decide_eq_false in Hex.
    apply elem_of_map_to_list in Hin. exfalso. apply Hex. exact (H id p Hin Hk).
Qed.

Lemma insert_order_effect f user_id product_id quantity unit_price total_price
    notes d :
  txn (insert_order f user_id product_id quantity unit_price total_price
         notes d).2 = txn d
  /\ (cur (insert_order f user_id product_id quantity unit_price total_price
             notes d).2 = cur d
      \/ exists u p,
           users (cur d) !! user_id = Some u
           /\ products (cur d) !! product_id = Some p
           /\ 0 < quantity
           /\ 0 <= p_stockQuantity p - quantity
           /\ cur (insert_order f user_id product_id quantity unit_price
                     total_price notes d).2
              = {| users := users (cur d);
                   products := <[product_id :=
                                   update_stock_on_order p quantity]>
                                 (products (cur d));
                   orders := <[Z.max (orders_seq (cur d))
                                 (max_rowid (orders (cur d))) + 1 :=
                                 {| o_user_id := user_id;
                                    o_product_id := product_id;
                                    o_quantity := quantity;
                                    o_unit_price := unit_price;
                                    o_total_price := total_price;
                                    o_status := pending; o_notes := notes |}]>
                               (orders (cur d));
                   orders_seq := Z.max (orders_seq (cur d))
                                   (max_rowid (orders (cur d))) + 1 |}).
Proof.
  unfold insert_order, driver. destruct f; [split; [|left]; reflexivity|].
  unfold bind, get_cur. destruct (_ || _); [split; [|left]; reflexivity|].
  destruct (Z.ltb_spec 0 quantity); simpl negb; cbv iota;
    [|split; [|left]; reflexivity].
  destruct (users (cur d) !! user_id) as [u|]; [|split; [|left]; reflexivity].
  destruct (products (cur d) !! product_id) as [p|];
    [|split; [|left]; reflexivity].
  destruct (Z.ltb_spec (p_stockQuantity (update_stock_on_order p quantity)) 0)
    as [|Hnn]; [split; [|left]; reflexivity|].
  split; [reflexivity|]. right. exists u, p.
  repeat match goal with |- _ /\ _ => split end; try reflexivity; assumption.
Qed.

Lemma update_order_status_effect f status notes id d :
  txn (update_order_status f status notes id d).2 = txn d
  /\ (cur (update_order_status f status notes id d).2 = cur d
      \/ exists o s,
           orders (cur d) !! id = Some o
           /\ cur (update_order_status f status notes id d).2
              = set_order (cur d) id (with_status o s notes)).
Proof.
  rewrite update_order_status_run. destruct f; [split; [|left]; reflexivity|].
  destruct (orders (cur d) !! id) as [o|]; [|split; [|left]; reflexivity].
  destruct (order_status_of_text status) as [s|];
    [|split; [|left]; reflexivity].
  split; [reflexivity|]. right. exists o, s. split; reflexivity.
Qed.


Lemma restore_stock_restocks f quantity1 quantity2 product_id :
  restocks (restore_stock f quantity1 quantity2 product_id) product_id.
Proof.
  intros d. rewrite restore_stock_run. destruct f; [split; [|left]; reflexivity|].
  destruct (products (cur d) !! product_id) as [p|];
    [|split; [|left]; reflexivity].
  destruct (Z.ltb_spec (p_stockQuantity (restock p quantity1 quantity2)) 0)
    as [|Hnn]; [split; [|left]; reflexivity|].
  split; [reflexivity|]. right. eexists p, _, _.
  split; [reflexivity|]. split; [exact Hnn | reflexivity].
Qed.

Lemma set_stock_restocks f newQuantity newStatus id :
  restocks (set_stock f newQuantity newStatus id) id.
Proof.
  intros d. rewrite set_stock_run. destruct f; [split; [|left]; reflexivity|].
  destruct (products (cur d) !! id) as [p|]; [|split; [|left]; reflexivity].
  destruct (Js.integer_of newQuantity) as [n|];
    [|split; [|left]; reflexivity].
  destruct (Z.ltb_spec n 0) as [|Hnn]; [split; [|left]; reflexivity|].
  split; [reflexivity|]. right. exists p, n, newStatus.
  split; [reflexivity|]. split; [exact Hnn | reflexivity].
Qed.

Lemma update_product_status_run f status id d :
  update_product_status f status id d =
    match f with
    | Some e => (Throw e, d)
    | None =>
        match products (cur d) !! id with
        | None => (Return 0, d)
        | Some p =>
            (Return 1,
             {| cur := set_product (cur d) id
                         (with_stock p (p_stockQuantity p) status);
                txn := txn d |})
        end
    end.
Proof.
  unfold update_product_status, driver. destruct f; [reflexivity|].
  unfold bind, get_cur. destruct (products (cur d) !! id); reflexivity.
Qed.

Lemma update_product_effect f u id d :
  txn (update_product f u id d).2 = txn d
  /\ (cur (update_product f u id d).2 = cur d
      \/ exists p p',
           products (cur d) !! id = Some p
           /\ product_checks p'
           /\ (forall k, p_sku p' = Some k ->
                 sku_owner (cur d) k (Some id) = None)
           /\ cur (update_product f u id d).2 = set_product (cur d) id p').
Proof.
  unfold update_product, driver. destruct f; [split; [|left]; reflexivity|].
  unfold bind, get_cur.
  destruct (products (cur d) !! id) as [p|]; [|split; [|left]; reflexivity].
  cbv zeta.
  destruct (Js.str_falsy (default (p_name p) (set_name u))) eqn:Hname;
    [split; [|left]; reflexivity|].
  destruct (is_nan _); [split; [|left]; reflexivity|].
  destruct (PrimFloat.leb _ (default (p_price p) (set_price u))) eqn:Hprice;
    simpl negb; cbv iota; [|split; [|left]; reflexivity].
  destruct (Z.ltb_spec (default (p_stockQuantity p) (set_stockQuantity u)) 0)
    as [|Hnn]; [split; [|left]; reflexivity|].
  destruct (match set_status u with
            | Some s => product_status_of_text s
            | None => Some (p_status p)
            end) as [st|]; [|split; [|left]; reflexivity].
  destruct (default (p_sku p) (set_sku u)) as [k|] eqn:Hsku.
  - destruct (bool_decide (is_Some (sku_owner (cur d) k (Some id)))) eqn:Hown;
      [split; [|left]; reflexivity|].
    apply bool_decide_eq_false in Hown.
    split; [reflexivity|]. right. eexists p, _.
    split; [reflexivity|]. split; [|split; [|reflexivity]].
    + repeat split; assumption.
    + simpl. intros k' [= <-].
      destruct (sku_owner (cur d) k (Some id)) eqn:E; [|reflexivity].
      exfalso. apply Hown. eexists. reflexivity.
  - split; [reflexivity|]. right. eexists p, _.
    split; [reflexivity|]. split; [|split; [|reflexivity]].
    + repeat split; assumption.
    + simpl. intros k' H. discriminate H.
Qed.

Lemma insert_product_effect f name description price category stockQuantity
    sku d :
  txn (insert_product f name description price category stockQuantity sku d).2
  = txn d
  /\ (cur (insert_product f name description price category stockQuantity
             sku d).2 = cur d
      \/ exists p',
           products (cur d) !! (max_rowid (products (cur d)) + 1) = None
           /\ product_checks p'
           /\ (forall k, p_sku p' = Some k -> sku_owner (cur d) k None = None)
           /\ cur (insert_product f name description price category
                     stockQuantity sku d).2
              = set_product (cur d) (max_rowid (products (cur d)) + 1) p').
Proof.
  unfold insert_product, driver. destruct f; [split; [|left]; reflexivity|].
  unfold bind, get_cur.
  destruct (Js.str_falsy name) eqn:Hname; [split; [|left]; reflexivity|].
  destruct (is_nan _); [split; [|left]; reflexivity|].
  destruct (PrimFloat.leb _ price) eqn:Hprice;
    simpl negb; cbv iota; [|split; [|left]; reflexivity].
  destruct (Z.ltb_spec stockQuantity 0) as [|Hnn];
    [split; [|left]; reflexivity|].
  assert (Hfresh : products (cur d) !! (max_rowid (products (cur d)) + 1) = None).
  { destruct (products (cur d) !! (max_rowid (products (cur d)) + 1)) eqn:E;
      [|reflexivity].
    apply max_rowid_bound in E. lia. }
  destruct sku as [k|].
  - destruct (bool_decide (is_Some (sku_owner (cur d) k None))) eqn:Hown;
      [split; [|left]; reflexivity|].
    apply bool_decide_eq_false in Hown.
    split; [reflexivity|]. right. eexists.
    split; [exact Hfresh|]. split; [|split; [|reflexivity]].
    + repeat split; assumption.
    + simpl. intros k' [= <-].
      destruct (sku_owner (cur d) k None) eqn:E; [|reflexivity].
      exfalso. apply Hown. eexists. reflexivity.
  - split; [reflexivity|]. right. eexists.
    split; [exact Hfresh|]. split; [|split; [|reflexivity]].
    + repeat split; assumption.
    + simpl. intros k' H. discriminate H.
Qed.

(* ===================================================================== *)
(** * Invariants of the store *)
(* ===================================================================== *)

Section Invariants.

Variable P : tables -> Prop.

Lemma everywhere_begin f : maintains (everywhere P) (beginTransaction f).
Proof.
  intros d Hd. rewrite beginTransaction_run.
  destruct f; [exact Hd|].
  destruct (txn d) eqn:Hopen; [exact Hd|].
  destruct Hd as [Hc _]. split; [exact Hc|]. intros t [= <-]. exact Hc.
Qed.

Lemma everywhere_commit f : maintains (everywhere P) (commitTransaction f).
Proof.
  intros d Hd. unfold commitTransaction, driver.
  destruct f; [exact Hd|].
  destruct (txn d) eqn:Hopen; [|exact Hd].
  destruct Hd as [Hc _]. split; [exact Hc | discriminate].
Qed.

Lemma everywhere_rollback f : maintains (everywhere P) (rollbackTransaction f).
Proof.
  intros d Hd. unfold rollbackTransaction, driver.
  destruct f; [exact Hd|].
  destruct (txn d) as [t|] eqn:Hopen; [|exact Hd].
  destruct Hd as [_ Ht]. split; [apply Ht, Hopen | discriminate].
Qed.

Lemma everywhere_statement {A} (m : M A) :
  (forall d, txn (m d).2 = txn d /\ (P (cur d) -> P (cur (m d).2))) ->
  maintains (everywhere P) m.
Proof.
  intros H d [Hc Ht]. destruct (H d) as [Htxn Hcur].
  split; [apply Hcur, Hc|]. intros t Hopen. rewrite Htxn in Hopen.
  exact (Ht t Hopen).
Qed.

Lemma everywhere_insert_order f user_id product_id quantity unit_price
    total_price notes :
  insert_stable P ->
  maintains (everywhere P)
    (insert_order f user_id product_id quantity unit_price total_price notes).
Proof.
  intros Hstable. apply everywhere_statement. intros d.
  destruct (insert_order_effect f user_id product_id quantity unit_price
              total_price notes d)
    as [Htxn [Hsame|(u & p & Hu & Hp & Hq & Hnn & Hcur)]].
  - split; [exact Htxn|]. rewrite Hsame. intros H; exact H.
  - split; [exact Htxn|]. rewrite Hcur. intros H.
    exact (Hstable _ _ _ _ _ _ _ u p H Hu Hp Hq Hnn).
Qed.

Lemma everywhere_update_order_status f status notes id :
  status_stable P ->
  maintains (everywhere P) (update_order_status f status notes id).
Proof.
  intros Hstable. apply everywhere_statement. intros d.
  destruct (update_order_status_effect f status notes id d)
    as [Htxn [Hsame|(o & s & Ho & Hcur)]].
  - split; [exact Htxn|]. rewrite Hsame. intros H; exact H.
  - split; [exact Htxn|]. rewrite Hcur. intros H. exact (Hstable _ _ _ _ _ H Ho).
Qed.

Lemma everywhere_restocks {A} (m : M A) id :
  stock_stable P -> restocks m id -> maintains (everywhere P) m.
Proof.
  intros Hstable Hm. apply everywhere_statement. intros d.
  destruct (Hm d) as [Htxn [Hsame|(p & stock & st & Hp & Hnn & Hcur)]].
  - split; [exact Htxn|]. rewrite Hsame. intros H; exact H.
  - split; [exact Htxn|]. rewrite Hcur. intros H.
    exact (Hstable _ _ _ _ _ H Hp Hnn).
Qed.

Lemma everywhere_update_product f u id :
  patch_stable P -> maintains (everywhere P) (update_product f u id).
Proof.
  intros Hstable. apply everywhere_statement. intros d.
  destruct (update_product_effect f u id d)
    as [Htxn [Hsame|(p & p' & Hp & Hchecks & Hsku & Hcur)]].
  - split; [exact Htxn|]. rewrite Hsame. intros H; exact H.
  - split; [exact Htxn|]. rewrite Hcur. intros H.
    apply Hstable; [exact H | exact Hchecks|].
    intros k Hk id2 p2 Hp2 Hk2.
    pose proof (proj1 (sku_owner_None _ _ _) (Hsku k Hk) id2 p2 Hp2 Hk2) as E.
    injection E as ->. reflexivity.
Qed.

Lemma everywhere_insert_product f name description price category
    stockQuantity sku :
  patch_stable P ->
  maintains (everywhere P)
    (insert_product f name description price category stockQuantity sku).
Proof.
  intros Hstable. apply everywhere_statement. intros d.
  destruct (insert_product_effect f name description price category
              stockQuantity sku d)
    as [Htxn [Hsame|(p' & Hfresh & Hchecks & Hsku & Hcur)]].
  - split; [exact Htxn|]. rewrite Hsame. intros H; exact H.
  - split; [exact Htxn|]. rewrite Hcur. intros H.
    apply Hstable; [exact H | exact Hchecks|].
    intros k Hk id2 p2 Hp2 Hk2.
    pose proof (proj1 (sku_owner_None _ _ _) (Hsku k Hk) id2 p2 Hp2 Hk2) as E.
    discriminate E.
Qed.

Lemma everywhere_update_product_status f status id :
  relabel_stable P -> maintains (everywhere P) (update_product_status f status id).
Proof.
  intros Hstable. apply everywhere_statement. intros d.
  rewrite update_product_status_run. destruct f; [split; [reflexivity | intros H; exact H]|].
  destruct (products (cur d) !! id) as [p|] eqn:Hp;
    [|split; [reflexivity | intros H; exact H]].
  split; [reflexivity|]. intros H. exact (Hstable _ _ _ _ H Hp).
Qed.

End Invariants.

Create HintDb store.

#[local] Hint Resolve everywhere_begin everywhere_commit everywhere_rollback
  everywhere_insert_order everywhere_update_order_status
  everywhere_update_product everywhere_insert_product
  everywhere_update_product_status everywhere_restocks
  restore_stock_restocks set_stock_restocks : store.

#[local] Hint Extern 1 (maintains _ (query _ _)) =>
  apply read_only_maintains, query_read_only : store.
#[local] Hint Extern 1 (maintains _ (Validation.userExists _ _)) =>
  apply read_only_maintains, userExists_read_only : store.
#[local] Hint Extern 1 (maintains _ (Validation.productAvailable _ _ _)) =>
  apply read_only_maintains, productAvailable_read_only : store.
#[local] Hint Extern 1 (maintains _ (Validation.isSkuUnique _ _ _)) =>
  apply read_only_maintains, isSkuUnique_read_only : store.
#[local] Hint Extern 1 (maintains _ (OrderModel.findById _ _)) =>
  apply read_only_maintains, order_findById_read_only : store.
#[local] Hint Extern 1 (maintains _ (OrderModel.findByIdWithDetails _ _)) =>
  apply read_only_maintains, findByIdWithDetails_read_only : store.
#[local] Hint Extern 1 (maintains _ (ProductModel.findById _ _)) =>
  apply read_only_maintains, product_findById_read_only : store.

(** Breaks a method into its statements and closes each with the facts
    of the [store] database. *)
Ltac keep :=
  repeat first
    [ solve [eauto with store]
    | apply maintains_ret
    | apply maintains_throw
    | apply maintains_bind; [|intros ?]
    | apply maintains_try_catch; [|intros ?]
    | match goal with
      | |- maintains _ (if ?b then _ else _) => destruct b
      | |- maintains _ (match ?x with _ => _ end) => destruct x
      | |- maintains _ (let _ := _ in _) => cbv zeta
      end ].

Section Methods.

Variable P : tables -> Prop.

Lemma create_keeps ft orderData :
  insert_stable P -> maintains (everywhere P) (OrderModel.create ft orderData).
Proof.
  intros ?. unfold OrderModel.create, OrderModel.create_checks,
    OrderModel.create_unit.
  keep.
Qed.

Lemma updateStatus_keeps ft id status notes :
  status_stable P ->
  maintains (everywhere P) (OrderModel.updateStatus ft id status notes).
Proof. intros ?. unfold OrderModel.updateStatus. keep. Qed.

Lemma cancel_keeps ft id reason :
  status_stable P -> stock_stable P ->
  maintains (everywhere P) (OrderModel.cancel ft id reason).
Proof. intros ? ?. unfold OrderModel.cancel. keep. Qed.

Lemma updateStock_keeps ft id quantityChange operation :
  stock_stable P ->
  maintains (everywhere P)
    (ProductModel.updateStock ft id quantityChange operation).
Proof. intros ?. unfold ProductModel.updateStock. keep. Qed.

Lemma update_keeps ft id u :
  patch_stable P -> maintains (everywhere P) (ProductModel.update ft id u).
Proof. intros ?. unfold ProductModel.update. keep. Qed.

Lemma product_create_keeps ft productData :
  patch_stable P ->
  maintains (everywhere P) (ProductModel.create ft productData).
Proof. intros ?. unfold ProductModel.create. keep. Qed.

Lemma discontinue_keeps ft id :
  relabel_stable P -> maintains (everywhere P) (ProductModel.discontinue ft id).
Proof. intros ?. unfold ProductModel.discontinue. keep. Qed.

(** A property that survives each kind of write is an invariant of the
    store under every sequence of actions, whatever calls are rejected. *)
Lemma act_all_keeps acts :
  stock_stable P -> relabel_stable P -> status_stable P -> insert_stable P ->
  patch_stable P ->
  forall d, everywhere P d -> everywhere P (act_all d acts).
Proof.
  intros H1 H2 H3 H4 H5.
  induction acts as [|a acts IH]; intros d Hd; [exact Hd|].
  simpl. apply IH. destruct a as [[]| |]; simpl.
  - apply create_keeps; assumption.
  - apply updateStatus_keeps; assumption.
  - apply cancel_keeps; assumption.
  - apply updateStock_keeps; assumption.
  - apply update_keeps; assumption.
  - apply product_create_keeps; assumption.
  - apply discontinue_keeps; assumption.
Qed.

End Methods.

(** ** The constraints of the schema *)

Lemma product_checks_with_stock p stock st :
  product_checks p -> 0 <= stock -> product_checks (with_stock p stock st).
Proof. intros (Hn & Hp & _) Hs. repeat split; assumption. Qed.

Lemma row_checks_set_product t id p' :
  row_checks t -> product_checks p' -> row_checks (set_product t id p').
Proof.
  intros [Hprod Hord] Hp'. split.
  - intros id' p Hl. simpl in Hl.
    destruct (decide (id = id')) as [<-|Hne].
    + rewrite lookup_insert_eq in Hl. injection Hl as <-. exact Hp'.
    + rewrite lookup_insert_ne in Hl by exact Hne. exact (Hprod id' p Hl).
  - intros id' o Hl. simpl in Hl. destruct (Hord id' o Hl) as (Hq & Hu & Hp).
    split; [exact Hq|]. split; [exact Hu|]. simpl.
    destruct (decide (id = o_product_id o)) as [<-|Hne].
    + rewrite lookup_insert_eq. eexists; reflexivity.
    + rewrite lookup_insert_ne by exact Hne. exact Hp.
Qed.

Lemma row_checks_stock_stable : stock_stable row_checks.
Proof.
  intros t id p stock st H Hp Hs. apply row_checks_set_product; [exact H|].
  apply product_checks_with_stock; [exact (proj1 H id p Hp) | exact Hs].
Qed.

Lemma row_checks_relabel_stable : relabel_stable row_checks.
Proof.
  intros t id p st H Hp. apply row_checks_set_product; [exact H|].
  pose proof (proj1 H id p Hp) as Hc.
  apply product_checks_with_stock; [exact Hc | exact (proj2 (proj2 Hc))].
Qed.

Lemma row_checks_status_stable : status_stable row_checks.
Proof.
  intros t id o s notes [Hprod Hord] Ho. split; [exact Hprod|].
  intros id' o' Hl. simpl in Hl.
  destruct (decide (id = id')) as [<-|Hne].
  - rewrite lookup_insert_eq in Hl. injection Hl as <-. exact (Hord id o Ho).
  - rewrite lookup_insert_ne in Hl by exact Hne. exact (Hord id' o' Hl).
Qed.

Lemma row_checks_insert_stable : insert_stable row_checks.
Proof.
  intros t uid pid q up tp notes u p [Hprod Hord] Hu Hp Hq Hnn.
  assert (Hkeep : forall pid', is_Some (products t !! pid') ->
            is_Some (<[pid := update_stock_on_order p q]> (products t) !! pid')).
  { intros pid' H. destruct (decide (pid = pid')) as [<-|Hne].
    - rewrite lookup_insert_eq. eexists; reflexivity.
    - rewrite lookup_insert_ne by exact Hne. exact H. }
  split.
  - intros id' p0 Hl. simpl in Hl.
    destruct (decide (pid = id')) as [<-|Hne].
    + rewrite lookup_insert_eq in Hl. injection Hl as <-.
      apply product_checks_with_stock; [exact (Hprod pid p Hp) | exact Hnn].
    + rewrite lookup_insert_ne in Hl by exact Hne. exact (Hprod id' p0 Hl).
  - intros id' o Hl. cbn [orders users products] in *.
    match type of Hl with <[?new := _]> _ !! _ = _ =>
      destruct (decide (new = id')) as [<-|Hne] end.
    + rewrite lookup_insert_eq in Hl. injection Hl as <-. simpl.
      split; [exact Hq|]. split; [rewrite Hu; eexists; reflexivity|].
      rewrite lookup_insert_eq. eexists; reflexivity.
    + rewrite lookup_insert_ne in Hl by exact Hne.
      destruct (Hord id' o Hl) as (Hq' & Hu' & Hp').
      split; [exact Hq'|]. split; [exact Hu' | apply Hkeep, Hp'].
Qed.

Lemma row_checks_patch_stable : patch_stable row_checks.
Proof. intros t id p' H Hc _. apply row_checks_set_product; assumption. Qed.

(** X3. The CHECK and FOREIGN KEY constraints of the schema are invariants
    of the store: after any sequence of model calls, whatever storage calls
    were rejected, every product has a non-empty name, a price of at least
    0.01 and a stock that is not negative, and every order has a positive
    quantity and refers to a user and a product that exist. *)
Theorem constraints_always_hold acts d :
  everywhere row_checks d -> everywhere row_checks (act_all d acts).
Proof.
  apply act_all_keeps.
  - apply row_checks_stock_stable.
  - apply row_checks_relabel_stable.
  - apply row_checks_status_stable.
  - apply row_checks_insert_stable.
  - apply row_checks_patch_stable.
Qed.

Lemma shop_row_checks name stock st :
  name <> EmptyString -> 0 <= stock ->
  everywhere row_checks
    (shop {| p_name := name; p_description := None; p_price := 19.5;
             p_category := "general"; p_stockQuantity := stock;
             p_sku := None; p_status := st |} ∅).
Proof.
  intros Hname Hstock. split; [|discriminate]. split.
  - intros id p H. simpl in H.
    destruct (decide (1 = id)) as [<-|Hne].
    + rewrite lookup_singleton_eq in H. injection H as <-.
      split; [destruct name; [contradiction | reflexivity]|].
      split; [reflexivity | exact Hstock].
    + rewrite lookup_singleton_ne in H by exact Hne. discriminate H.
  - intros id o H. simpl in H. rewrite lookup_empty in H. discriminate H.
Qed.

(** X3, witness: orders, a stock adjustment below zero, a product update and
    a cancellation on a small shop. *)
Lemma constraints_always_hold_witness :
  everywhere row_checks
    (act_all
       (shop {| p_name := "Desk"; p_description := None; p_price := 19.5;
                p_category := "general"; p_stockQuantity := 5;
                p_sku := None; p_status := available |} ∅)
       [ Call (Create reliable (request (Js.jsint 2)));
         Call (UpdateStock reliable 1 9 (Some "subtract"));
         Call (UpdateProduct reliable 1 (only_stock (Js.jsint (-4))));
         Call (Cancel reliable 1 None);
         Discontinue reliable 1 ]).
Proof.
  apply constraints_always_hold. apply shop_row_checks; [discriminate | lia].
Defined.

(** ** Unique skus *)

Lemma sku_unique_set_product t id p' :
  sku_unique t ->
  (forall k, p_sku p' = Some k ->
     forall id2 p2, products t !! id2 = Some p2 -> p_sku p2 = Some k ->
                    id2 = id) ->
  sku_unique (set_product t id p').
Proof.
  intros Hu Hnew id1 id2 p1 p2 k H1 H2 Hk1 Hk2. simpl in H1, H2.
  destruct (decide (id = id1)) as [<-|Hne1];
    destruct (decide (id = id2)) as [<-|Hne2]; try reflexivity.
  - rewrite lookup_insert_eq in H1. injection H1 as <-.
    rewrite lookup_insert_ne in H2 by exact Hne2.
    symmetry. exact (Hnew k Hk1 id2 p2 H2 Hk2).
  - rewrite lookup_insert_eq in H2. injection H2 as <-.
    rewrite lookup_insert_ne in H1 by exact Hne1.
    exact (Hnew k Hk2 id1 p1 H1 Hk1).
  - rewrite lookup_insert_ne in H1 by exact Hne1.
    rewrite lookup_insert_ne in H2 by exact Hne2.
    exact (Hu id1 id2 p1 p2 k H1 H2 Hk1 Hk2).
Qed.

Lemma sku_unique_same_sku t id p p' :
  sku_unique t -> products t !! id = Some p -> p_sku p' = p_sku p ->
  sku_unique (set_product t id p').
Proof.
  intros Hu Hp Hs. apply sku_unique_set_product; [exact Hu|].
  intros k Hk id2 p2 H2 Hk2. rewrite Hs in Hk.
  exact (Hu id2 id p2 p k H2 Hp Hk2 Hk).
Qed.

Lemma sku_unique_stock_stable : stock_stable sku_unique.
Proof.
  intros t id p stock st H Hp _.
  apply (sku_unique_same_sku t id p); [exact H | exact Hp | reflexivity].
Qed.

Lemma sku_unique_relabel_stable : relabel_stable sku_unique.
Proof.
  intros t id p st H Hp.
  apply (sku_unique_same_sku t id p); [exact H | exact Hp | reflexivity].
Qed.

Lemma sku_unique_status_stable : status_stable sku_unique.
Proof. intros t id o s notes H _. exact H. Qed.

Lemma sku_unique_insert_stable : insert_stable sku_unique.
Proof.
  intros t uid pid q up tp notes u p H _ Hp _ _.
  intros id1 id2 p1 p2 k H1 H2.
  apply (sku_unique_same_sku t pid p (update_stock_on_order p q) H Hp eq_refl
           id1 id2 p1 p2 k); assumption.
Qed.

Lemma sku_unique_patch_stable : patch_stable sku_unique.
Proof. intros t id p' H _ Hnew. apply sku_unique_set_product; assumption. Qed.

(** X4. No two products ever carry the same sku: the uniqueness of
    [products.sku] is an invariant of the store under every sequence of model
    calls, whatever storage calls were rejected. *)
Theorem skus_stay_unique acts d :
  everywhere sku_unique d -> everywhere sku_unique (act_all d acts).
Proof.
  apply act_all_keeps.
  - apply sku_unique_stock_stable.
  - apply sku_unique_relabel_stable.
  - apply sku_unique_status_stable.
  - apply sku_unique_insert_stable.
  - apply sku_unique_patch_stable.
Qed.

Lemma shop_sku_unique p : everywhere sku_unique (shop p ∅).
Proof.
  split; [|discriminate]. intros id1 id2 p1 p2 k H1 H2 _ _. simpl in H1, H2.
  apply lookup_singleton_Some in H1 as [<- _].
  apply lookup_singleton_Some in H2 as [<- _]. reflexivity.
Qed.

(** X4, witness: two products are created with the same sku in different
    spellings. *)
Lemma skus_stay_unique_witness :
  everywhere sku_unique
    (act_all (shop (item 2499.99 5 available) ∅)
       [ CreateProduct reliable (product_request "Desk" 3 (Some "ab-1"));
         CreateProduct reliable (product_request "Lamp" 1 (Some " AB-1 ")) ]).
Proof. apply skus_stay_unique. apply shop_sku_unique. Defined.

(** ** Orders that stay *)

Lemma order_holds_same_orders R id t t' :
  orders t' = orders t -> order_holds R id t -> order_holds R id t'.
Proof. intros Heq (o & Ho & Hr). exists o. rewrite Heq. split; assumption. Qed.

Lemma order_holds_stock_stable R id : stock_stable (order_holds R id).
Proof.
  intros t id' p stock st H _ _.
  apply (order_holds_same_orders R id t); [reflexivity | exact H].
Qed.

Lemma order_holds_relabel_stable R id : relabel_stable (order_holds R id).
Proof.
  intros t id' p st H _.
  apply (order_holds_same_orders R id t); [reflexivity | exact H].
Qed.

Lemma order_holds_patch_stable R id : patch_stable (order_holds R id).
Proof.
  intros t id' p' H _ _.
  apply (order_holds_same_orders R id t); [reflexivity | exact H].
Qed.

(** The next id is above every id in use: an insert overwrites no order. *)
Lemma order_holds_insert_stable R id : insert_stable (order_holds R id).
Proof.
  intros t uid pid q up tp notes u p (o & Ho & Hr) _ _ _ _.
  exists o. split; [|exact Hr]. simpl.
  rewrite lookup_insert_ne; [exact Ho|].
  apply max_rowid_bound in Ho. lia.
Qed.

Lemma order_holds_status_stable R id :
  (forall o s notes, R o -> R (with_status o s notes)) ->
  status_stable (order_holds R id).
Proof.
  intros Hr t id' o' s notes (o & Ho & Ro) Ho'. unfold order_holds. simpl.
  destruct (decide (id' = id)) as [->|Hne].
  - rewrite Ho in Ho'. injection Ho' as <-.
    eexists. split; [apply lookup_insert_eq | apply Hr, Ro].
  - exists o. split; [|exact Ro].
    rewrite lookup_insert_ne by exact Hne. exact Ho.
Qed.

(** X5. No model call deletes an order or changes what was bought: once an
    order is committed, its user, product, quantity, unit price and total
    price stay the same under every sequence of calls (product price updates
    included), whatever storage calls are rejected. *)
Theorem purchases_are_frozen acts d id o :
  txn d = None ->
  orders (cur d) !! id = Some o ->
  order_holds (same_purchase o) id (cur (act_all d acts)).
Proof.
  intros Ht Ho.
  assert (Hstart : everywhere (order_holds (same_purchase o) id) d).
  { split; [|rewrite Ht; discriminate].
    exists o. split; [exact Ho|]. repeat split. }
  apply (act_all_keeps (order_holds (same_purchase o) id) acts) in Hstart.
  - exact (proj1 Hstart).
  - apply order_holds_stock_stable.
  - apply order_holds_relabel_stable.
  - apply order_holds_status_stable. intros o' s notes H. exact H.
  - apply order_holds_insert_stable.
  - apply order_holds_patch_stable.
Qed.

(** X5, witness: the price of the product is changed after the order. *)
Lemma purchases_are_frozen_witness :
  order_holds (same_purchase (placed 2 2499.99 4999.98 pending None)) 1
    (cur (act_all
            (shop (item 2499.99 3 available)
               {[ 1 := placed 2 2499.99 4999.98 pending None ]})
            [ Call (UpdateProduct reliable 1
                      {| ProductModel.upd_name := None;
                         ProductModel.upd_description := None;
                         ProductModel.upd_price := Some 1999.5%float;
                         ProductModel.upd_category := None;
                         ProductModel.upd_stockQuantity := None;
                         ProductModel.upd_status := None;
                         ProductModel.upd_sku := None |});
              Call (UpdateStatus reliable 1 "confirmed" None);
              Call (Create reliable (request (Js.jsint 1))) ])).
Proof.
  apply purchases_are_frozen; [reflexivity | vm_compute; reflexivity].
Defined.

(** ** Orders and the guards of [updateStatus] and [cancel] *)

Lemma updateStatus_effect ft id status notes d :
  (OrderModel.updateStatus ft id status notes d).2 = d
  \/ exists o s,
       orders (cur d) !! id = Some o
       /\ In (o_status o, s) transition_table
       /\ (OrderModel.updateStatus ft id status notes d).2
          = {| cur := set_order (cur d) id
                        (with_status o s (OrderModel.or_null notes));
               txn := txn d |}.
Proof.
  destruct (ft AtLookup) as [e|] eqn:Hl.
  { left. unfold OrderModel.updateStatus, bind.
    rewrite order_findById_run, Hl. reflexivity. }
  destruct (orders (cur d) !! id) as [o|] eqn:Ho.
  - rewrite (updateStatus_run _ _ _ _ _ _ Ho Hl).
    destruct (OrderModel.includes _ _) eqn:Hinc; [|left; reflexivity].
    destruct (ft AtWrite); [left; reflexivity|].
    destruct (includes_parses _ _ Hinc) as (s & Hs & Hin). rewrite Hs.
    right. exists o, s. split; [reflexivity|]. split; [exact Hin|].
    apply findByIdWithDetails_read_only.
  - left. unfold OrderModel.updateStatus, bind.
    rewrite order_findById_run, Hl, Ho. reflexivity.
Qed.

Lemma everywhere_weaken (P Q : tables -> Prop) d :
  (forall t, P t -> Q t) -> everywhere P d -> everywhere Q d.
Proof.
  intros H [Hc Ht]. split; [apply H, Hc|]. intros t E. apply H, Ht, E.
Qed.

Section Orders.

Variable R : order -> Prop.
Variable id0 : Z.

(** [R] survives a step of the state machine, and the cancellation of an
    order that is not finished. *)
Hypothesis R_step :
  forall o s notes,
    R o -> In (o_status o, s) transition_table -> R (with_status o s notes).
Hypothesis R_cancel :
  forall o notes,
    R o -> ~ terminal (o_status o) -> R (with_status o cancelled notes).

Lemma other_order_update f status notes id :
  id <> id0 ->
  maintains (everywhere (order_holds R id0))
    (update_order_status f status notes id).
Proof.
  intros Hne. apply everywhere_statement. intros d.
  destruct (update_order_status_effect f status notes id d)
    as [Htxn [Hsame|(o & s & Ho & Hcur)]].
  - split; [exact Htxn|]. rewrite Hsame. intros H; exact H.
  - split; [exact Htxn|]. rewrite Hcur. intros (o0 & Ho0 & Hr).
    exists o0. split; [|exact Hr]. simpl.
    rewrite lookup_insert_ne by exact Hne. exact Ho0.
Qed.

Lemma updateStatus_keeps_order ft id status notes :
  maintains (everywhere (order_holds R id0))
    (OrderModel.updateStatus ft id status notes).
Proof.
  intros d [Hc Ht].
  destruct (updateStatus_effect ft id status notes d)
    as [->|(o & s & Ho & Hin & ->)]; [split; assumption|].
  split; [|exact Ht]. simpl. destruct Hc as (o0 & Ho0 & Hr).
  unfold order_holds. simpl.
  destruct (decide (id = id0)) as [->|Hne].
  - rewrite Ho in Ho0. injection Ho0 as <-.
    eexists. split; [apply lookup_insert_eq | apply R_step; assumption].
  - exists o0. split; [|exact Hr].
    rewrite lookup_insert_ne by exact Hne. exact Ho0.
Qed.

Lemma cancelling_update f o notes :
  maintains (everywhere (cancelling id0 o notes))
    (update_order_status f "cancelled" notes id0).
Proof.
  apply everywhere_statement. intros d.
  rewrite update_order_status_run. destruct f; [split; [reflexivity|tauto]|].
  destruct (orders (cur d) !! id0) as [o'|] eqn:Ho';
    [|split; [reflexivity|tauto]].
  simpl. split; [reflexivity|]. unfold cancelling, order_holds. simpl.
  rewrite lookup_insert_eq. intros (o1 & Ho1 & Hr).
  rewrite Ho' in Ho1. injection Ho1 as <-.
  eexists. split; [reflexivity|]. right. destruct Hr as [->| ->]; reflexivity.
Qed.

Lemma cancel_keeps_order ft id reason :
  maintains (everywhere (order_holds R id0))
    (OrderModel.cancel ft id reason).
Proof.
  destruct (decide (id = id0)) as [->|Hne].
  2: { pose proof (other_order_update (ft AtWrite) "cancelled"
                     (OrderModel.or_null reason) id Hne).
       pose proof (order_holds_stock_stable R id0).
       unfold OrderModel.cancel. keep. }
  intros d Hd.
  unfold OrderModel.cancel. cbv zeta. unfold bind at 1.
  rewrite order_findById_run.
  destruct (ft AtLookup); [exact Hd|].
  destruct Hd as [(o & Ho & Hr) Ht]. rewrite Ho. simpl.
  assert (Hd : everywhere (order_holds R id0) d)
    by (split; [exists o; split; assumption|exact Ht]).
  destruct (bool_decide_reflect (o_status o = cancelled)) as [|Hnc];
    [exact Hd|].
  destruct (bool_decide_reflect (o_status o = delivered)) as [|Hnd];
    [exact Hd|].
  destruct (txn d) as [t|] eqn:Htxn.
  { unfold bind at 1. rewrite beginTransaction_run, Htxn.
    destruct (ft AtBegin); exact Hd. }
  match goal with
  | |- everywhere _ (?m d).2 =>
      assert (Hbody : maintains
                (everywhere (cancelling id0 o (OrderModel.or_null reason))) m)
  end.
  { pose proof (cancelling_update (ft AtWrite) o (OrderModel.or_null reason)).
    pose proof (order_holds_stock_stable
                  (fun o' => o' = o
                     \/ o' = with_status o cancelled (OrderModel.or_null reason))
                  id0).
    keep. }
  assert (Hstart : everywhere (cancelling id0 o (OrderModel.or_null reason)) d).
  { split; [exists o; split; [exact Ho|left; reflexivity]|].
    rewrite Htxn. discriminate. }
  apply Hbody in Hstart. revert Hstart. apply everywhere_weaken.
  intros t' (o' & Ho' & [->| ->]); eexists; (split; [exact Ho'|]);
    [exact Hr|].
  apply R_cancel; [exact Hr|]. unfold terminal. intros [?|?]; contradiction.
Qed.

Lemma act_all_keeps_order acts :
  forall d,
    everywhere (order_holds R id0) d ->
    everywhere (order_holds R id0) (act_all d acts).
Proof.
  induction acts as [|a acts IH]; intros d Hd; [exact Hd|].
  simpl. apply IH. destruct a as [[]| |]; simpl.
  - apply create_keeps; [apply order_holds_insert_stable|exact Hd].
  - apply updateStatus_keeps_order, Hd.
  - apply cancel_keeps_order, Hd.
  - apply updateStock_keeps; [apply order_holds_stock_stable|exact Hd].
  - apply update_keeps; [apply order_holds_patch_stable|exact Hd].
  - apply product_create_keeps; [apply order_holds_patch_stable|exact Hd].
  - apply discontinue_keeps; [apply order_holds_relabel_stable|exact Hd].
Qed.

End Orders.

Lemma transition_table_progress a b :
  In (a, b) transition_table -> (progress a < progress b)%nat.
Proof.
  unfold transition_table. simpl.
  intros H. repeat (destruct H as [H|H]; [injection H as <- <-; simpl; lia|]).
  destruct H.
Qed.

Lemma transition_table_not_terminal a b :
  In (a, b) transition_table -> ~ terminal a.
Proof.
  unfold transition_table, terminal. simpl.
  intros H [-> | ->];
    repeat (destruct H as [H|H]; [discriminate H|]); destruct H.
Qed.

(** X6. An order that is delivered or cancelled is final: no sequence of
    calls of the models, whatever their arguments and whichever of them
    fail, changes any column of its row afterwards. *)
Theorem finished_orders_never_change acts d id o :
  txn d = None ->
  orders (cur d) !! id = Some o ->
  terminal (o_status o) ->
  orders (cur (act_all d acts)) !! id = Some o.
Proof.
  intros Htxn Ho Hterm.
  assert (H : everywhere (order_holds (fun o' => o' = o) id) (act_all d acts)).
  { apply act_all_keeps_order.
    - intros o' s notes -> Hin.
      destruct (transition_table_not_terminal _ _ Hin Hterm).
    - intros o' notes -> Hn. destruct (Hn Hterm).
    - split; [exists o; split; [exact Ho|reflexivity]|].
      rewrite Htxn. discriminate. }
  destruct H as [(o' & Ho' & ->) _]. exact Ho'.
Qed.

Lemma finished_orders_never_change_witness :
  orders (cur (act_all
     (shop (item 2499.99 3 available)
           {[ 1 := placed 2 2499.99 4999.98 delivered None ]})
     [Call (Cancel reliable 1 None);
      Call (UpdateStatus reliable 1 "cancelled" (Some (Some "late")))]))
    !! 1
  = Some (placed 2 2499.99 4999.98 delivered None).
Proof.
  apply finished_orders_never_change.
  - reflexivity.
  - vm_compute. reflexivity.
  - left. reflexivity.
Defined.

(** X7. Orders only move forward: after any sequence of calls of the
    models an order still exists and is at least as far in its life
    (pending, confirmed, shipped, then delivered or cancelled) as before. *)
Theorem orders_only_move_forward acts d id o :
  txn d = None ->
  orders (cur d) !! id = Some o ->
  exists o',
    orders (cur (act_all d acts)) !! id = Some o'
    /\ (progress (o_status o) <= progress (o_status o'))%nat.
Proof.
  intros Htxn Ho.
  assert (H : everywhere
                (order_holds
                   (fun o' => (progress (o_status o)
                               <= progress (o_status o'))%nat) id)
                (act_all d acts)).
  { apply act_all_keeps_order.
    - intros o' s notes Hle Hin. simpl.
      pose proof (transition_table_progress _ _ Hin). lia.
    - intros o' notes Hle _. simpl. destruct (o_status o); simpl; lia.
    - split; [exists o; split; [exact Ho|lia]|].
      rewrite Htxn. discriminate. }
  destruct H as [H _]. exact H.
Qed.

Lemma orders_only_move_forward_witness :
  exists o',
    orders (cur (act_all
       (shop (item 2499.99 3 available)
             {[ 1 := placed 2 2499.99 4999.98 confirmed None ]})
       [Call (UpdateStatus reliable 1 "pending" None);
        Call (UpdateStatus reliable 1 "shipped" None)]))
      !! 1 = Some o'
    /\ (progress (o_status (placed 2 2499.99 4999.98 confirmed None))
        <= progress (o_status o'))%nat.
Proof.
  apply orders_only_move_forward.
  - reflexivity.
  - vm_compute. reflexivity.
Defined.


(** ** [updateStock] and the transaction of the connection *)

Lemma updateStock_new_quantity quantityChange operation p x :
  default "subtract" operation = "add"
    /\ x = Js.add (p_stockQuantity p) quantityChange
  \/ default "subtract" operation = "subtract"
    /\ x = Js.sub (p_stockQuantity p) quantityChange ->
  forall d1,
    (if String.eqb (default "subtract" operation) "add"
     then ret (Js.add (p_stockQuantity p) quantityChange)
     else if String.eqb (default "subtract" operation) "subtract"
          then if PrimFloat.ltb
                    (Js.sub (p_stockQuantity p) quantityChange) 0
               then throw ("Insufficient stock. Available: "
                           +:+ pretty (p_stockQuantity p)
                           +:+ ", Requested: " +:+ pretty quantityChange)
               else ret (Js.sub (p_stockQuantity p) quantityChange)
          else throw ProductModel.invalid_operation) d1
    = (if String.eqb (default "subtract" operation) "subtract"
          && PrimFloat.ltb x 0
       then Throw ("Insufficient stock. Available: "
                   +:+ pretty (p_stockQuantity p)
                   +:+ ", Requested: " +:+ pretty quantityChange)
       else Return x, d1).
Proof.
  intros [[-> ->]|[-> ->]] d1; [reflexivity|]. simpl.
  destruct (PrimFloat.ltb _ 0); reflexivity.
Qed.

Lemma updateStock_runs id quantityChange operation d p x n :
  txn d = None ->
  products (cur d) !! id = Some p ->
  (default "subtract" operation = "add"
     /\ x = Js.add (p_stockQuantity p) quantityChange
   \/ default "subtract" operation = "subtract"
     /\ x = Js.sub (p_stockQuantity p) quantityChange) ->
  Js.integer_of x = Some n ->
  0 <= n ->
  ProductModel.updateStock reliable id quantityChange operation d
  = (Return (Some (ProductModel.formatProductResponse id
                     (with_stock p n
                        (if n =? 0 then out_of_stock else available)))),
     {| cur := set_product (cur d) id
                 (with_stock p n
                    (if n =? 0 then out_of_stock else available));
        txn := None |}).
Proof.
  intros Ht Hp Hop Hn Hnn.
  unfold ProductModel.updateStock, try_catch, reliable. cbv zeta.
  erewrite bind_run by (rewrite beginTransaction_run, Ht; reflexivity).
  erewrite bind_run by (rewrite product_findById_run; reflexivity).
  cbn [cur]. rewrite Hp. cbn [fmap option_fmap option_map].
  unfold ProductModel.formatProductResponse at 1. cbn [p_stockQuantity].
  erewrite bind_run
    by (rewrite (updateStock_new_quantity quantityChange operation p x Hop),
          (integer_of_ltb x n Hn), (proj2 (Z.ltb_ge _ _) Hnn), andb_false_r;
        reflexivity).
  rewrite (integer_of_eqb x n Hn).
  erewrite bind_run
    by (rewrite set_stock_run; cbn [cur]; rewrite Hp, Hn,
          (proj2 (Z.ltb_ge _ _) Hnn); reflexivity).
  cbn [Z.eqb]. cbv beta iota.
  erewrite bind_run by (rewrite (commit_open _ _ (cur d)) by reflexivity;
                        reflexivity).
  rewrite product_findById_run. cbn [cur set_product products].
  rewrite lookup_insert_eq. reflexivity.
Qed.

Lemma updateStock_rejects_negative id quantityChange operation d p x n :
  txn d = None ->
  products (cur d) !! id = Some p ->
  (default "subtract" operation = "add"
     /\ x = Js.add (p_stockQuantity p) quantityChange
   \/ default "subtract" operation = "subtract"
     /\ x = Js.sub (p_stockQuantity p) quantityChange) ->
  Js.integer_of x = Some n ->
  n < 0 ->
  exists e,
    ProductModel.updateStock reliable id quantityChange operation d
    = (Throw e, d).
Proof.
  intros Ht Hp Hop Hn Hneg. destruct d as [c t]. simpl in Ht, Hp. subst t.
  unfold ProductModel.updateStock, try_catch, reliable. cbv zeta.
  erewrite bind_run by (rewrite beginTransaction_run; reflexivity).
  erewrite bind_run by (rewrite product_findById_run; reflexivity).
  cbn [cur]. rewrite Hp. cbn [fmap option_fmap option_map].
  unfold ProductModel.formatProductResponse at 1. cbn [p_stockQuantity].
  unfold bind at 1.
  rewrite (updateStock_new_quantity quantityChange operation p x Hop),
    (integer_of_ltb x n Hn), (proj2 (Z.ltb_lt _ _) Hneg), andb_true_r.
  destruct (String.eqb _ "subtract"); cbv beta iota.
  - eexists. reflexivity.
  - unfold bind at 1. rewrite set_stock_run. cbn [cur]. rewrite Hp, Hn,
      (proj2 (Z.ltb_lt _ _) Hneg).
    eexists. reflexivity.
Qed.

Lemma updateStock_rejects_operation id quantityChange operation d p :
  txn d = None ->
  products (cur d) !! id = Some p ->
  default "subtract" operation <> "add" ->
  default "subtract" operation <> "subtract" ->
  ProductModel.updateStock reliable id quantityChange operation d
  = (Throw ProductModel.invalid_operation, d).
Proof.
  intros Ht Hp Ha Hs. destruct d as [c t]. simpl in Ht, Hp. subst t.
  unfold ProductModel.updateStock, try_catch, reliable. cbv zeta.
  erewrite bind_run by (rewrite beginTransaction_run; reflexivity).
  erewrite bind_run by (rewrite product_findById_run; reflexivity).
  cbn [cur]. rewrite Hp. cbn [fmap option_fmap option_map].
  unfold bind at 1.
  rewrite (proj2 (String.eqb_neq _ _) Ha), (proj2 (String.eqb_neq _ _) Hs).
  reflexivity.
Qed.

(** X8. [updateStock] on an existing product, with no transaction open and
    a database that executes every statement. The new quantity is the sum,
    for ['add'], or the difference, for ['subtract'] (the default), of the
    stock and the change as JavaScript computes them, in doubles: 5 plus
    2^53 is 2^53 + 4. When that number is an integer that is not negative,
    the call stores it, with the status [out_of_stock] for zero and
    [available] otherwise, commits and returns the stored row; when it is
    negative the call rejects and changes nothing; and so it does for any
    other operation. *)
Theorem updateStock_resolves_exactly id quantityChange operation d p :
  txn d = None ->
  products (cur d) !! id = Some p ->
  (forall x n,
     (default "subtract" operation = "add"
        /\ x = Js.add (p_stockQuantity p) quantityChange
      \/ default "subtract" operation = "subtract"
        /\ x = Js.sub (p_stockQuantity p) quantityChange) ->
     Js.integer_of x = Some n ->
     (0 <= n ->
      ProductModel.updateStock reliable id quantityChange operation d
      = (Return (Some (ProductModel.formatProductResponse id
                         (with_stock p n
                            (if n =? 0 then out_of_stock else available)))),
         {| cur := set_product (cur d) id
                     (with_stock p n
                        (if n =? 0 then out_of_stock else available));
            txn := None |}))
     /\ (n < 0 ->
         exists e,
           ProductModel.updateStock reliable id quantityChange operation d
           = (Throw e, d)))
  /\ (default "subtract" operation <> "add" ->
      default "subtract" operation <> "subtract" ->
      ProductModel.updateStock reliable id quantityChange operation d
      = (Throw ProductModel.invalid_operation, d)).
Proof.
  intros Ht Hp. split.
  - intros x n Hop Hn. split.
    + apply (updateStock_runs id quantityChange operation d p x n);
        assumption.
    + apply (updateStock_rejects_negative id quantityChange operation d p x n);
        assumption.
  - apply (updateStock_rejects_operation id quantityChange operation d p);
      assumption.
Qed.

(** X8, witness: 2^53 is added to a stock of 5; the stock becomes
    9007199254740996. *)
Lemma updateStock_resolves_exactly_witness :
  ProductModel.updateStock reliable 1 9007199254740992 (Some "add")
    (shop (item 2499.99 5 available) ∅)
  = (Return (Some (ProductModel.formatProductResponse 1
                     (with_stock (item 2499.99 5 available) 9007199254740996
                        (if 9007199254740996 =? 0 then out_of_stock
                         else available)))),
     {| cur := set_product (cur (shop (item 2499.99 5 available) ∅)) 1
                 (with_stock (item 2499.99 5 available) 9007199254740996
                    (if 9007199254740996 =? 0 then out_of_stock
                     else available));
        txn := None |}).
Proof.
  destruct (updateStock_resolves_exactly 1 9007199254740992 (Some "add")
              (shop (item 2499.99 5 available) ∅) (item 2499.99 5 available))
    as [H _].
  - reflexivity.
  - vm_compute. reflexivity.
  - destruct (H (Js.add 5 9007199254740992) 9007199254740996) as [Hok _].
    + left. split; reflexivity.
    + vm_compute. reflexivity.
    + apply Hok. lia.
Defined.

(** X9. A call of [updateStock] that rejects leaves the tables and the
    connection as they were, whichever statement failed, provided the
    ROLLBACK and the final read of the row are executed. *)
Theorem updateStock_failure_changes_nothing
    ft id quantityChange operation d e d' :
  txn d = None ->
  ft AtRollback = None ->
  ft AtReadBack = None ->
  ProductModel.updateStock ft id quantityChange operation d = (Throw e, d') ->
  d' = d.
Proof.
  intros Ht Hrb Hread. destruct d as [c t]. simpl in Ht. subst t.
  unfold ProductModel.updateStock, try_catch. cbv zeta.
  unfold bind at 1. rewrite beginTransaction_run. cbn [txn cur].
  assert (Hroll : forall (msg : string) c',
    (do rollbackTransaction (ft AtRollback) then throw msg)
      {| cur := c'; txn := Some c |}
    = (@Throw (option (Z * product)) msg, {| cur := c; txn := None |})).
  { intros msg c'. rewrite Hrb. reflexivity. }
  destruct (ft AtBegin).
  { rewrite Hrb. simpl. intros H. injection H as _ <-. reflexivity. }
  unfold bind at 1. rewrite product_findById_run.
  destruct (ft AtLookup).
  { cbv beta iota. rewrite Hroll. intros H. injection H as _ <-. reflexivity. }
  cbn [cur]. destruct (products c !! id) as [p|] eqn:Hp.
  2: { cbn [fmap option_fmap option_map]. unfold throw at 1. cbv beta iota. rewrite Hroll.
       intros H. injection H as _ <-. reflexivity. }
  cbn [fmap option_fmap option_map].
  unfold ProductModel.formatProductResponse at 1. cbn [p_stockQuantity].
  unfold bind at 1.
  match goal with
  | |- context [(if String.eqb ?op "add" then ?a else ?b) ?dd] =>
      assert (Hnew : (exists msg, (if String.eqb op "add" then a else b) dd
                                  = (Throw msg, dd))
                     \/ (exists n, (if String.eqb op "add" then a else b) dd
                                   = (Return n, dd)))
  end.
  { destruct (String.eqb _ "add"); [right; eexists; reflexivity|].
    destruct (String.eqb _ "subtract"); [|left; eexists; reflexivity].
    destruct (PrimFloat.ltb _ 0); [left|right]; eexists; reflexivity. }
  destruct Hnew as [(msg & ->)|(n & ->)].
  { cbv beta iota. rewrite Hroll. intros H. injection H as _ <-. reflexivity. }
  unfold bind at 1. rewrite set_stock_run.
  destruct (ft AtWrite).
  { cbv beta iota. rewrite Hroll. intros H. injection H as _ <-. reflexivity. }
  cbn [cur]. rewrite Hp.
  destruct (Js.integer_of n) as [k|].
  2: { cbv beta iota. rewrite Hroll. intros H. injection H as _ <-.
       reflexivity. }
  destruct (k <? 0).
  { cbv beta iota. rewrite Hroll. intros H. injection H as _ <-. reflexivity. }
  cbn [Z.eqb]. cbv beta iota.
  unfold bind at 1. rewrite (commit_open _ _ c) by reflexivity.
  destruct (ft AtCommit).
  { cbv beta iota. rewrite Hroll. intros H. injection H as _ <-. reflexivity. }
  rewrite product_findById_run, Hread. discriminate.
Qed.

Lemma updateStock_failure_changes_nothing_witness :
  (ProductModel.updateStock (fail_at AtCommit "SQLITE_BUSY") 1 2 None
     (shop (item 2499.99 3 available) ∅)).2
  = shop (item 2499.99 3 available) ∅.
Proof.
  apply (updateStock_failure_changes_nothing
           (fail_at AtCommit "SQLITE_BUSY") 1 2 None
           (shop (item 2499.99 3 available) ∅) "SQLITE_BUSY").
  - reflexivity.
  - reflexivity.
  - reflexivity.
  - vm_compute. reflexivity.
Defined.

(** X10. Called while a transaction is open on the connection,
    [updateStock] cannot BEGIN, and its [catch] block then rolls the open
    transaction back: what the owner of that transaction has written is
    lost, and the transaction is over. *)
Theorem updateStock_ends_open_transaction
    ft id quantityChange operation d t :
  txn d = Some t ->
  ft AtRollback = None ->
  exists e,
    ProductModel.updateStock ft id quantityChange operation d
    = (Throw e, {| cur := t; txn := None |}).
Proof.
  intros Ht Hrb. unfold ProductModel.updateStock, try_catch. cbv zeta.
  unfold bind at 1. rewrite beginTransaction_run, Ht.
  destruct (ft AtBegin); unfold bind; rewrite Hrb, (rollback_open d t Ht);
    eexists; reflexivity.
Qed.

Lemma updateStock_ends_open_transaction_witness :
  exists e,
    ProductModel.updateStock reliable 1 1 (Some "add")
      {| cur := cur (shop (item 2499.99 0 out_of_stock)
                       {[ 1 := placed 3 2499.99 7499.97 pending None ]});
         txn := Some (cur (shop (item 2499.99 3 available) ∅)) |}
    = (Throw e,
       {| cur := cur (shop (item 2499.99 3 available) ∅); txn := None |}).
Proof.
  apply updateStock_ends_open_transaction; reflexivity.
Defined.

Lemma create_checks_open_transaction ft orderData d t :
  txn d = Some t ->
  exists e, OrderModel.create_checks ft orderData d = (Throw e, d).
Proof.
  intros Ht. unfold OrderModel.create_checks.
  destruct (OrderModel.user_id orderData) as [user_id|];
    [|eexists; reflexivity].
  destruct (OrderModel.product_id orderData) as [product_id|];
    [|eexists; reflexivity].
  destruct (OrderModel.quantity orderData) as [quantity|];
    [|eexists; reflexivity].
  destruct (_ || _); [eexists; reflexivity|]. cbv zeta.
  destruct (_ <=? 0); [eexists; reflexivity|].
  unfold bind at 1.
  pose proof (userExists_read_only (ft AtValidateUser) user_id d) as Hu.
  destruct (Validation.userExists _ _ d) as [[b|e] d1]; simpl in Hu; subst d1;
    [|eexists; reflexivity].
  destruct b; [|eexists; reflexivity]. cbn [negb].
  unfold bind at 1.
  pose proof (productAvailable_read_only (ft AtValidateProduct) product_id
                (Js.parseInt quantity) d) as Hp.
  destruct (Validation.productAvailable _ _ _ d) as [[a|e] d1];
    simpl in Hp; subst d1; [|eexists; reflexivity].
  destruct a; [eexists; reflexivity|].
  unfold bind. rewrite beginTransaction_run, Ht.
  destruct (ft AtBegin); eexists; reflexivity.
Qed.

(** X11. [create] and [cancel] called while a transaction is open reject
    and touch neither the tables nor that transaction: their BEGIN is
    outside the [try] whose [catch] rolls back. *)
Theorem order_calls_leave_open_transaction ft d t :
  txn d = Some t ->
  (forall orderData, exists e,
     OrderModel.create ft orderData d = (Throw e, d))
  /\ (forall id reason, exists e,
        OrderModel.cancel ft id reason d = (Throw e, d)).
Proof.
  intros Ht. split.
  - intros orderData.
    destruct (create_checks_open_transaction ft orderData d t Ht) as (e & H).
    exists e. unfold OrderModel.create, bind. rewrite H. reflexivity.
  - intros id reason. unfold OrderModel.cancel. cbv zeta.
    unfold bind at 1. rewrite order_findById_run.
    destruct (ft AtLookup); [eexists; reflexivity|].
    destruct (orders (cur d) !! id) as [o|]; [|eexists; reflexivity].
    simpl. destruct (bool_decide _); [eexists; reflexivity|].
    destruct (bool_decide _); [eexists; reflexivity|].
    unfold bind. rewrite beginTransaction_run, Ht.
    destruct (ft AtBegin); eexists; reflexivity.
Qed.

Lemma order_calls_leave_open_transaction_witness :
  (forall orderData, exists e,
     OrderModel.create reliable orderData
       {| cur := cur (shop (item 2499.99 3 available) ∅);
          txn := Some (cur (shop (item 2499.99 5 available) ∅)) |}
     = (Throw e,
        {| cur := cur (shop (item 2499.99 3 available) ∅);
           txn := Some (cur (shop (item 2499.99 5 available) ∅)) |}))
  /\ (forall id reason, exists e,
        OrderModel.cancel reliable id reason
          {| cur := cur (shop (item 2499.99 3 available) ∅);
             txn := Some (cur (shop (item 2499.99 5 available) ∅)) |}
        = (Throw e,
           {| cur := cur (shop (item 2499.99 3 available) ∅);
              txn := Some (cur (shop (item 2499.99 5 available) ∅)) |})).
Proof.
  apply (order_calls_leave_open_transaction reliable _
           (cur (shop (item 2499.99 5 available) ∅))).
  reflexivity.
Defined.

(* ===================================================================== *)
(** * The route's rule on the quantity, and the model behind it *)
(* ===================================================================== *)

Lemma parseInt_integer q n :
  1 <= n < 10 ^ 21 ->
  Js.dec_mant q = n * Js.pow10 (Js.dec_scale q) ->
  Js.parseInt q = n.
Proof.
  intros Hn Hm. pose proof (pow10_pos (Js.dec_scale q)) as Hpos.
  unfold Js.parseInt. cbv zeta. rewrite Hm.
  set (s := Js.pow10 (Js.dec_scale q)) in *.
  rewrite (proj2 (Z.eqb_neq _ _)) by nia.
  rewrite Z.abs_eq by nia.
  rewrite (proj2 (Z.leb_le _ _)) by nia.
  rewrite (proj2 (Z.ltb_lt _ _)) by nia.
  cbn [andb]. apply Z.quot_mul. lia.
Qed.

Lemma parseInt_accepted max q :
  Validation.quantity_rule max q = true ->
  max < 10 ^ 21 ->
  1 <= Js.parseInt q <= max
  /\ Js.dec_mant q = Js.parseInt q * Js.pow10 (Js.dec_scale q).
Proof.
  intros Hrule Hmax.
  apply quantity_rule_integer in Hrule as (n & [Hlow Hhigh] & Hm).
  rewrite (parseInt_integer q n) by (lia || exact Hm).
  split; [lia|exact Hm].
Qed.

(** A quantity that [schemas.createOrder] lets through is a safe integer
    from 1 to [max], and [parseInt] reads it as it is. *)
Lemma parseInt_validated max q :
  Schemas.safe_number q = true ->
  Validation.quantity_rule max q = true ->
  1 <= Js.parseInt q <= max
  /\ Js.dec_mant q = Js.parseInt q * Js.pow10 (Js.dec_scale q).
Proof.
  intros Hsafe Hrule.
  apply quantity_rule_integer in Hrule as (n & [Hlow Hhigh] & Hm).
  pose proof (pow10_pos (Js.dec_scale q)) as Hpos.
  unfold Schemas.safe_number in Hsafe. apply Z.leb_le in Hsafe.
  rewrite Hm, Z.abs_eq in Hsafe by nia.
  assert (Hn : n <= 2 ^ 53 - 1) by nia.
  rewrite (parseInt_integer q n); [split; [lia|exact Hm]| |exact Hm].
  split; [lia|]. assert (2 ^ 53 - 1 < 10 ^ 21) by reflexivity. lia.
Qed.

(** X20. The quantity rule of the schema and [create] together: for a
    quantity the rule accepts (the maximum being below 10^21), [parseInt]
    loses nothing, so an order that [create] returns carries exactly the
    quantity of the request, between 1 and the maximum. *)
Theorem accepted_quantity_is_ordered max ft orderData q d details d' :
  Validation.quantity_rule max q = true ->
  max < 10 ^ 21 ->
  OrderModel.quantity orderData = Some q ->
  OrderModel.create ft orderData d = (Return (Some details), d') ->
  1 <= o_quantity (det_order details) <= max
  /\ Js.dec_mant q
     = o_quantity (det_order details) * Js.pow10 (Js.dec_scale q).
Proof.
  intros Hrule Hmax Hq H.
  apply create_resolved in H
    as (uid & pid & q' & p & new_id & details' & _ & _ & Hq' & _ & _ & _ & _
        & _ & Hr & _ & Hdet).
  rewrite Hq in Hq'. injection Hq' as <-. injection Hr as <-.
  rewrite Hdet. simpl. apply (parseInt_accepted max q Hrule Hmax).
Qed.

Lemma accepted_quantity_is_ordered_witness :
  1 <= 2 <= 100
  /\ Js.dec_mant {| Js.dec_mant := 20; Js.dec_scale := 1 |}
     = 2 * Js.pow10 (Js.dec_scale {| Js.dec_mant := 20; Js.dec_scale := 1 |}).
Proof.
  destruct (OrderModel.create reliable
              (request {| Js.dec_mant := 20; Js.dec_scale := 1 |})
              (shop (item 2499.99 5 available) ∅)) as [[[details|]|e] d']
    eqn:H; try (vm_compute in H; discriminate H).
  assert (Hq : o_quantity (det_order details) = 2).
  { vm_compute in H. injection H as <- _. reflexivity. }
  rewrite <- Hq.
  apply (accepted_quantity_is_ordered 100 reliable
           (request {| Js.dec_mant := 20; Js.dec_scale := 1 |})
           {| Js.dec_mant := 20; Js.dec_scale := 1 |}
           (shop (item 2499.99 5 available) ∅) details d').
  - reflexivity.
  - reflexivity.
  - reflexivity.
  - exact H.
Defined.

(* ===================================================================== *)
(** * What the POST handlers answer *)
(* ===================================================================== *)

(** ** Text that contains, or cannot contain, a pattern *)

Lemma starts_with_app s r pat :
  Js.starts_with s pat = true -> Js.starts_with (s +:+ r) pat = true.
Proof.
  revert pat. induction s as [|c s IH]; intros [|a pat] H; simpl in *;
    try discriminate H.
  - destruct r; reflexivity.
  - reflexivity.
  - apply andb_true_iff in H as [-> H]. apply IH, H.
Qed.

Lemma includes_text_app_l s r pat :
  Js.includes_text s pat = true -> Js.includes_text (s +:+ r) pat = true.
Proof.
  induction s as [|c s IH]; simpl.
  - rewrite orb_false_r. destruct pat; [|discriminate].
    intros _. destruct r; reflexivity.
  - intros H. apply orb_true_iff in H as [H|H].
    + apply (starts_with_app (String c s) r) in H. simpl in H. rewrite H.
      reflexivity.
    + rewrite (IH H). apply orb_true_r.
Qed.


Lemma append_String c s r : String c s +:+ r = String c (s +:+ r).
Proof. reflexivity. Qed.

Lemma append_empty r : "" +:+ r = r.
Proof. reflexivity. Qed.

(** A text without the first character of the pattern can be skipped. *)
Lemma includes_text_skip a pat s r :
  Forall (fun c => Ascii.eqb a c = false) (String.list_ascii_of_string s) ->
  Js.includes_text (s +:+ r) (String a pat)
  = Js.includes_text r (String a pat).
Proof.
  induction s as [|c s IH]; intros H; [reflexivity|].
  simpl in H. apply Forall_cons in H as [Hc H].
  change (Js.includes_text (String c (s +:+ r)) (String a pat)
          = Js.includes_text r (String a pat)).
  simpl. rewrite Hc. simpl. apply IH, H.
Qed.

Lemma includes_text_absent a pat s :
  Forall (fun c => Ascii.eqb a c = false) (String.list_ascii_of_string s) ->
  Js.includes_text s (String a pat) = false.
Proof.
  induction s as [|c s IH]; intros H; [reflexivity|].
  simpl in H. apply Forall_cons in H as [Hc H].
  simpl. rewrite Hc. simpl. apply IH, H.
Qed.

(** The decimal text of an integer consists of digits and a sign. *)
Lemma pretty_N_go_chars (Q : ascii -> Prop) x s :
  (forall k, Q (pretty_N_char k)) ->
  Forall Q (String.list_ascii_of_string s) ->
  Forall Q (String.list_ascii_of_string (pretty_N_go x s)).
Proof.
  intros HQ. revert s. induction (N.lt_wf_0 x) as [x _ IH]. intros s Hs.
  assert (x = 0 \/ 0 < x)%N as [->|Hpos] by lia.
  - rewrite pretty_N_go_0. exact Hs.
  - rewrite pretty_N_go_step by exact Hpos. apply IH.
    + apply N.div_lt; [exact Hpos|reflexivity].
    + simpl. apply Forall_cons. split; [apply HQ|exact Hs].
Qed.

Lemma pretty_Z_chars (Q : ascii -> Prop) (z : Z) :
  (forall k, Q (pretty_N_char k)) -> Q "-"%char ->
  Forall Q (String.list_ascii_of_string (pretty z)).
Proof.
  intros HQ Hdash.
  assert (HN : forall n : N, Forall Q (String.list_ascii_of_string (pretty n))).
  { intros n. unfold pretty, pretty_N. destruct (decide (n = 0%N)).
    - simpl. apply Forall_cons. split; [apply (HQ 0%N)|constructor].
    - apply pretty_N_go_chars; [exact HQ|constructor]. }
  destruct z as [|p|p]; unfold pretty, pretty_Z.
  - simpl. apply Forall_cons. split; [apply (HQ 0%N)|constructor].
  - apply (HN (Npos p)).
  - simpl. apply Forall_cons. split; [exact Hdash|apply (HN (Npos p))].
Qed.

Lemma pretty_Z_without (a : ascii) (z : Z) :
  Js.is_digit a = false -> a <> "-"%char ->
  Forall (fun c => Ascii.eqb a c = false) (String.list_ascii_of_string (pretty z)).
Proof.
  intros Hd Hdash. apply pretty_Z_chars.
  - intros k. apply Ascii.eqb_neq. intros ->.
    unfold pretty_N_char in Hd.
    repeat (match type of Hd with
            | context [match ?x with _ => _ end] => destruct x
            end; try discriminate Hd).
  - apply Ascii.eqb_neq. exact Hdash.
Qed.

Lemma bind_throws {A B} (m : M A) (k : A -> M B) d e d1 :
  m d = (Throw e, d1) -> bind m k d = (Throw e, d1).
Proof. intros H. unfold bind. rewrite H. reflexivity. Qed.

(** [create] up to its two validators, on arguments that pass its own
    checks. *)
Lemma create_validates orderData d user_id product_id q :
  OrderModel.user_id orderData = Some user_id -> user_id <> 0 ->
  OrderModel.product_id orderData = Some product_id -> product_id <> 0 ->
  OrderModel.quantity orderData = Some q -> 0 < Js.parseInt q ->
  OrderModel.create_checks reliable orderData d
  = match users (cur d) !! user_id with
    | Some u =>
        if bool_decide (u_status u = active) then
          match products (cur d) !! product_id with
          | None => (Throw "Product not found", d)
          | Some p =>
              if negb (bool_decide (p_status p = available)) then
                (Throw ("Product is " +:+ product_status_text (p_status p)), d)
              else if p_stockQuantity p <? Js.parseInt q then
                (Throw ("Insufficient stock. Available: "
                        +:+ pretty (p_stockQuantity p)
                        +:+ ", Requested: " +:+ pretty (Js.parseInt q)), d)
              else
                (do beginTransaction None then
                 ret (user_id, product_id, Js.parseInt q,
                      {| snap_id := product_id; snap_name := p_name p;
                         snap_price := p_price p;
                         snap_stockQuantity := p_stockQuantity p;
                         snap_status := p_status p |})) d
          end
        else (Throw "User not found or inactive", d)
    | None => (Throw "User not found or inactive", d)
    end.
Proof.
  intros Huid Hu0 Hpid Hp0 Hq Hpos.
  assert (Hmant : Js.num_falsy q = false).
  { unfold Js.num_falsy.
    destruct (Z.eqb_spec (Js.dec_mant q) 0) as [H0|]; [|reflexivity].
    unfold Js.parseInt in Hpos. rewrite H0 in Hpos. simpl in Hpos. lia. }
  unfold OrderModel.create_checks, reliable. rewrite Huid, Hpid, Hq.
  rewrite (proj2 (Z.eqb_neq _ _) Hu0), (proj2 (Z.eqb_neq _ _) Hp0), Hmant.
  cbn [orb]. cbv zeta. rewrite (proj2 (Z.leb_gt _ _) Hpos). cbv beta iota.
  erewrite bind_run by apply userExists_run.
  destruct (users (cur d) !! user_id) as [u|]; [|reflexivity].
  destruct (bool_decide (u_status u = active)); [|reflexivity].
  cbn [negb]. cbv beta iota.
  erewrite bind_run by apply productAvailable_run.
  destruct (products (cur d) !! product_id) as [p|]; [|reflexivity].
  destruct (negb _); [reflexivity|].
  destruct (_ <? _); reflexivity.
Qed.

(** What the handler of [POST /orders] answers when [create] turns the
    order down. *)
Lemma order_handler_rejections orderData d user_id product_id q :
  OrderModel.user_id orderData = Some user_id -> user_id <> 0 ->
  OrderModel.product_id orderData = Some product_id -> product_id <> 0 ->
  OrderModel.quantity orderData = Some q -> 0 < Js.parseInt q ->
  ((forall u, users (cur d) !! user_id = Some u -> u_status u <> active) ->
   Routes.order_handler reliable orderData d
   = (Routes.failure 404 "Resource not found" "User not found or inactive",
      d))
  /\ (forall u,
        users (cur d) !! user_id = Some u -> u_status u = active ->
        (products (cur d) !! product_id = None ->
         Routes.order_handler reliable orderData d
         = (Routes.failure 404 "Resource not found" "Product not found", d))
        /\ (forall p,
              products (cur d) !! product_id = Some p ->
              (p_status p = discontinued ->
               Routes.order_handler reliable orderData d
               = (Routes.failure 500 "Internal server error"
                    "Failed to create order", d))
              /\ (p_status p = out_of_stock ->
                  Routes.order_handler reliable orderData d
                  = (Routes.failure 400 "Order validation failed"
                       "Product is out_of_stock", d))
              /\ (p_status p = available ->
                  p_stockQuantity p < Js.parseInt q ->
                  Routes.order_handler reliable orderData d
                  = (Routes.failure 400 "Order validation failed"
                       ("Insufficient stock. Available: "
                        +:+ pretty (p_stockQuantity p)
                        +:+ ", Requested: " +:+ pretty (Js.parseInt q)),
                     d)))).
Proof.
  intros Huid Hu0 Hpid Hp0 Hq Hpos.
  pose proof (create_validates orderData d user_id product_id q
                Huid Hu0 Hpid Hp0 Hq Hpos) as Hc.
  unfold Routes.order_handler, OrderModel.create.
  split; [|intros u Hu Hact; split; [|intros p Hp; split; [|split]]].
  - intros Hno.
    rewrite (bind_throws _ _ _ "User not found or inactive" d); [reflexivity|].
    rewrite Hc.
    destruct (users (cur d) !! user_id) as [u|] eqn:Hu; [|reflexivity].
    rewrite bool_decide_eq_false_2 by (apply Hno; reflexivity). reflexivity.
  - intros Hp.
    erewrite bind_throws
      by (rewrite Hc, Hu, bool_decide_eq_true_2, Hp by exact Hact;
          reflexivity).
    reflexivity.
  - intros Hst.
    erewrite bind_throws
      by (rewrite Hc, Hu, bool_decide_eq_true_2, Hp, Hst by exact Hact;
          reflexivity).
    reflexivity.
  - intros Hst.
    erewrite bind_throws
      by (rewrite Hc, Hu, bool_decide_eq_true_2, Hp, Hst by exact Hact;
          reflexivity).
    reflexivity.
  - intros Hst Hlt.
    erewrite bind_throws
      by (rewrite Hc, Hu, bool_decide_eq_true_2, Hp, Hst,
            bool_decide_eq_true_2, (proj2 (Z.ltb_lt _ _) Hlt)
            by (exact Hact || reflexivity);
          reflexivity).
    unfold Routes.order_error.
    assert (Hn : forall z : Z,
      Forall (fun c => Ascii.eqb "n" c = false)
        (String.list_ascii_of_string (pretty z))).
    { intros z. apply pretty_Z_without; [reflexivity|discriminate]. }
    assert (Hnot : Js.includes_text
              ("Insufficient stock. Available: "
               +:+ pretty (p_stockQuantity p)
               +:+ ", Requested: " +:+ pretty (Js.parseInt q)) "not found"
            = false).
    { change (Js.includes_text
                ("Insufficient stock. Available: "
                 +:+ (pretty (p_stockQuantity p)
                 +:+ (", Requested: " +:+ pretty (Js.parseInt q))))
                "not found" = false).
      rewrite !append_String, append_empty.
      cbn [Js.includes_text Js.starts_with Ascii.eqb Bool.eqb andb orb].
      rewrite includes_text_skip by apply Hn.
      cbn [Js.includes_text Js.starts_with Ascii.eqb Bool.eqb andb orb].
      apply includes_text_absent, Hn. }
    rewrite Hnot.
    assert (Hstock : Js.includes_text
              ("Insufficient stock. Available: "
               +:+ pretty (p_stockQuantity p)
               +:+ ", Requested: " +:+ pretty (Js.parseInt q)) "stock"
            = true).
    { apply (includes_text_app_l "Insufficient stock. Available: ").
      reflexivity. }
    rewrite Hstock, orb_true_r. reflexivity.
Qed.

(** What a body that [schemas.createOrder] lets through has become. *)
Lemma createOrder_accepted max body orderData :
  Schemas.createOrder max body = Some orderData ->
  exists user_id product_id q notes,
    orderData = {| OrderModel.user_id := Some user_id;
                   OrderModel.product_id := Some product_id;
                   OrderModel.quantity := Some q;
                   OrderModel.notes := notes |}
    /\ 0 < user_id /\ 0 < product_id
    /\ Schemas.safe_number q = true
    /\ Validation.quantity_rule max q = true.
Proof.
  unfold Schemas.createOrder, Schemas.id_rule, Schemas.quantity_required.
  destruct (OrderModel.user_id body) as [uid|]; [|discriminate].
  destruct (Z.abs uid <=? _); [|discriminate].
  destruct (Z.ltb_spec 0 uid) as [Hu|]; [|discriminate]. cbn [andb].
  destruct (OrderModel.product_id body) as [pid|]; [|discriminate].
  destruct (Z.abs pid <=? _); [|discriminate].
  destruct (Z.ltb_spec 0 pid) as [Hp|]; [|discriminate]. cbn [andb].
  destruct (OrderModel.quantity body) as [q|]; [|discriminate].
  destruct (Schemas.safe_number q) eqn:Hsafe; [|discriminate].
  destruct (Validation.quantity_rule max q) eqn:Hrule; [|discriminate].
  cbn [andb].
  destruct (Schemas.optional_text_rule 200 (OrderModel.notes body))
    as [notes|]; [|discriminate].
  intros [= <-]. exists uid, pid, q, notes. auto.
Qed.

(** X12. What [POST /orders] answers, for a body that
    [schemas.createOrder] lets through, when [create] turns the order down:
    404 for a user that is missing or not active and for a missing product,
    400 for a product that is out of stock or has too little stock, but
    500 for a discontinued product, whose message matches no pattern of the
    handler. Nothing is written in any of these cases. *)
Theorem post_order_rejections max body d user_id product_id q notes :
  Schemas.createOrder max body
  = Some {| OrderModel.user_id := Some user_id;
            OrderModel.product_id := Some product_id;
            OrderModel.quantity := Some q;
            OrderModel.notes := notes |} ->
  ((forall u, users (cur d) !! user_id = Some u -> u_status u <> active) ->
   Routes.post_order max reliable body d
   = (Routes.failure 404 "Resource not found" "User not found or inactive",
      d))
  /\ (forall u,
        users (cur d) !! user_id = Some u -> u_status u = active ->
        (products (cur d) !! product_id = None ->
         Routes.post_order max reliable body d
         = (Routes.failure 404 "Resource not found" "Product not found", d))
        /\ (forall p,
              products (cur d) !! product_id = Some p ->
              (p_status p = discontinued ->
               Routes.post_order max reliable body d
               = (Routes.failure 500 "Internal server error"
                    "Failed to create order", d))
              /\ (p_status p = out_of_stock ->
                  Routes.post_order max reliable body d
                  = (Routes.failure 400 "Order validation failed"
                       "Product is out_of_stock", d))
              /\ (p_status p = available ->
                  p_stockQuantity p < Js.parseInt q ->
                  Routes.post_order max reliable body d
                  = (Routes.failure 400 "Order validation failed"
                       ("Insufficient stock. Available: "
                        +:+ pretty (p_stockQuantity p)
                        +:+ ", Requested: " +:+ pretty (Js.parseInt q)),
                     d)))).
Proof.
  intros Hschema. unfold Routes.post_order. rewrite Hschema.
  apply createOrder_accepted in Hschema
    as (uid & pid & q' & notes' & E & Hu & Hp & Hsafe & Hrule).
  injection E as <- <- <- <-.
  destruct (parseInt_validated max q Hsafe Hrule) as [Hq _].
  apply (order_handler_rejections _ d user_id product_id q);
    try reflexivity; lia.
Qed.

(** X12, witness: an order for a discontinued product. *)
Lemma post_order_rejections_witness :
  Routes.post_order 100 reliable (request (Js.jsint 1))
    (shop (item 2499.99 3 discontinued) ∅)
  = (Routes.failure 500 "Internal server error" "Failed to create order",
     shop (item 2499.99 3 discontinued) ∅).
Proof.
  destruct (post_order_rejections 100 (request (Js.jsint 1))
              (shop (item 2499.99 3 discontinued) ∅) 1 1 (Js.jsint 1) None)
    as [_ H].
  - vm_compute. reflexivity.
  - destruct (H john) as [_ Hp].
    + vm_compute. reflexivity.
    + reflexivity.
    + destruct (Hp (item 2499.99 3 discontinued)) as [Hd _].
      * vm_compute. reflexivity.
      * apply Hd. reflexivity.
Defined.







(* ===================================================================== *)
(** * The catalogue: new products, discontinued products *)
(* ===================================================================== *)

Lemma sku_owner_Some t k exclude id :
  sku_owner t k exclude = Some id ->
  exists p, products t !! id = Some p /\ p_sku p = Some k.
Proof.
  unfold sku_owner. intros H.
  destruct (filter _ (map_to_list (products t))) as [|[id' p] l] eqn:Hf;
    [discriminate H|].
  simpl in H. injection H as <-.
  assert (Hin : (id', p) ∈ filter
            (fun kp : Z * product =>
               bool_decide (p_sku kp.2 = Some k)
               && negb (bool_decide (Some kp.1 = exclude)) = true)
            (map_to_list (products t))) by (rewrite Hf; left).
  apply list_elem_of_filter in Hin as [Hp Hin]. simpl in Hp.
  apply andb_true_iff in Hp as [Hk _]. apply bool_decide_eq_true in Hk.
  apply elem_of_map_to_list in Hin. exists p. split; assumption.
Qed.

Lemma insert_product_Return f name description price category stockQuantity
    sku d id d' :
  insert_product f name description price category stockQuantity sku d
  = (Return id, d') ->
  id = max_rowid (products (cur d)) + 1
  /\ products (cur d) !! id = None
  /\ (forall k, sku = Some k -> sku_owner (cur d) k None = None)
  /\ d' = {| cur := set_product (cur d) id
                      {| p_name := name; p_description := description;
                         p_price := price; p_category := category;
                         p_stockQuantity := stockQuantity; p_sku := sku;
                         p_status := available |};
             txn := txn d |}.
Proof.
  unfold insert_product, driver. destruct f; [discriminate|].
  unfold bind, get_cur.
  destruct (Js.str_falsy name); [discriminate|].
  destruct (is_nan _); [discriminate|].
  destruct (negb _); [discriminate|].
  destruct (_ <? 0); [discriminate|].
  assert (Hfresh : products (cur d) !! (max_rowid (products (cur d)) + 1) = None).
  { destruct (products (cur d) !! (max_rowid (products (cur d)) + 1)) eqn:E;
      [|reflexivity].
    apply max_rowid_bound in E. lia. }
  destruct sku as [k|].
  - destruct (bool_decide (is_Some (sku_owner (cur d) k None))) eqn:Hown;
      [discriminate|].
    apply bool_decide_eq_false in Hown. simpl. intros H. injection H as <- <-.
    split; [reflexivity|]. split; [exact Hfresh|]. split; [|reflexivity].
    intros k' [= <-]. destruct (sku_owner (cur d) k None) eqn:E; [|reflexivity].
    exfalso. apply Hown. eexists. reflexivity.
  - simpl. intros H. injection H as <- <-.
    split; [reflexivity|]. split; [exact Hfresh|]. split; [|reflexivity].
    intros k' H. discriminate H.
Qed.

(** What [ProductModel.create] has done when it resolves. *)
Lemma product_create_resolved ft productData d r d' :
  ProductModel.create ft productData d = (Return r, d') ->
  exists id row,
    products (cur d) !! id = None
    /\ p_status row = available
    /\ p_stockQuantity row
       = ProductModel.initial_stock (ProductModel.new_stockQuantity productData)
    /\ p_sku row = ProductModel.normalize_sku (ProductModel.new_sku productData)
    /\ (forall k, p_sku row = Some k -> sku_owner (cur d) k None = None)
    /\ d' = {| cur := set_product (cur d) id row; txn := txn d |}
    /\ r = Some (ProductModel.formatProductResponse id row).
Proof.
  unfold ProductModel.create, try_catch. cbv zeta.
  match goal with
  | |- match ?m d with _ => _ end = _ -> _ =>
      destruct (m d) as [[r0|e] d0] eqn:Hbody
  end.
  2: { destruct (Js.includes_text _ _); discriminate. }
  intros H. injection H as -> ->.
  apply bind_Return in Hbody as ([] & d1 & Hcheck & H).
  assert (d1 = d) as ->.
  { destruct (ProductModel.truthy_string _).
    - apply bind_Return in Hcheck as (b & d2 & Hu & Hcheck).
      pose proof (isSkuUnique_read_only (ft AtSkuCheck) s None d) as Hro.
      rewrite Hu in Hro. simpl in Hro. subst d2.
      destruct b; [|discriminate]. injection Hcheck as <-. reflexivity.
    - injection Hcheck as <-. reflexivity. }
  apply bind_Return in H as (id & d2 & Hins & H).
  apply insert_product_Return in Hins as (-> & Hfresh & Hown & ->).
  rewrite product_findById_run in H.
  destruct (ft AtReadBack); [discriminate|]. injection H as <- <-.
  exists (max_rowid (products (cur d)) + 1),
    {| p_name := Validation.cleanString (ProductModel.new_name productData);
       p_description :=
         Validation.cleanString <$> ProductModel.new_description productData;
       p_price := Js.parseFloat (ProductModel.new_price productData);
       p_category :=
         Validation.cleanString
           (default "general"
              (ProductModel.truthy_string
                 (ProductModel.new_category productData)));
       p_stockQuantity :=
         ProductModel.initial_stock
           (ProductModel.new_stockQuantity productData);
       p_sku := ProductModel.normalize_sku (ProductModel.new_sku productData);
       p_status := available |}.
  split; [exact Hfresh|].
  split; [reflexivity|]. split; [reflexivity|]. split; [reflexivity|].
  split; [exact Hown|]. split; [reflexivity|].
  simpl. rewrite lookup_insert_eq. reflexivity.
Qed.

Lemma sku_owner_new t id row k :
  p_sku row = Some k ->
  sku_owner t k None = None ->
  sku_owner (set_product t id row) k None = Some id.
Proof.
  intros Hk Hnone.
  destruct (sku_owner (set_product t id row) k None) as [id'|] eqn:Hown.
  - apply sku_owner_Some in Hown as (p' & Hp' & Hk'). simpl in Hp'.
    destruct (decide (id' = id)) as [->|Hne]; [reflexivity|].
    rewrite lookup_insert_ne in Hp' by (intros E; apply Hne; symmetry; exact E).
    pose proof (proj1 (sku_owner_None _ _ _) Hnone id' p' Hp' Hk') as E.
    discriminate E.
  - pose proof (proj1 (sku_owner_None _ _ _) Hown id row) as E.
    simpl in E. rewrite lookup_insert_eq in E.
    specialize (E eq_refl Hk). discriminate E.
Qed.

(** X15. A product that [ProductModel.create] has returned is in the
    table under an id that was free, with the status [available] whatever
    its stock (zero included), and [findById] and, for a sku that was
    given, [findBySku] with the sku as the caller wrote it return the
    same object. *)
Theorem created_product_is_found ft productData d r d' :
  ProductModel.create ft productData d = (Return r, d') ->
  exists id row,
    r = Some (id, row)
    /\ products (cur d) !! id = None
    /\ p_status row = available
    /\ ProductModel.findById None id d' = (Return r, d')
    /\ (forall sku,
          ProductModel.new_sku productData = Some sku ->
          Js.str_falsy sku = false ->
          ProductModel.findBySku None sku d' = (Return r, d')).
Proof.
  intros H.
  apply product_create_resolved in H
    as (id & row & Hfresh & Hst & _ & Hsku & Hown & -> & ->).
  exists id, (ProductModel.formatProductResponse id row).2.
  split; [reflexivity|]. split; [exact Hfresh|]. split; [exact Hst|].
  split.
  - rewrite product_findById_run. simpl. rewrite lookup_insert_eq. reflexivity.
  - intros sku Hgiven Htruthy.
    assert (Hk : p_sku row = Some (Js.trim (Js.toUpperCase sku))).
    { rewrite Hsku, Hgiven. unfold ProductModel.normalize_sku,
        ProductModel.truthy_string. rewrite Htruthy. reflexivity. }
    unfold ProductModel.findBySku, bind, select_product_by_sku. cbv zeta.
    rewrite query_run. cbn [cur].
    rewrite (sku_owner_new _ _ _ _ Hk (Hown _ Hk)).
    simpl. rewrite lookup_insert_eq. reflexivity.
Qed.

Lemma created_product_is_found_witness :
  exists id row,
    Some (2, {| p_name := "Keyboard"; p_description := None;
                p_price := 19.5%float; p_category := "general";
                p_stockQuantity := 0; p_sku := Some "AB-1";
                p_status := available |})
    = Some (id, row)
    /\ products (cur (shop (item 2499.99 3 available) ∅)) !! id = None
    /\ p_status row = available
    /\ ProductModel.findById None id
         (ProductModel.create reliable
            (product_request "Keyboard" 0 (Some " ab-1 "))
            (shop (item 2499.99 3 available) ∅)).2
       = (Return
            (Some (2, {| p_name := "Keyboard"; p_description := None;
                         p_price := 19.5%float; p_category := "general";
                         p_stockQuantity := 0; p_sku := Some "AB-1";
                         p_status := available |})),
          (ProductModel.create reliable
             (product_request "Keyboard" 0 (Some " ab-1 "))
             (shop (item 2499.99 3 available) ∅)).2)
    /\ (forall sku,
          ProductModel.new_sku (product_request "Keyboard" 0 (Some " ab-1 "))
          = Some sku ->
          Js.str_falsy sku = false ->
          ProductModel.findBySku None sku
            (ProductModel.create reliable
               (product_request "Keyboard" 0 (Some " ab-1 "))
               (shop (item 2499.99 3 available) ∅)).2
          = (Return
               (Some (2, {| p_name := "Keyboard"; p_description := None;
                            p_price := 19.5%float; p_category := "general";
                            p_stockQuantity := 0; p_sku := Some "AB-1";
                            p_status := available |})),
             (ProductModel.create reliable
                (product_request "Keyboard" 0 (Some " ab-1 "))
                (shop (item 2499.99 3 available) ∅)).2)).
Proof.
  apply (created_product_is_found reliable
           (product_request "Keyboard" 0 (Some " ab-1 "))
           (shop (item 2499.99 3 available) ∅)).
  vm_compute. reflexivity.
Defined.

(** X16. [discontinue] resolves on every product in the table, whatever
    orders are open for it (it never asks [hasPendingOrders]), and leaves
    the orders alone; afterwards no [create] for that product resolves. *)
Theorem discontinue_blocks_orders id d p :
  products (cur d) !! id = Some p ->
  exists d',
    ProductModel.discontinue reliable id d
    = (Return {| ProductModel.success := true;
                 ProductModel.message := "Product discontinued successfully" |},
       d')
    /\ orders (cur d') = orders (cur d)
    /\ (forall ft orderData r d'',
          OrderModel.product_id orderData = Some id ->
          OrderModel.create ft orderData d' <> (Return r, d'')).
Proof.
  intros Hp. eexists. split; [|split].
  - unfold ProductModel.discontinue, reliable.
    erewrite bind_run by (rewrite update_product_status_run, Hp; reflexivity).
    reflexivity.
  - reflexivity.
  - intros ft orderData r d'' Hid H.
    apply create_resolved_can_order in H
      as (_ & uid & pid & q & u & p' & _ & _ & Hpid & _ & _ & _ & _ & _
          & Hrow & Hst & _).
    rewrite Hid in Hpid. injection Hpid as <-.
    simpl in Hrow. rewrite lookup_insert_eq in Hrow. injection Hrow as <-.
    discriminate Hst.
Qed.

Lemma discontinue_blocks_orders_witness :
  exists d',
    ProductModel.discontinue reliable 1
      (shop (item 2499.99 3 available)
         {[ 1 := placed 2 2499.99 4999.98 pending None ]})
    = (Return {| ProductModel.success := true;
                 ProductModel.message := "Product discontinued successfully" |},
       d')
    /\ orders (cur d')
       = orders (cur (shop (item 2499.99 3 available)
                        {[ 1 := placed 2 2499.99 4999.98 pending None ]}))
    /\ (forall ft orderData r d'',
          OrderModel.product_id orderData = Some 1 ->
          OrderModel.create ft orderData d' <> (Return r, d'')).
Proof.
  apply (discontinue_blocks_orders 1 _ (item 2499.99 3 available)).
  vm_compute. reflexivity.
Defined.

(** X17. [hasPendingOrders] never fails on a database that executes the
    query, writes nothing, and answers [true] exactly when some order for
    the product is pending or confirmed. *)
Theorem hasPendingOrders_sees_open_orders product_id d :
  exists b,
    ProductModel.hasPendingOrders None product_id d = (Return b, d)
    /\ (b = true
        <-> exists id o,
              orders (cur d) !! id = Some o
              /\ o_product_id o = product_id
              /\ (o_status o = pending \/ o_status o = confirmed)).
Proof.
  unfold ProductModel.hasPendingOrders, bind, count_open_orders.
  rewrite query_run. eexists. split; [reflexivity|].
  rewrite Z.ltb_lt. split.
  - intros Hpos.
    destruct (filter _ (map_to_list (orders (cur d)))) as [|[id o] l] eqn:Hf;
      [simpl in Hpos; lia|].
    assert (Hin : (id, o) ∈ filter
              (fun ko : Z * order =>
                 o_product_id ko.2 = product_id
                 /\ (o_status ko.2 = pending \/ o_status ko.2 = confirmed))
              (map_to_list (orders (cur d)))) by (rewrite Hf; left).
    apply list_elem_of_filter in Hin as [[Hid Hopen] Hin].
    apply elem_of_map_to_list in Hin. exists id, o. auto.
  - intros (id & o & Ho & Hid & Hopen).
    assert (Hin : (id, o) ∈ filter
              (fun ko : Z * order =>
                 o_product_id ko.2 = product_id
                 /\ (o_status ko.2 = pending \/ o_status ko.2 = confirmed))
              (map_to_list (orders (cur d)))).
    { apply list_elem_of_filter. split; [split; assumption|].
      apply elem_of_map_to_list, Ho. }
    destruct (filter _ _) as [|x l]; [inversion Hin|]. simpl. lia.
Qed.

(* ===================================================================== *)
(** * Calls that reject *)
(* ===================================================================== *)

Lemma findByIdWithDetails_returns id d :
  exists r, OrderModel.findByIdWithDetails None id d = (Return r, d).
Proof.
  unfold OrderModel.findByIdWithDetails, bind, select_order_details.
  rewrite query_run. eexists. reflexivity.
Qed.

Lemma updateStatus_rejected ft id status notes d e d' :
  ft AtReadBack = None ->
  OrderModel.updateStatus ft id status notes d = (Throw e, d') -> d' = d.
Proof.
  intros Hread H.
  destruct (ft AtLookup) as [e0|] eqn:Hl.
  { unfold OrderModel.updateStatus, bind in H.
    rewrite order_findById_run, Hl in H. injection H as _ <-. reflexivity. }
  destruct (orders (cur d) !! id) as [o|] eqn:Ho.
  - rewrite (updateStatus_run _ _ _ _ _ _ Ho Hl) in H.
    destruct (OrderModel.includes _ _); [|injection H as _ <-; reflexivity].
    destruct (ft AtWrite); [injection H as _ <-; reflexivity|].
    destruct (order_status_of_text status);
      [|injection H as _ <-; reflexivity].
    rewrite Hread in H.
    match type of H with
    | OrderModel.findByIdWithDetails None ?i ?dd = _ =>
        destruct (findByIdWithDetails_returns i dd) as (r & Hr)
    end.
    rewrite Hr in H. discriminate H.
  - unfold OrderModel.updateStatus, bind in H.
    rewrite order_findById_run, Hl, Ho in H. injection H as _ <-. reflexivity.
Qed.

Lemma update_rejected ft id u d e d' :
  ft AtReadBack = None ->
  ProductModel.update ft id u d = (Throw e, d') -> d' = d.
Proof.
  intros Hread. unfold ProductModel.update. unfold bind at 1.
  rewrite product_findById_run.
  destruct (ft AtLookup); [intros H; injection H as _ <-; reflexivity|].
  destruct (products (cur d) !! id) as [p|] eqn:Hp;
    [|intros H; injection H as _ <-; reflexivity].
  cbn [fmap option_fmap option_map]. cbv zeta. unfold bind at 1.
  match goal with
  | |- match ?m d with _ => _ end = _ -> _ =>
      assert (Hcheck : (exists msg, m d = (Throw msg, d))
                       \/ m d = (Return tt, d))
  end.
  { destruct (set_sku _) as [[k|]|]; try (right; reflexivity).
    unfold bind.
    pose proof (isSkuUnique_read_only (ft AtSkuCheck) k (Some id) d) as Hro.
    destruct (Validation.isSkuUnique _ _ _ d) as [[[]|msg] d1];
      simpl in Hro; subst d1; [right|left; eexists|left; eexists];
      reflexivity. }
  destruct Hcheck as [(msg & ->)| ->];
    [intros H; injection H as _ <-; reflexivity|].
  destruct (patch_is_empty _); [intros H; injection H as _ <-; reflexivity|].
  unfold bind.
  destruct (update_product (ft AtWrite) (ProductModel.sanitizedData u) id d)
    as [[changes|msg] d1] eqn:Hupd.
  - destruct (Z.eqb_spec changes 0) as [->|Hne].
    + intros H. injection H as _ <-.
      unfold update_product, driver in Hupd.
      destruct (ft AtWrite); [discriminate|].
      unfold bind, get_cur in Hupd. rewrite Hp in Hupd. cbv zeta in Hupd.
      repeat match type of Hupd with
             | (if ?b then _ else _) _ = _ => destruct b; [discriminate|]
             | (match ?x with _ => _ end) _ = _ => destruct x; [|discriminate]
             end.
      discriminate Hupd.
    + rewrite product_findById_run, Hread. discriminate.
  - intros H. injection H as _ <-.
    unfold update_product, driver in Hupd.
    destruct (ft AtWrite); [injection Hupd as _ <-; reflexivity|].
    unfold bind, get_cur in Hupd. rewrite Hp in Hupd. cbv zeta in Hupd.
    repeat match type of Hupd with
           | (if ?b then _ else _) _ = _ =>
               destruct b; [injection Hupd as _ <-; reflexivity|]
           | (match ?x with _ => _ end) _ = _ =>
               destruct x; [|injection Hupd as _ <-; reflexivity]
           end.
    discriminate Hupd.
Qed.

Lemma insert_product_rejected f name description price category
    stockQuantity sku d e d' :
  insert_product f name description price category stockQuantity sku d
  = (Throw e, d') -> d' = d.
Proof.
  unfold insert_product, driver. destruct f; [intros H; injection H as _ <-; reflexivity|].
  unfold bind, get_cur.
  repeat match goal with
         | |- (if ?b then _ else _) _ = _ -> _ =>
             destruct b; [intros H; injection H as _ <-; reflexivity|]
         end.
  discriminate.
Qed.

Lemma product_create_rejected ft productData d e d' :
  ft AtReadBack = None ->
  ProductModel.create ft productData d = (Throw e, d') -> d' = d.
Proof.
  intros Hread. unfold ProductModel.create, try_catch. cbv zeta.
  match goal with
  | |- match ?m d with _ => _ end = _ -> _ =>
      assert (Hbody : forall msg d1, m d = (Throw msg, d1) -> d1 = d)
  end.
  { intros msg d1. unfold bind at 1.
    match goal with
    | |- match ?m d with _ => _ end = _ -> _ =>
        assert (Hcheck : (exists msg, m d = (Throw msg, d))
                         \/ m d = (Return tt, d))
    end.
    { destruct (ProductModel.truthy_string _) as [k|]; [|right; reflexivity].
      unfold bind.
      pose proof (isSkuUnique_read_only (ft AtSkuCheck) k None d) as Hro.
      destruct (Validation.isSkuUnique _ _ _ d) as [[[]|msg0] d2];
        simpl in Hro; subst d2; [right|left; eexists|left; eexists];
        reflexivity. }
    destruct Hcheck as [(msg0 & ->)| ->];
      [intros H; injection H as _ <-; reflexivity|].
    unfold bind.
    match goal with
    | |- match ?m with _ => _ end = _ -> _ =>
        destruct m as [[id|msg0] d2] eqn:Hins
    end.
    - rewrite product_findById_run, Hread. discriminate.
    - intros H. injection H as _ <-.
      apply insert_product_rejected in Hins. exact Hins. }
  match goal with
  | |- match ?m d with _ => _ end = _ -> _ =>
      destruct (m d) as [[r|msg] d1]
  end; [discriminate|].
  specialize (Hbody msg d1 eq_refl). subst d1.
  destruct (Js.includes_text _ _); intros H; injection H as _ <-; reflexivity.
Qed.

Lemma discontinue_rejected ft id d e d' :
  ProductModel.discontinue ft id d = (Throw e, d') -> d' = d.
Proof.
  unfold ProductModel.discontinue, bind. rewrite update_product_status_run.
  destruct (ft AtWrite); [intros H; injection H as _ <-; reflexivity|].
  destruct (products (cur d) !! id);
    [discriminate|intros H; injection H as _ <-; reflexivity].
Qed.

(** X18. The methods that issue one writing statement without a
    transaction ([updateStatus], [ProductModel.update],
    [ProductModel.create], [discontinue]) write nothing when they reject,
    provided the read that follows the statement is executed. *)
Theorem rejected_calls_write_nothing ft d :
  ft AtReadBack = None ->
  (forall id status notes e d',
     OrderModel.updateStatus ft id status notes d = (Throw e, d') -> d' = d)
  /\ (forall id updateData e d',
        ProductModel.update ft id updateData d = (Throw e, d') -> d' = d)
  /\ (forall productData e d',
        ProductModel.create ft productData d = (Throw e, d') -> d' = d)
  /\ (forall id e d',
        ProductModel.discontinue ft id d = (Throw e, d') -> d' = d).
Proof.
  intros Hread. split; [|split; [|split]].
  - intros id status notes e d'. apply updateStatus_rejected, Hread.
  - intros id u e d'. apply update_rejected, Hread.
  - intros productData e d'. apply product_create_rejected, Hread.
  - intros id e d'. apply discontinue_rejected.
Qed.

Lemma rejected_calls_write_nothing_witness :
  (ProductModel.update (fail_at AtWrite "SQLITE_BUSY") 1
     (only_stock (Js.jsint 7)) (shop (item 2499.99 3 available) ∅)).2
  = shop (item 2499.99 3 available) ∅.
Proof.
  destruct (rejected_calls_write_nothing (fail_at AtWrite "SQLITE_BUSY")
              (shop (item 2499.99 3 available) ∅) eq_refl)
    as (_ & H & _).
  apply (H 1 (only_stock (Js.jsint 7)) "SQLITE_BUSY").
  vm_compute. reflexivity.
Defined.

(** X19. A call of [cancel] that rejects leaves the tables and the
    connection as they were, whichever statement failed, provided the
    ROLLBACK and the final read of the order are executed: the status
    written before a failure of the stock update or of the COMMIT is taken
    back. *)
Theorem cancel_failure_changes_nothing ft id reason d e d' :
  txn d = None ->
  ft AtRollback = None ->
  ft AtReadBack = None ->
  OrderModel.cancel ft id reason d = (Throw e, d') ->
  d' = d.
Proof.
  intros Ht Hrb Hread. destruct d as [c t]. simpl in Ht. subst t.
  unfold OrderModel.cancel. cbv zeta. unfold bind at 1.
  rewrite order_findById_run.
  destruct (ft AtLookup); [intros H; injection H as _ <-; reflexivity|].
  cbn [cur]. destruct (orders c !! id) as [o|] eqn:Ho;
    [|intros H; injection H as _ <-; reflexivity].
  cbn [fmap option_fmap option_map OrderModel.formatOrderResponse].
  cbv beta iota.
  destruct (bool_decide _); [intros H; injection H as _ <-; reflexivity|].
  destruct (bool_decide _); [intros H; injection H as _ <-; reflexivity|].
  unfold bind at 1. rewrite beginTransaction_run. cbn [txn cur].
  destruct (ft AtBegin); [intros H; injection H as _ <-; reflexivity|].
  unfold try_catch.
  assert (Hroll : forall (msg : string) c',
    (do rollbackTransaction (ft AtRollback) then throw msg)
      {| cur := c'; txn := Some c |}
    = (@Throw (option order_details) msg, {| cur := c; txn := None |})).
  { intros msg c'. rewrite Hrb. reflexivity. }
  unfold bind at 1. rewrite update_order_status_run.
  destruct (ft AtWrite).
  { cbv beta iota. rewrite Hroll. intros H. injection H as _ <-. reflexivity. }
  cbn [cur]. rewrite Ho. cbn [order_status_of_text String.eqb Ascii.eqb Bool.eqb].
  cbv beta iota.
  unfold bind at 1. rewrite restore_stock_run.
  destruct (ft AtWriteStock).
  { cbv beta iota. rewrite Hroll. intros H. injection H as _ <-. reflexivity. }
  cbn [cur set_order products].
  assert (Hcommit : forall c',
    (let (o0, d'0) :=
       bind (commitTransaction (ft AtCommit))
         (fun _ => OrderModel.findByIdWithDetails (ft AtReadBack) id)
         {| cur := c'; txn := Some c |} in
     match o0 with
     | Return a => (Return a, d'0)
     | Throw e0 =>
         (do rollbackTransaction (ft AtRollback) then throw e0) d'0
     end) = (Throw e, d') -> d' = {| cur := c; txn := None |}).
  { intros c'. unfold bind at 1.
    rewrite (commit_open _ _ c) by reflexivity.
    destruct (ft AtCommit).
    { rewrite Hroll. intros H. injection H as _ <-. reflexivity. }
    rewrite Hread.
    match goal with
    | |- context [OrderModel.findByIdWithDetails None ?i ?dd] =>
        destruct (findByIdWithDetails_returns i dd) as (r & ->)
    end.
    discriminate. }
  destruct (products c !! _) as [p|].
  - destruct (_ <? 0).
    { cbv beta iota. rewrite Hroll. intros H. injection H as _ <-.
      reflexivity. }
    cbv beta iota. apply Hcommit.
  - cbv beta iota. apply Hcommit.
Qed.

Lemma cancel_failure_changes_nothing_witness :
  (OrderModel.cancel (fail_at AtWriteStock "SQLITE_BUSY") 1 None
     (shop (item 2499.99 3 available)
        {[ 1 := placed 2 2499.99 4999.98 pending None ]})).2
  = shop (item 2499.99 3 available)
      {[ 1 := placed 2 2499.99 4999.98 pending None ]}.
Proof.
  apply (cancel_failure_changes_nothing
           (fail_at AtWriteStock "SQLITE_BUSY") 1 None
           (shop (item 2499.99 3 available)
              {[ 1 := placed 2 2499.99 4999.98 pending None ]})
           "SQLITE_BUSY").
  - reflexivity.
  - reflexivity.
  - reflexivity.
  - vm_compute. reflexivity.
Defined.

(* ===================================================================== *)
(** * The low-stock report *)
(* ===================================================================== *)

Lemma by_stock_total : Total by_stock.
Proof. intros a b. unfold by_stock. lia. Qed.

Lemma NoDup_fst_filter {A} (P : Z * A -> Prop) `{!forall x, Decision (P x)}
    (l : list (Z * A)) :
  NoDup l.*1 -> NoDup (filter P l).*1.
Proof.
  induction l as [|x l IH]; intros Hl; [constructor|].
  rewrite fmap_cons in Hl. apply NoDup_cons in Hl as [Hx Hl].
  rewrite filter_cons. destruct (decide (P x)); [|apply IH, Hl].
  rewrite fmap_cons. apply NoDup_cons. split; [|apply IH, Hl].
  intros Hin. apply Hx. apply list_elem_of_fmap in Hin as (y & -> & Hy).
  apply list_elem_of_fmap. exists y. split; [reflexivity|].
  apply list_elem_of_filter in Hy as [_ Hy]. exact Hy.
Qed.

(** X21. [getLowStockProducts] on a database that executes the query: the
    report is in ascending order of stock, it lists no product twice, and
    it holds exactly the products with at most [threshold] (10 when
    omitted) in stock that are not discontinued, each as
    [formatProductResponse] shows it. *)
Theorem low_stock_report threshold d :
  exists report,
    ProductModel.getLowStockProducts None threshold d = (Return report, d)
    /\ Sorted (fun a b : Z * product =>
                 p_stockQuantity a.2 <= p_stockQuantity b.2) report
    /\ NoDup report.*1
    /\ (forall id row,
          (id, row) ∈ report
          <-> exists p,
                products (cur d) !! id = Some p
                /\ p_stockQuantity p <= default 10 threshold
                /\ p_status p <> discontinued
                /\ row = (ProductModel.formatProductResponse id p).2).
Proof.
  unfold ProductModel.getLowStockProducts, bind, select_low_stock. cbv zeta.
  rewrite query_run. eexists. split; [reflexivity|]. split; [|split].
  - apply (Sorted_fmap _ by_stock);
      [|apply (@Sorted_merge_sort _ by_stock _ by_stock_total)].
    intros a b H. simpl. unfold by_stock in H. lia.
  - rewrite <- list_fmap_compose.
    assert (E : (fst ∘ (fun kp : Z * product =>
                   ProductModel.formatProductResponse kp.1 kp.2))
                = (fst : Z * product -> Z)) by reflexivity.
    rewrite E, merge_sort_Permutation.
    apply NoDup_fst_filter, NoDup_fst_map_to_list.
  - intros id row. rewrite list_elem_of_fmap. split.
    + intros ([id' p] & E & Hin). injection E as -> ->.
      rewrite merge_sort_Permutation in Hin.
      apply list_elem_of_filter in Hin as [[Hlow Hst] Hin].
      apply elem_of_map_to_list in Hin. exists p. auto.
    + intros (p & Hp & Hlow & Hst & ->). exists (id, p).
      split; [reflexivity|]. rewrite merge_sort_Permutation.
      apply list_elem_of_filter. split; [split; assumption|].
      apply elem_of_map_to_list, Hp.
Qed.

(* ===================================================================== *)
(** * The sanitizers *)
(* ===================================================================== *)

Lemma remove_chars_removes bad s :
  Forall (fun c => bad c = false)
    (String.list_ascii_of_string (Js.remove_chars bad s)).
Proof.
  induction s as [|c s IH]; simpl; [constructor|].
  destruct (bad c) eqn:Hc; [exact IH|]. simpl. constructor; assumption.
Qed.

Lemma cleanString_clean s : clean_text (Validation.cleanString s).
Proof. apply remove_chars_removes. Qed.

Lemma clean_catalogue_set_product t id p p' :
  clean_catalogue t ->
  products t !! id = Some p ->
  (clean_text (p_name p) -> clean_text (p_name p'))
  /\ (clean_text (p_category p) -> clean_text (p_category p'))
  /\ ((forall s, p_description p = Some s -> clean_text s) ->
      forall s, p_description p' = Some s -> clean_text s) ->
  clean_catalogue (set_product t id p').
Proof.
  intros Ht Hp (Hn & Hc & Hd) id' q Hq. simpl in Hq.
  destruct (decide (id' = id)) as [->|Hne].
  - rewrite lookup_insert_eq in Hq. injection Hq as <-.
    destruct (Ht id p Hp) as (? & ? & ?). auto.
  - rewrite lookup_insert_ne in Hq by (intros E; apply Hne; symmetry; exact E).
    exact (Ht id' q Hq).
Qed.

Lemma clean_catalogue_stock_stable : stock_stable clean_catalogue.
Proof.
  intros t id p stock st Ht Hp _.
  apply (clean_catalogue_set_product t id p); [exact Ht|exact Hp|].
  simpl. auto.
Qed.

Lemma clean_catalogue_relabel_stable : relabel_stable clean_catalogue.
Proof.
  intros t id p st Ht Hp.
  apply (clean_catalogue_set_product t id p); [exact Ht|exact Hp|].
  simpl. auto.
Qed.

Lemma clean_catalogue_status_stable : status_stable clean_catalogue.
Proof. intros t id o s notes Ht _. exact Ht. Qed.

Lemma clean_catalogue_insert_stable : insert_stable clean_catalogue.
Proof.
  intros t user_id product_id quantity unit_price total_price notes u p
    Ht _ Hp _ _.
  apply (clean_catalogue_set_product
           {| users := users t; products := products t;
              orders := <[Z.max (orders_seq t) (max_rowid (orders t)) + 1 :=
                            {| o_user_id := user_id;
                               o_product_id := product_id;
                               o_quantity := quantity;
                               o_unit_price := unit_price;
                               o_total_price := total_price;
                               o_status := pending; o_notes := notes |}]>
                          (orders t);
              orders_seq := Z.max (orders_seq t) (max_rowid (orders t)) + 1 |}
           product_id p (update_stock_on_order p quantity));
    [exact Ht|exact Hp|].
  simpl. auto.
Qed.

Lemma clean_catalogue_update f u id :
  maintains (everywhere clean_catalogue)
    (update_product f (ProductModel.sanitizedData u) id).
Proof.
  apply everywhere_statement. intros d.
  unfold update_product, driver. destruct f; [split; [reflexivity|auto]|].
  unfold bind, get_cur.
  destruct (products (cur d) !! id) as [p|] eqn:Hp;
    [|split; [reflexivity|auto]].
  cbv zeta.
  repeat match goal with
         | |- context [(if ?b then _ else _) d] =>
             destruct b; [split; [reflexivity|auto]|]
         | |- context [(match ?x with Some _ => _ | None => _ end) d] =>
             destruct x; [|split; [reflexivity|auto]]
         end.
  simpl. split; [reflexivity|]. intros Ht.
  apply (clean_catalogue_set_product (cur d) id p); [exact Ht|exact Hp|].
  simpl. split; [|split].
  - intros Hold. destruct (ProductModel.truthy_string (ProductModel.upd_name u));
      simpl; [apply cleanString_clean|exact Hold].
  - intros Hold.
    destruct (ProductModel.truthy_string (ProductModel.upd_category u));
      simpl; [apply cleanString_clean|exact Hold].
  - intros Hold s.
    destruct (ProductModel.upd_description u) as [[s'|]|]; simpl.
    + intros [= <-]. apply cleanString_clean.
    + discriminate.
    + apply Hold.
Qed.

Lemma clean_catalogue_insert f name description category price stockQuantity
    sku :
  maintains (everywhere clean_catalogue)
    (insert_product f (Validation.cleanString name)
       (Validation.cleanString <$> description) price
       (Validation.cleanString category) stockQuantity sku).
Proof.
  apply everywhere_statement. intros d.
  unfold insert_product, driver. destruct f; [split; [reflexivity|auto]|].
  unfold bind, get_cur.
  repeat match goal with
         | |- context [(if ?b then _ else _) d] =>
             destruct b; [split; [reflexivity|auto]|]
         end.
  simpl. split; [reflexivity|]. intros Ht id' q Hq. simpl in Hq.
  destruct (decide (id' = max_rowid (products (cur d)) + 1)) as [->|Hne].
  - rewrite lookup_insert_eq in Hq. injection Hq as <-. simpl.
    split; [apply cleanString_clean|]. split; [apply cleanString_clean|].
    intros s. destruct description; simpl; [|discriminate].
    intros [= <-]. apply cleanString_clean.
  - rewrite lookup_insert_ne in Hq by (intros E; apply Hne; symmetry; exact E).
    exact (Ht id' q Hq).
Qed.

(** X22. If no product in the table has one of the characters [<], [>],
    double quote or single quote in its name, category or description,
    then none has after any sequence of calls of the models: every text
    that [ProductModel.create] and [ProductModel.update] store has been
    through [cleanString]. *)
Theorem catalogue_text_stays_clean acts d :
  txn d = None ->
  clean_catalogue (cur d) ->
  clean_catalogue (cur (act_all d acts)).
Proof.
  intros Htxn Hclean.
  assert (H : everywhere clean_catalogue (act_all d acts)).
  { assert (Hd : everywhere clean_catalogue d)
      by (split; [exact Hclean|rewrite Htxn; discriminate]).
    clear Htxn Hclean. revert d Hd.
    induction acts as [|a acts IH]; intros d Hd; [exact Hd|].
    simpl. apply IH. destruct a as [[]| |]; simpl.
    - apply create_keeps; [apply clean_catalogue_insert_stable|exact Hd].
    - apply updateStatus_keeps; [apply clean_catalogue_status_stable|exact Hd].
    - apply cancel_keeps;
        [apply clean_catalogue_status_stable
        |apply clean_catalogue_stock_stable|exact Hd].
    - apply updateStock_keeps; [apply clean_catalogue_stock_stable|exact Hd].
    - revert d Hd.
      pose proof (clean_catalogue_update (ft AtWrite) updateData id).
      unfold ProductModel.update. keep.
    - revert d Hd.
      pose proof (fun name description category price stockQuantity sku =>
        clean_catalogue_insert (ft AtWrite) name description category price
          stockQuantity sku).
      unfold ProductModel.create. keep.
    - apply discontinue_keeps;
        [apply clean_catalogue_relabel_stable|exact Hd]. }
  destruct H as [H _]. exact H.
Qed.

Lemma shop_clean_catalogue :
  clean_catalogue (cur (shop (item 2499.99 3 available) ∅)).
Proof.
  intros id p Hp. simpl in Hp.
  apply lookup_singleton_Some in Hp as [_ <-].
  split; [|split].
  - unfold clean_text. simpl. repeat constructor.
  - unfold clean_text. simpl. repeat constructor.
  - intros s Hs. discriminate Hs.
Qed.

Lemma catalogue_text_stays_clean_witness :
  clean_catalogue
    (cur (act_all (shop (item 2499.99 3 available) ∅)
            [ CreateProduct reliable
                (product_request "<b>Mouse</b>" 4 (Some "ab-1"));
              Call (UpdateProduct reliable 1
                      {| ProductModel.upd_name := Some "Mac'Book";
                         ProductModel.upd_description :=
                           Some (Some "<script>");
                         ProductModel.upd_price := None;
                         ProductModel.upd_category := None;
                         ProductModel.upd_stockQuantity := None;
                         ProductModel.upd_status := None;
                         ProductModel.upd_sku := None |}) ])).
Proof.
  apply catalogue_text_stays_clean.
  - reflexivity.
  - apply shop_clean_catalogue.
Defined.

Lemma remove_chars_idempotent bad s :
  Js.remove_chars bad (Js.remove_chars bad s) = Js.remove_chars bad s.
Proof.
  induction s as [|c s IH]; simpl; [reflexivity|].
  destruct (bad c) eqn:Hc; [exact IH|]. simpl. rewrite Hc, IH. reflexivity.
Qed.

Lemma Forall_chars_rev_app (Q : ascii -> Prop) s r :
  Forall Q (String.list_ascii_of_string s) ->
  Forall Q (String.list_ascii_of_string r) ->
  Forall Q (String.list_ascii_of_string (String.rev_app s r)).
Proof.
  revert r. induction s as [|c s IH]; intros r Hs Hr; [exact Hr|].
  simpl in Hs. apply Forall_cons in Hs as [Hc Hs].
  simpl. apply IH; [exact Hs|]. simpl. constructor; assumption.
Qed.

Lemma Forall_chars_rev (Q : ascii -> Prop) s :
  Forall Q (String.list_ascii_of_string s) ->
  Forall Q (String.list_ascii_of_string (String.rev s)).
Proof.
  intros H. apply Forall_chars_rev_app; [exact H|constructor].
Qed.

Lemma Forall_chars_trim_start (Q : ascii -> Prop) s :
  Forall Q (String.list_ascii_of_string s) ->
  Forall Q (String.list_ascii_of_string (Js.trim_start s)).
Proof.
  induction s as [|c s IH]; intros H; [exact H|].
  simpl. destruct (Js.is_space c); [|exact H].
  simpl in H. apply Forall_cons in H as [_ H]. apply IH, H.
Qed.

Lemma Forall_chars_trim (Q : ascii -> Prop) s :
  Forall Q (String.list_ascii_of_string s) ->
  Forall Q (String.list_ascii_of_string (Js.trim s)).
Proof.
  intros H. unfold Js.trim.
  apply Forall_chars_rev, Forall_chars_trim_start, Forall_chars_rev,
    Forall_chars_trim_start, H.
Qed.

Lemma lower_char_lower c : Js.lower_char (Js.lower_char c) = Js.lower_char c.
Proof.
  destruct c as [[] [] [] [] [] [] [] []]; reflexivity.
Qed.

Lemma toLowerCase_lower s :
  Forall (fun c => Js.lower_char c = c)
    (String.list_ascii_of_string (Js.toLowerCase s)).
Proof.
  induction s as [|c s IH]; simpl; [constructor|].
  constructor; [apply lower_char_lower|exact IH].
Qed.

(** X23. [formatPhone] returns digits only, and formatting a formatted
    phone number changes nothing; [cleanString] returns a text without
    [<], [>] and the two quotes; [normalizeEmail] returns a text without
    upper-case letters. *)
Theorem sanitizers_remove_their_characters :
  (forall phone,
     Forall (fun c => Js.is_digit c = true)
       (String.list_ascii_of_string (Validation.formatPhone phone))
     /\ Validation.formatPhone (Validation.formatPhone phone)
        = Validation.formatPhone phone)
  /\ (forall str, clean_text (Validation.cleanString str))
  /\ (forall email,
        Forall (fun c => Js.lower_char c = c)
          (String.list_ascii_of_string (Validation.normalizeEmail email))).
Proof.
  split; [|split; [apply cleanString_clean|]].
  2: { intros email. apply Forall_chars_trim, toLowerCase_lower. }
  intros phone. unfold Validation.formatPhone.
  destruct (Js.str_falsy phone) eqn:Hf.
  - rewrite Hf. destruct phone; [|discriminate Hf]. split; [constructor|].
    reflexivity.
  - split.
    + eapply Forall_impl; [apply remove_chars_removes|].
      intros c Hc. unfold Validation.non_digit in Hc.
      apply negb_false_iff in Hc. exact Hc.
    + destruct (Js.str_falsy (Js.remove_chars Validation.non_digit phone));
        [reflexivity|apply remove_chars_idempotent].
Qed.

(* ===================================================================== *)
(** * Discontinued products and the order workflow *)
(* ===================================================================== *)

Lemma create_checks_available ft orderData d uid pid qn snap d1 :
  OrderModel.create_checks ft orderData d = (Return (uid, pid, qn, snap), d1) ->
  exists p, products (cur d) !! pid = Some p /\ p_status p = available.
Proof.
  intros Hchecks. unfold OrderModel.create_checks in Hchecks.
  destruct (OrderModel.user_id orderData) as [uid'|]; [|discriminate].
  destruct (OrderModel.product_id orderData) as [pid'|]; [|discriminate].
  destruct (OrderModel.quantity orderData) as [q|]; [|discriminate].
  destruct (_ || _); [discriminate|]. cbv zeta in Hchecks.
  destruct (Js.parseInt q <=? 0); [discriminate|].
  apply bind_Return in Hchecks as (b & d2 & Hu & Hchecks).
  destruct b; [|discriminate]. cbn [negb] in Hchecks.
  pose proof (userExists_read_only (ft AtValidateUser) uid' d) as Hro.
  rewrite Hu in Hro. simpl in Hro. subst d2.
  apply bind_Return in Hchecks as (av & d3 & Hav & Hchecks).
  destruct av as [reason|snap']; [discriminate|].
  apply productAvailable_Available in Hav as (p & Hp & Hst & _).
  apply bind_Return in Hchecks as ([] & d4 & _ & Hret).
  injection Hret as _ <- _ _ _. exists p. split; assumption.
Qed.

Section Discontinued.

Variable id0 : Z.

Lemma is_discontinued_same_products t t' :
  products t' = products t -> is_discontinued id0 t -> is_discontinued id0 t'.
Proof. intros E (p & Hp & Hst). exists p. rewrite E. split; assumption. Qed.

Lemma is_discontinued_status_stable : status_stable (is_discontinued id0).
Proof.
  intros t id o s notes H _.
  apply (is_discontinued_same_products t); [reflexivity|exact H].
Qed.

Lemma is_discontinued_restore_stock f quantity1 quantity2 product_id :
  maintains (everywhere (is_discontinued id0))
    (restore_stock f quantity1 quantity2 product_id).
Proof.
  apply everywhere_statement. intros d. rewrite restore_stock_run.
  destruct f; [split; [reflexivity|auto]|].
  destruct (products (cur d) !! product_id) as [p|] eqn:Hp;
    [|split; [reflexivity|auto]].
  destruct (_ <? 0); [split; [reflexivity|auto]|].
  simpl. split; [reflexivity|]. intros (p0 & Hp0 & Hst).
  unfold is_discontinued. simpl.
  destruct (decide (product_id = id0)) as [->|Hne].
  - rewrite Hp in Hp0. injection Hp0 as <-.
    eexists. split; [apply lookup_insert_eq|]. simpl.
    rewrite Hst. reflexivity.
  - exists p0. rewrite lookup_insert_ne by exact Hne. split; assumption.
Qed.

Lemma is_discontinued_relabel f id :
  maintains (everywhere (is_discontinued id0))
    (update_product_status f discontinued id).
Proof.
  apply everywhere_statement. intros d. rewrite update_product_status_run.
  destruct f; [split; [reflexivity|auto]|].
  destruct (products (cur d) !! id) as [p|] eqn:Hp;
    [|split; [reflexivity|auto]].
  simpl. split; [reflexivity|]. intros (p0 & Hp0 & Hst).
  unfold is_discontinued. simpl.
  destruct (decide (id = id0)) as [->|Hne].
  - eexists. split; [apply lookup_insert_eq|]. reflexivity.
  - exists p0. rewrite lookup_insert_ne by exact Hne. split; assumption.
Qed.

Lemma is_discontinued_insert_product f name description price category
    stockQuantity sku :
  maintains (everywhere (is_discontinued id0))
    (insert_product f name description price category stockQuantity sku).
Proof.
  apply everywhere_statement. intros d.
  destruct (insert_product_effect f name description price category
              stockQuantity sku d)
    as [Htxn [Hsame|(p' & Hfresh & _ & _ & Hcur)]].
  - split; [exact Htxn|]. rewrite Hsame. auto.
  - split; [exact Htxn|]. rewrite Hcur. intros (p0 & Hp0 & Hst).
    exists p0. simpl. split; [|exact Hst].
    rewrite lookup_insert_ne; [exact Hp0|].
    intros E. rewrite E in Hfresh. rewrite Hfresh in Hp0. discriminate Hp0.
Qed.

Lemma is_discontinued_insert_order f user_id product_id quantity unit_price
    total_price notes :
  product_id <> id0 ->
  maintains (everywhere (is_discontinued id0))
    (insert_order f user_id product_id quantity unit_price total_price notes).
Proof.
  intros Hne. apply everywhere_statement. intros d.
  destruct (insert_order_effect f user_id product_id quantity unit_price
              total_price notes d)
    as [Htxn [Hsame|(u & p & _ & _ & _ & _ & Hcur)]].
  - split; [exact Htxn|]. rewrite Hsame. auto.
  - split; [exact Htxn|]. rewrite Hcur. intros (p0 & Hp0 & Hst).
    exists p0. simpl. rewrite lookup_insert_ne by exact Hne.
    split; assumption.
Qed.

Lemma create_keeps_discontinued ft orderData :
  maintains (everywhere (is_discontinued id0))
    (OrderModel.create ft orderData).
Proof.
  intros d Hd.
  assert (Hchecked : everywhere (is_discontinued id0)
                       (OrderModel.create_checks ft orderData d).2).
  { assert (Hm : maintains (everywhere (is_discontinued id0))
                   (OrderModel.create_checks ft orderData))
      by (unfold OrderModel.create_checks; keep).
    apply Hm, Hd. }
  unfold OrderModel.create, bind.
  destruct (OrderModel.create_checks ft orderData d)
    as [[[[[uid pid] qn] snap]|e] d1] eqn:Hchecks; [|exact Hchecked].
  apply create_checks_available in Hchecks as (p & Hp & Hst).
  assert (Hne : pid <> id0).
  { intros ->. destruct Hd as [(p0 & Hp0 & Hst0) _].
    rewrite Hp in Hp0. injection Hp0 as <-. rewrite Hst in Hst0.
    discriminate Hst0. }
  simpl in Hchecked.
  assert (Hm : maintains (everywhere (is_discontinued id0))
                 (OrderModel.create_unit ft uid pid qn snap
                    (OrderModel.notes orderData))).
  { pose proof (fun f u q up tp n =>
                  is_discontinued_insert_order f u pid q up tp n Hne).
    unfold OrderModel.create_unit. keep. }
  apply Hm, Hchecked.
Qed.

Lemma cancel_keeps_discontinued ft id reason :
  maintains (everywhere (is_discontinued id0))
    (OrderModel.cancel ft id reason).
Proof.
  pose proof is_discontinued_status_stable.
  pose proof (fun f q1 q2 pid => is_discontinued_restore_stock f q1 q2 pid).
  unfold OrderModel.cancel. keep.
Qed.

Lemma product_create_keeps_discontinued ft productData :
  maintains (everywhere (is_discontinued id0))
    (ProductModel.create ft productData).
Proof.
  pose proof (fun f n ds p c s k =>
                is_discontinued_insert_product f n ds p c s k).
  unfold ProductModel.create. keep.
Qed.

Lemma discontinue_keeps_discontinued ft id :
  maintains (everywhere (is_discontinued id0))
    (ProductModel.discontinue ft id).
Proof.
  pose proof (fun f => is_discontinued_relabel f id).
  unfold ProductModel.discontinue. keep.
Qed.

End Discontinued.

(** X24. A discontinued product stays discontinued under every sequence
    of [create], [updateStatus], [cancel], [ProductModel.create] and
    [discontinue], whichever of them fail: no order is placed on it, and
    the stock that a cancellation gives back does not relist it. Only
    [updateStock] and [ProductModel.update] can make it available again. *)
Theorem discontinued_stays_discontinued acts d id :
  txn d = None ->
  is_discontinued id (cur d) ->
  Forall no_catalogue_edit acts ->
  is_discontinued id (cur (act_all d acts)).
Proof.
  intros Htxn Hdisc Hacts.
  assert (H : everywhere (is_discontinued id) (act_all d acts)).
  { assert (Hd : everywhere (is_discontinued id) d)
      by (split; [exact Hdisc|rewrite Htxn; discriminate]).
    clear Htxn Hdisc. revert d Hd.
    induction Hacts as [|a acts Ha _ IH]; intros d Hd; [exact Hd|].
    simpl. apply IH. destruct a as [[]| |]; simpl; try destruct Ha.
    - apply create_keeps_discontinued, Hd.
    - apply updateStatus_keeps;
        [apply is_discontinued_status_stable|exact Hd].
    - apply cancel_keeps_discontinued, Hd.
    - apply product_create_keeps_discontinued, Hd.
    - apply discontinue_keeps_discontinued, Hd. }
  destruct H as [H _]. exact H.
Qed.

Lemma discontinued_stays_discontinued_witness :
  is_discontinued 1
    (cur (act_all
            (shop (item 2499.99 0 discontinued)
               {[ 1 := placed 3 2499.99 7499.97 pending None ]})
            [ Call (Cancel reliable 1 None);
              Call (Create reliable (request (Js.jsint 1))) ])).
Proof.
  apply discontinued_stays_discontinued.
  - reflexivity.
  - exists (item 2499.99 0 discontinued). split; [|reflexivity].
    vm_compute. reflexivity.
  - repeat constructor.
Defined.

(* ===================================================================== *)
(** * How often the status of an order can change *)
(* ===================================================================== *)

Lemma updateStatus_resolved ft id status notes d r d' :
  OrderModel.updateStatus ft id status notes d = (Return r, d') ->
  exists o s,
    orders (cur d) !! id = Some o
    /\ In (o_status o, s) transition_table
    /\ orders (cur d') !! id
       = Some (with_status o s (OrderModel.or_null notes)).
Proof.
  intros H.
  destruct (ft AtLookup) as [e0|] eqn:Hl.
  { unfold OrderModel.updateStatus, bind in H.
    rewrite order_findById_run, Hl in H. discriminate H. }
  destruct (orders (cur d) !! id) as [o|] eqn:Ho.
  - rewrite (updateStatus_run _ _ _ _ _ _ Ho Hl) in H.
    destruct (OrderModel.includes _ _) eqn:Hinc; [|discriminate].
    destruct (ft AtWrite); [discriminate|].
    destruct (includes_parses _ _ Hinc) as (s & Hs & Hin).
    rewrite Hs in H.
    pose proof (findByIdWithDetails_read_only (ft AtReadBack) id) as Hro.
    match type of H with ?m ?dd = _ => specialize (Hro dd) end.
    rewrite H in Hro. simpl in Hro. subst d'.
    exists o, s. split; [reflexivity|]. split; [exact Hin|].
    simpl. apply lookup_insert_eq.
  - unfold OrderModel.updateStatus, bind in H.
    rewrite order_findById_run, Hl, Ho in H. discriminate H.
Qed.

Lemma update_chain_bound ft id updates :
  forall d o,
    orders (cur d) !! id = Some o ->
    ((update_chain ft id updates d).1 + progress (o_status o) <= 3)%nat.
Proof.
  induction updates as [|[status notes] rest IH]; intros d o Ho.
  - simpl. destruct (o_status o); simpl; lia.
  - simpl.
    destruct (OrderModel.updateStatus ft id status notes d) as [[r|e] d1] eqn:H.
    + apply updateStatus_resolved in H as (o' & s & Ho' & Hin & Hnew).
      rewrite Ho in Ho'. injection Ho' as <-.
      specialize (IH d1 _ Hnew).
      destruct (update_chain ft id rest d1) as [n d2]. simpl in *.
      pose proof (transition_table_progress _ _ Hin). lia.
    + destruct (updateStatus_effect ft id status notes d)
        as [Hsame|(o' & s & Ho' & Hin & Hd1)]; rewrite H in *; simpl in *.
      * subst d1. apply (IH d o Ho).
      * rewrite Ho in Ho'. injection Ho' as <-.
        assert (Hnew : orders (cur d1) !! id
                       = Some (with_status o s (OrderModel.or_null notes)))
          by (rewrite Hd1; simpl; apply lookup_insert_eq).
        specialize (IH d1 _ Hnew). simpl in IH.
        pose proof (transition_table_progress _ _ Hin). lia.
Qed.

(** X25. However many status updates are attempted on an order, with
    whatever target statuses, at most three of them resolve; none does on
    an order that is delivered or cancelled. *)
Theorem at_most_three_status_updates ft id updates d o :
  orders (cur d) !! id = Some o ->
  ((update_chain ft id updates d).1 <= 3 - progress (o_status o))%nat.
Proof.
  intros Ho. pose proof (update_chain_bound ft id updates d o Ho). lia.
Qed.

Lemma at_most_three_status_updates_witness :
  le (update_chain reliable 1
        [("confirmed", None); ("pending", None); ("shipped", None);
         ("delivered", None); ("cancelled", None)]
        (shop (item 2499.99 3 available)
           {[ 1 := placed 2 2499.99 4999.98 pending None ]})).1
     (3%nat - progress (o_status (placed 2 2499.99 4999.98 pending None)))%nat.
Proof.
  apply at_most_three_status_updates. vm_compute. reflexivity.
Defined.
